(** * Zumen Connect worker: drawing-processing pipeline

    A shallow embedding of the Python worker (job queue orchestrator, stage
    runner, OCR stage, rule-based field extraction with its generative
    fallback, persistence of the extracted fields, vectorisation) together
    with the properties stated about it.

    Python [str] values are sequences of Unicode code points; dictionaries
    are finite maps; external services (Supabase, GCS, Vision, Gemini,
    Pinecone) are oracles that may raise. *)

From Stdlib Require Import NArith ZArith String Ascii List Lia.
From Stdlib Require Import Floats.SpecFloat.
From stdpp Require Import gmap strings list fin_maps.

Set Warnings "-register-all".

(** ** The Python runtime: strings *)

Module Py.

(** A Python [str] is a sequence of code points. *)
Abbreviation pystr := (list N).

(** UTF-8 decoding of the bytes of a source-file literal. *)
Fixpoint utf8_decode (bs : list N) : pystr :=
  match bs with
  | [] => []
  | b0 :: t0 =>
    if (b0 <? 128)%N then b0 :: utf8_decode t0
    else match t0 with
    | [] => []
    | b1 :: t1 =>
      if (b0 <? 224)%N then ((b0 - 192) * 64 + (b1 - 128))%N :: utf8_decode t1
      else match t1 with
      | [] => []
      | b2 :: t2 =>
        if (b0 <? 240)%N
        then ((b0 - 224) * 4096 + (b1 - 128) * 64 + (b2 - 128))%N :: utf8_decode t2
        else match t2 with
        | [] => []
        | b3 :: t3 =>
          ((b0 - 240) * 262144 + (b1 - 128) * 4096 + (b2 - 128) * 64 + (b3 - 128))%N
            :: utf8_decode t3
        end
      end
    end
  end.

(** [u "..."] is the Python literal ["..."]. *)
Definition u (s : string) : pystr :=
  utf8_decode (map N_of_ascii (list_ascii_of_string s)).

(** [str.isspace] of one character (CPython's [Py_UNICODE_ISSPACE]); also the
    class [\s] of [re] on [str] patterns. *)
Definition isspace (c : N) : bool :=
  ((9 <=? c) && (c <=? 13) || (28 <=? c) && (c <=? 32) || (c =? 133) || (c =? 160)
   || (c =? 5760) || (8192 <=? c) && (c <=? 8202) || (c =? 8232) || (c =? 8233)
   || (c =? 8239) || (c =? 8287) || (c =? 12288))%N.

(** Line boundaries of [str.splitlines]. *)
Definition islinebreak (c : N) : bool :=
  ((10 <=? c) && (c <=? 13) || (28 <=? c) && (c <=? 30) || (c =? 133)
   || (c =? 8232) || (c =? 8233))%N.

(** First code points of the runs of ten decimal digits (category Nd,
    Unicode 14.0 as shipped with CPython 3.11); the mathematical digits
    U+1D7CE..U+1D7FF are five further runs. *)
Definition decimal_runs : list N :=
  [48; 1632; 1776; 1984; 2406; 2534; 2662; 2790; 2918; 3046; 3174; 3302; 3430;
   3558; 3664; 3792; 3872; 4160; 4240; 6112; 6160; 6470; 6608; 6784; 6800; 6992;
   7088; 7232; 7248; 42528; 43216; 43264; 43472; 43504; 43600; 44016; 65296;
   66720; 68912; 69734; 69872; 69942; 70096; 70384; 70736; 70864; 71248; 71360;
   71472; 71904; 72016; 72784; 73040; 73120; 92768; 92864; 93008;
   120782; 120792; 120802; 120812; 120822;
   123200; 123632; 125264; 130032]%N.

(** The digit value of a decimal character ([int] of it), if it is one. *)
Definition decimal_value (c : N) : option N :=
  match List.find (fun lo => (lo <=? c) && (c <=? lo + 9))%N decimal_runs with
  | Some lo => Some (c - lo)%N
  | None => None
  end.

(** [str.isdecimal] of one character; also the class [\d] of [re]. *)
Definition isdecimal (c : N) : bool :=
  match decimal_value c with Some _ => true | None => false end.

(** [s.lstrip(chars)] for the characters accepted by [p]. *)
Fixpoint lstrip_by (p : N -> bool) (s : pystr) : pystr :=
  match s with
  | c :: s' => if p c then lstrip_by p s' else s
  | [] => []
  end.

Definition rstrip_by (p : N -> bool) (s : pystr) : pystr :=
  rev (lstrip_by p (rev s)).

(** [s.strip()]. *)
Definition strip (s : pystr) : pystr := rstrip_by isspace (lstrip_by isspace s).

(** [s.lstrip("|")]. *)
Definition lstrip_bar (s : pystr) : pystr := lstrip_by (N.eqb 124) s.

(** [s.splitlines()]: lines without their boundaries; CR LF is one boundary;
    no empty last line. [cur] is the current line, reversed. *)
Fixpoint splitlines_from (cur : pystr) (s : pystr) : list pystr :=
  match s with
  | [] => match cur with [] => [] | _ => [rev cur] end
  | c :: rest =>
    if islinebreak c then
      rev cur ::
        match rest with
        | c' :: rest' =>
          if (c =? 13)%N && (c' =? 10)%N then splitlines_from [] rest'
          else splitlines_from [] rest
        | [] => splitlines_from [] rest
        end
    else splitlines_from (c :: cur) rest
  end.

Definition splitlines (s : pystr) : list pystr := splitlines_from [] s.

(** [s.startswith(sub)]. *)
Fixpoint startswith (sub s : pystr) : bool :=
  match sub, s with
  | [], _ => true
  | a :: sub', b :: s' => (a =? b)%N && startswith sub' s'
  | _ :: _, [] => false
  end.

(** [s.find(sub)], with [None] for -1. *)
Fixpoint str_find (sub s : pystr) : option nat :=
  if startswith sub s then Some 0
  else match s with
       | [] => None
       | _ :: s' => S <$> str_find sub s'
       end.

(** [sub in s]. *)
Definition str_in (sub s : pystr) : bool :=
  match str_find sub s with Some _ => true | None => false end.

(** [s.split(sep)[0]] for a non-empty [sep]: the text before the first [sep]. *)
Definition split_head (sep s : pystr) : pystr :=
  match str_find sep s with Some i => take i s | None => s end.

(** [sep.join(parts)]. *)
Fixpoint join (sep : pystr) (parts : list pystr) : pystr :=
  match parts with
  | [] => []
  | [p] => p
  | p :: rest => p ++ sep ++ join sep rest
  end.

(** [s == t] on strings. *)
Definition str_eqb (s t : pystr) : bool := bool_decide (s = t).

(** [str(n)] of a natural number. *)
Fixpoint digits_of (fuel : nat) (n : N) (acc : pystr) : pystr :=
  match fuel with
  | O => acc
  | S fuel' =>
    let acc' := (48 + n mod 10)%N :: acc in
    if (n <? 10)%N then acc' else digits_of fuel' (n / 10)%N acc'
  end.

Definition str_of_N (n : N) : pystr := digits_of (S (N.to_nat (N.log2 n))) n [].

(** ** The Python runtime: the [re] module, for the patterns of this program *)

Inductive regex :=
| RChar (c : N)                 (* a literal character *)
| RSet (p : N -> bool)          (* a class: \d, \s, [0-2] *)
| RSeq (r1 r2 : regex)
| RAlt (r1 r2 : regex)          (* ordered alternative *)
| RStar (p : N -> bool)         (* greedy repetition of a class *)
| RBol                          (* ^ *)
| REol.                         (* $ *)

(** Greedy, backtracking repetition: the longest run first. [bol] tells whether
    the position is the start of the subject. *)
Fixpoint match_star {A} (p : N -> bool) (bol : bool) (s : pystr)
    (k : bool -> pystr -> option A) : option A :=
  match s with
  | c :: s' =>
    if p c then
      match match_star p false s' k with
      | Some r => Some r
      | None => k bol s
      end
    else k bol s
  | [] => k bol []
  end.

(** Backtracking matcher in continuation-passing style; the continuation
    receives what is left of the subject. *)
Fixpoint match_at {A} (r : regex) (bol : bool) (s : pystr)
    (k : bool -> pystr -> option A) : option A :=
  match r with
  | RChar c =>
    match s with
    | c' :: s' => if (c =? c')%N then k false s' else None
    | [] => None
    end
  | RSet p =>
    match s with
    | c' :: s' => if p c' then k false s' else None
    | [] => None
    end
  | RSeq r1 r2 => match_at r1 bol s (fun b s' => match_at r2 b s' k)
  | RAlt r1 r2 =>
    match match_at r1 bol s k with
    | Some x => Some x
    | None => match_at r2 bol s k
    end
  | RStar p => match_star p bol s k
  | RBol => if bol then k bol s else None
  | REol =>
    match s with
    | [] => k bol s
    | [c] => if (c =? 10)%N then k bol s else None
    | _ => None
    end
  end.

(** [pattern.match(s)]: the text left after the match at the start of [s]. *)
Definition re_match (r : regex) (s : pystr) : option pystr :=
  match_at r true s (fun _ rest => Some rest).

(** The matched text, [m.group(0)], given the subject and what the match left. *)
Definition group0 (s rest : pystr) : pystr := take (length s - length rest) s.

Fixpoint search_from (r : regex) (bol : bool) (s : pystr) : option pystr :=
  match match_at r bol s (fun _ rest => Some rest) with
  | Some rest => Some (group0 s rest)
  | None =>
    match s with
    | [] => None
    | _ :: s' => search_from r false s'
    end
  end.

(** [pattern.search(s)]: [group(0)] of the leftmost match. *)
Definition re_search (r : regex) (s : pystr) : option pystr := search_from r true s.

Definition digit : regex := RSet isdecimal.
Definition space_star : regex := RStar isspace.

Fixpoint rseq (rs : list regex) (last : regex) : regex :=
  match rs with
  | [] => last
  | r :: rs' => RSeq r (rseq rs' last)
  end.

(** The characters of a literal, in sequence, then [last]. *)
Definition rlit (s : pystr) (last : regex) : regex := rseq (map RChar s) last.

Definition range (lo hi : N) : regex := RSet (fun c => (lo <=? c) && (c <=? hi))%N.

(** ** The Python runtime: [datetime.strptime(s, "%Y-%m-%d")] *)

(** The pattern [_strptime] compiles for the format [%Y-%m-%d]:
    [(?P<Y>\d\d\d\d)-(?P<m>1[0-2]|0[1-9]|[1-9])-(?P<d>3[0-1]|[1-2]\d|0[1-9]|[1-9]| [1-9])]. *)
Definition ymd_regex : regex :=
  let Y := RSeq digit (RSeq digit (RSeq digit digit)) in
  let m := RAlt (RSeq (RChar 49) (range 48 50))
             (RAlt (RSeq (RChar 48) (range 49 57)) (range 49 57)) in
  let d := RAlt (RSeq (RChar 51) (range 48 49))
             (RAlt (RSeq (range 49 50) digit)
                (RAlt (RSeq (RChar 48) (range 49 57))
                   (RAlt (range 49 57) (RSeq (RChar 32) (range 49 57))))) in
  RSeq Y (RSeq (RChar 45) (RSeq m (RSeq (RChar 45) d))).

(** [int(s)] for a string of decimal characters, surrounding blanks allowed. *)
Fixpoint int_digits (acc : N) (s : pystr) : option N :=
  match s with
  | [] => Some acc
  | c :: s' =>
    match decimal_value c with
    | Some v => int_digits (acc * 10 + v) s'
    | None => None
    end
  end.

Definition int_of_str (s : pystr) : option N :=
  match strip s with
  | [] => None
  | t => int_digits 0 t
  end.

Definition is_leap (y : N) : bool :=
  ((y mod 4 =? 0) && (negb (y mod 100 =? 0) || (y mod 400 =? 0)))%N.

Definition days_in_month (y m : N) : N :=
  (if m =? 2 then (if is_leap y then 29 else 28)
   else if (m =? 4) || (m =? 6) || (m =? 9) || (m =? 11) then 30
   else 31)%N.

(** [datetime.strptime(s, "%Y-%m-%d")]: the date, or [None] where it raises
    [ValueError] (no match, unconverted data, or no such day). *)
Definition strptime_ymd (s : pystr) : option (N * N * N) :=
  match re_match ymd_regex s with
  | Some [] =>
    let year := int_of_str (take 4 s) in
    let rest := drop 5 s in
    let month := int_of_str (split_head [45] rest) in
    let day := int_of_str (drop (S (length (split_head [45] rest))) rest) in
    match year, month, day with
    | Some y, Some m, Some d =>
      if (1 <=? y) && (y <=? 9999) && (1 <=? m) && (m <=? 12)
         && (1 <=? d) && (d <=? days_in_month y m)
      then Some (y, m, d) else None
    | _, _, _ => None
    end
  | _ => None
  end%N.

(** ** The Python runtime: values *)

(** JSON-like values: what [json.loads] returns and what the stores hold. *)
Inductive pyval :=
| PNone
| PBool (b : bool)
| PInt (z : Z)
| PFloat (f : spec_float)
| PStr (s : pystr)
| PList (l : list pyval)
| PDict (d : gmap pystr pyval).

Abbreviation pydict := (gmap pystr pyval).

(** [bool(v)]. *)
Definition truthy (v : pyval) : bool :=
  match v with
  | PNone => false
  | PBool b => b
  | PInt z => negb (z =? 0)%Z
  | PFloat (S754_zero _) => false
  | PFloat _ => true
  | PStr s => match s with [] => false | _ => true end
  | PList l => match l with [] => false | _ => true end
  | PDict d => match map_to_list d with [] => false | _ => true end
  end.

(** [d.get(k)]: [None] for a missing key. *)
Definition dict_get (d : pydict) (k : pystr) : pyval := default PNone (d !! k).

(** [v is None]. *)
Definition is_none (v : pyval) : bool :=
  match v with PNone => true | _ => false end.

(** [v == ""]: only the empty string equals it. *)
Definition eq_empty_str (v : pyval) : bool :=
  match v with PStr [] => true | _ => false end.

(** [isinstance(v, list)]. *)
Definition is_list (v : pyval) : bool :=
  match v with PList _ => true | _ => false end.

(** Truthiness of a [str | None] local variable. *)
Definition otruthy (v : option pystr) : bool :=
  match v with Some (_ :: _) => true | _ => false end.

End Py.

Import Py.

(** ** The stores and the external services *)

Module Ext.

(** A raised exception: its class name and [str(e)]. *)
Record exn := Exn { exn_type : pystr; exn_message : pystr }.

Inductive outcome (A : Type) :=
| Ret (a : A)
| Raise (e : exn).
Arguments Ret {A} a.
Arguments Raise {A} e.

Abbreviation pybytes := (list N).

(** A row of [processing_jobs]; times are microseconds since the epoch. *)
Record job := Job {
  job_id : pystr;
  job_drawing_id : pystr;
  job_status : pystr;
  job_step : option pystr;
  job_error_message : option pystr;
  job_started_at : option N;
  job_finished_at : option N;
  job_created_at : N
}.

(** The payload of an update of a job: the keys that are present. *)
Record job_payload := JobPayload {
  p_status : pystr;
  p_step : option pystr;
  p_error_message : option pystr;
  p_started_at : option N;
  p_finished_at : option N
}.

(** A row of [drawings]: the owner, and the other columns by name
    ([status], [extracted_json], [title], ..., [tags]). *)
Record drawing := Drawing {
  d_company_id : option pystr;
  d_fields : pydict
}.

(** A row of [drawing_files]. *)
Record drawing_file := DrawingFile {
  file_id : pystr;
  file_drawing_id : pystr;
  file_type : pystr;
  file_gcs_path : pystr;
  file_mime : pystr;
  file_size : option N;
  file_page_no : option N;
  file_image_width : option N;
  file_image_height : option N
}.

(** The payload of an insert into [drawing_files]. *)
Record file_payload := FilePayload {
  fp_drawing_id : pystr;
  fp_type : pystr;
  fp_gcs_path : pystr;
  fp_mime : pystr;
  fp_size : option N;
  fp_page_no : option N
}.

(** A recognised word with its bounding box. *)
Record ocr_token := OcrToken {
  tok_text : pystr;
  tok_x_min : Z;
  tok_y_min : Z;
  tok_x_max : Z;
  tok_y_max : Z;
  tok_confidence : option spec_float;
  tok_level : pystr
}.

(** A row of [ocr_tokens]. *)
Record token_row := TokenRow {
  tr_drawing_id : pystr;
  tr_page_file_id : pystr;
  tr_page_no : N;
  tr_token : ocr_token
}.

(** What [extract_text_with_coordinates] returns. *)
Record ocr_output := OcrOutput {
  out_text : pystr;
  out_tokens : list ocr_token;
  out_image_width : N;
  out_image_height : N
}.

(** What the Vision API answers for an image whose size PIL could read. *)
Record vision_response := VisionResponse {
  vr_image_width : N;
  vr_image_height : N;
  vr_error_message : pystr;
  vr_full_text_annotation : option (pystr * list ocr_token)
}.

(** The queries and commands sent to Supabase. *)
Inductive db_op :=
| SelectQueuedJob
| UpdateJob (id : pystr) (payload : job_payload)
| UpdateDrawing (id : pystr) (payload : pydict)
| SelectDrawing (id : pystr) (single : bool)
| SelectFiles (drawing_id type : pystr) (mime : option pystr) (ordered limit1 : bool)
| UpdateFileSize (id : pystr) (width height : N)
| InsertFile (payload : file_payload)
| DeleteTokens (page_file_id : pystr)
| InsertTokens (batch : list token_row).

(** One interaction with the outside, with how it ended. *)
Inductive event :=
| EvDb (op : db_op) (failed : option exn)
| EvNow (t : N)
| EvGcsDownload (path : pystr) (r : outcome pybytes)
| EvGcsUpload (path : pystr) (data : pybytes) (content_type : pystr) (failed : option exn)
| EvPdfConvert (pdf : pybytes) (r : outcome (list pybytes))
| EvThumbnail (page : pybytes) (r : outcome pybytes)
| EvVision (image : pybytes) (r : outcome vision_response)
| EvGeminiMultimodal (image : pybytes) (ocr_text mime : pystr) (r : option pydict)
| EvGeminiText (ocr_text : pystr) (r : option pydict)
| EvEmbedding (text : pystr) (r : outcome (option (list spec_float)))
| EvPineconeIndex (failed : option exn)
| EvPineconeUpsert (id : pystr) (values : list spec_float) (company_id drawing_id : pystr)
    (failed : option exn).

(** The persistent state, and the history of interactions. *)
Record world := World {
  jobs : list job;
  drawings : gmap pystr drawing;
  files : list drawing_file;
  tokens : list token_row;
  trace : list event
}.

(** The settings and the behaviour of everything outside the worker. An
    oracle sees the whole state, the history included. *)
Record env := Env {
  SUPABASE_URL : pystr;
  SUPABASE_SERVICE_ROLE_KEY : pystr;
  PINECONE_API_KEY : pystr;
  PINECONE_INDEX_NAME : pystr;
  GEMINI_API_KEY : pystr;
  (* Python's str() of a value that is no string *)
  str_of_value : pyval -> pystr;
  (* strftime("%Y-%m-%d") of a time *)
  strftime_date : N -> pystr;
  (* create_client rejecting the configured URL or key *)
  client_error : option exn;
  (* a request to Supabase failing *)
  db_fault : world -> db_op -> option exn;
  (* .single() on no row: the error raised, or data = None *)
  single_no_row : world -> option exn;
  (* the id the database gives a new row *)
  new_id : world -> pystr;
  now : world -> N;
  gcs_download : world -> pystr -> outcome pybytes;
  gcs_upload : world -> pystr -> pybytes -> pystr -> option exn;
  (* pdf2image, each page saved as PNG *)
  convert_from_bytes : world -> pybytes -> outcome (list pybytes);
  (* the PNG of the 400x400 thumbnail of a page *)
  thumbnail_png : world -> pybytes -> outcome pybytes;
  vision : world -> pybytes -> outcome vision_response;
  (* what the body of the call returns once a model is configured: the
     parsed JSON answer, or {} where building the prompt, the request or
     the parsing fails; the arguments are those the function receives *)
  gemini_multimodal : world -> pybytes -> pystr -> pystr -> pydict;
  gemini_text : world -> pystr -> pydict;
  gemini_embedding : world -> pystr -> outcome (option (list spec_float));
  pinecone_index : world -> option exn;
  pinecone_upsert : world -> pystr -> list spec_float -> pystr -> pystr -> option exn
}.

(** *** Computations: state and exceptions *)

Definition M (A : Type) : Type := world -> outcome A * world.

Definition ret {A} (a : A) : M A := fun w => (Ret a, w).

Definition raise {A} (e : exn) : M A := fun w => (Raise e, w).

Definition bind {A B} (m : M A) (k : A -> M B) : M B :=
  fun w =>
    match m w with
    | (Ret a, w') => k a w'
    | (Raise e, w') => (Raise e, w')
    end.

#[global] Instance M_ret : MRet M := @ret.
#[global] Instance M_bind : MBind M := fun A B k m => bind m k.

(** [try: m except Exception as e: h e]. What [m] wrote before raising stays. *)
Definition try_except {A} (m : M A) (h : exn -> M A) : M A :=
  fun w =>
    match m w with
    | (Ret a, w') => (Ret a, w')
    | (Raise e, w') => h e w'
    end.

Definition get_world : M world := fun w => (Ret w, w).

Definition record (ev : event) (w : world) : world :=
  World (jobs w) (drawings w) (files w) (tokens w) (trace w ++ [ev]).

Definition emit (ev : event) : M unit := fun w => (Ret tt, record ev w).

(** Lift an oracle answer that may be an exception. *)
Definition of_outcome {A} (r : outcome A) : M A :=
  match r with Ret a => ret a | Raise e => raise e end.

Definition of_failure (r : option exn) : M unit :=
  match r with None => ret tt | Some e => raise e end.

(** [for x in xs: body x]. *)
Fixpoint for_each {A} (xs : list A) (body : A -> M unit) : M unit :=
  match xs with
  | [] => ret tt
  | x :: xs' => _ ← body x; for_each xs' body
  end.

(** *** Supabase *)

(** [create_client(url, key)]. *)
Definition create_client (e : env) : M unit :=
  match SUPABASE_URL e with
  | [] => raise (Exn (u "SupabaseException") (u "supabase_url is required"))
  | _ =>
    match SUPABASE_SERVICE_ROLE_KEY e with
    | [] => raise (Exn (u "SupabaseException") (u "supabase_key is required"))
    | _ => of_failure (client_error e)
    end
  end.

(** [.execute()] of a request: it fails as the oracle says, else it runs. *)
Definition execute {A} (e : env) (op : db_op) (run : world -> A * world) : M A :=
  fun w =>
    match db_fault e w op with
    | Some err => (Raise err, record (EvDb op (Some err)) w)
    | None => let '(a, w') := run w in (Ret a, record (EvDb op None) w')
    end.

Definition set_jobs (js : list job) (w : world) : world :=
  World js (drawings w) (files w) (tokens w) (trace w).
Definition set_drawings (ds : gmap pystr drawing) (w : world) : world :=
  World (jobs w) ds (files w) (tokens w) (trace w).
Definition set_files (fs : list drawing_file) (w : world) : world :=
  World (jobs w) (drawings w) fs (tokens w) (trace w).
Definition set_tokens (ts : list token_row) (w : world) : world :=
  World (jobs w) (drawings w) (files w) ts (trace w).

(** The queued job created first; of several with that time, the first row. *)
Fixpoint oldest_queued (js : list job) (best : option job) : option job :=
  match js with
  | [] => best
  | j :: js' =>
    if bool_decide (job_status j = u "queued") then
      match best with
      | Some b =>
        if (job_created_at j <? job_created_at b)%N then oldest_queued js' (Some j)
        else oldest_queued js' best
      | None => oldest_queued js' (Some j)
      end
    else oldest_queued js' best
  end.

Definition select_queued_job (e : env) : M (option job) :=
  execute e SelectQueuedJob (fun w => (oldest_queued (jobs w) None, w)).

Definition apply_job_payload (p : job_payload) (j : job) : job :=
  Job (job_id j) (job_drawing_id j) (p_status p)
      (match p_step p with Some s => Some s | None => job_step j end)
      (match p_error_message p with Some s => Some s | None => job_error_message j end)
      (match p_started_at p with Some t => Some t | None => job_started_at j end)
      (match p_finished_at p with Some t => Some t | None => job_finished_at j end)
      (job_created_at j).

(** [update(payload).eq("id", id)] on the rows of the table. *)
Definition patch_jobs (id : pystr) (p : job_payload) (js : list job) : list job :=
  map (fun j => if bool_decide (job_id j = id) then apply_job_payload p j else j) js.

Definition update_job (e : env) (id : pystr) (p : job_payload) : M unit :=
  execute e (UpdateJob id p) (fun w => (tt, set_jobs (patch_jobs id p (jobs w)) w)).

(** [update(payload).eq("id", id)]: the keys of the payload replace the
    columns of that name; the other columns stay. *)
Definition update_drawing (e : env) (id : pystr) (payload : pydict) : M unit :=
  execute e (UpdateDrawing id payload) (fun w =>
    (tt, match drawings w !! id with
         | Some d =>
           set_drawings (<[id := Drawing (d_company_id d) (payload ∪ d_fields d)]> (drawings w)) w
         | None => w
         end)).

(** [select(...).eq("id", id).execute()]: the rows, at most one. *)
Definition select_drawing (e : env) (id : pystr) : M (option drawing) :=
  execute e (SelectDrawing id false) (fun w => (drawings w !! id, w)).

(** [select(...).eq("id", id).single().execute()]. *)
Definition select_drawing_single (e : env) (id : pystr) : M (option drawing) :=
  r ← execute e (SelectDrawing id true) (fun w => (drawings w !! id, w));
  match r with
  | Some d => ret (Some d)
  | None => w ← get_world; _ ← of_failure (single_no_row e w); ret None
  end.

(** Insertion into a list ordered by page number, ascending, rows without
    one last; rows of equal page number keep their order. *)
Definition page_le (a b : option N) : bool :=
  match a, b with
  | Some x, Some y => (x <=? y)%N
  | Some _, None => true
  | None, Some _ => false
  | None, None => true
  end.

Fixpoint insert_by_page (f : drawing_file) (fs : list drawing_file) : list drawing_file :=
  match fs with
  | [] => [f]
  | g :: fs' =>
    if page_le (file_page_no g) (file_page_no f) then g :: insert_by_page f fs'
    else f :: g :: fs'
  end.

Definition order_by_page (fs : list drawing_file) : list drawing_file :=
  foldl (fun acc f => insert_by_page f acc) [] fs.

Definition select_files (e : env) (drawing_id type : pystr) (mime : option pystr)
    (ordered limit1 : bool) : M (list drawing_file) :=
  execute e (SelectFiles drawing_id type mime ordered limit1) (fun w =>
    let rows := List.filter (fun f =>
                    bool_decide (file_drawing_id f = drawing_id)
                    && bool_decide (file_type f = type)
                    && match mime with Some m => bool_decide (file_mime f = m) | None => true end)
                  (files w) in
    let rows := if ordered then order_by_page rows else rows in
    (if limit1 then take 1 rows else rows, w)).

Definition update_file_size (e : env) (id : pystr) (width height : N) : M unit :=
  execute e (UpdateFileSize id width height) (fun w =>
    (tt, set_files (map (fun f =>
        if bool_decide (file_id f = id)
        then DrawingFile (file_id f) (file_drawing_id f) (file_type f) (file_gcs_path f)
               (file_mime f) (file_size f) (file_page_no f) (Some width) (Some height)
        else f) (files w)) w)).

Definition insert_file (e : env) (p : file_payload) : M unit :=
  execute e (InsertFile p) (fun w =>
    (tt, set_files (files w ++
        [DrawingFile (new_id e w) (fp_drawing_id p) (fp_type p) (fp_gcs_path p) (fp_mime p)
           (fp_size p) (fp_page_no p) None None]) w)).

Definition delete_tokens (e : env) (page_file_id : pystr) : M unit :=
  execute e (DeleteTokens page_file_id) (fun w =>
    (tt, set_tokens (List.filter (fun t => negb (bool_decide (tr_page_file_id t = page_file_id)))
                            (tokens w)) w)).

Definition insert_tokens (e : env) (batch : list token_row) : M unit :=
  execute e (InsertTokens batch) (fun w => (tt, set_tokens (tokens w ++ batch) w)).

(** *** The other services *)

Definition utc_now (e : env) : M N :=
  fun w => let t := now e w in (Ret t, record (EvNow t) w).

Definition download_blob (e : env) (path : pystr) : M pybytes :=
  fun w => let r := gcs_download e w path in
           of_outcome r (record (EvGcsDownload path r) w).

Definition upload_blob (e : env) (data : pybytes) (path content_type : pystr) : M unit :=
  fun w => let r := gcs_upload e w path data content_type in
           of_failure r (record (EvGcsUpload path data content_type r) w).

(** [convert_from_bytes(pdf_bytes, dpi=200)], the pages as PNG. *)
Definition pdf_to_images (e : env) (pdf_bytes : pybytes) : M (list pybytes) :=
  fun w => let r := convert_from_bytes e w pdf_bytes in
           of_outcome r (record (EvPdfConvert pdf_bytes r) w).

Definition render_thumbnail (e : env) (page : pybytes) : M pybytes :=
  fun w => let r := thumbnail_png e w page in
           of_outcome r (record (EvThumbnail page r) w).

(** PIL reading the size, then [document_text_detection]. *)
Definition annotate_image (e : env) (image_bytes : pybytes) : M vision_response :=
  fun w => let r := vision e w image_bytes in
           of_outcome r (record (EvVision image_bytes r) w).

(** [generate_content] with the parsing of the answer. *)
Definition ask_gemini_text (e : env) (ocr_text : pystr) : M pydict :=
  fun w => let r := gemini_text e w ocr_text in
           (Ret r, record (EvGeminiText ocr_text (Some r)) w).

Definition ask_gemini_multimodal (e : env) (image_bytes : pybytes) (ocr_text mime_type : pystr)
    : M pydict :=
  fun w => let r := gemini_multimodal e w image_bytes ocr_text mime_type in
           (Ret r, record (EvGeminiMultimodal image_bytes ocr_text mime_type (Some r)) w).

(** [genai.embed_content] and the reading of its ["embedding"]. *)
Definition embed_content (e : env) (text : pystr) : M (option (list spec_float)) :=
  fun w => let r := gemini_embedding e w text in
           of_outcome r (record (EvEmbedding text r) w).

(** [Pinecone(api_key=...).Index(index_name)]. *)
Definition open_index (e : env) : M unit :=
  fun w => let r := pinecone_index e w in of_failure r (record (EvPineconeIndex r) w).

(** [index.upsert(vectors=[{"id", "values", "metadata"}])]. *)
Definition upsert_vector (e : env) (id : pystr) (values : list spec_float)
    (company_id drawing_id : pystr) : M unit :=
  fun w => let r := pinecone_upsert e w id values company_id drawing_id in
           of_failure r (record (EvPineconeUpsert id values company_id drawing_id r) w).

End Ext.

Import Ext.

(** ** app/services/pdf_processor.py *)

Module pdf_processor.

(** [True] stands for the client, [False] for [None]. *)
Definition _get_supabase (e : env) : M bool :=
  match SUPABASE_URL e, SUPABASE_SERVICE_ROLE_KEY e with
  | [], _ | _, [] => ret false
  | _, _ => _ ← create_client e; ret true
  end.

Definition _get_company_id (e : env) (drawing_id : pystr) : M (option pystr) :=
  supabase ← _get_supabase e;
  if supabase : bool then
    r ← select_drawing e drawing_id;
    match r with
    | None => ret None
    | Some d => ret (d_company_id d)
    end
  else ret None.

Definition _register_drawing_file (e : env) (payload : file_payload) : M unit :=
  supabase ← _get_supabase e;
  if supabase : bool then insert_file e payload else ret tt.

(** [f"{n:03d}"]. *)
Definition format_03d (n : N) : pystr :=
  let s := str_of_N n in replicate (3 - length s) 48%N ++ s.

(** [enumerate(xs, start=n)]. *)
Fixpoint enumerate_from {A} (n : N) (xs : list A) : list (N * A) :=
  match xs with
  | [] => []
  | x :: xs' => (n, x) :: enumerate_from (n + 1) xs'
  end.

Definition size_of (data : pybytes) : N := N.of_nat (length data).

Definition process_pdf (e : env) (drawing_id pdf_gcs_path : pystr) : M unit :=
  company_id ← _get_company_id e drawing_id;
  match company_id with
  | None | Some [] =>
    raise (Exn (u "ValueError") (u "company_id not found for drawing_id=" ++ drawing_id))
  | Some company_id =>
    t1 ← utc_now e;
    let date_str := strftime_date e t1 in
    t2 ← utc_now e;
    let timestamp := str_of_N (t2 / 1000) in
    pdf_bytes ← download_blob e pdf_gcs_path;
    images ← pdf_to_images e pdf_bytes;
    match images with
    | [] => raise (Exn (u "ValueError") (u "PDFから画像が生成されませんでした"))
    | first :: _ =>
      thumbnail_data ← render_thumbnail e first;
      let prefix := u "drawings/" ++ company_id ++ u "/" ++ date_str ++ u "/" ++ timestamp in
      let thumbnail_gcs_path := prefix ++ u "_thumbnail.png" in
      _ ← upload_blob e thumbnail_data thumbnail_gcs_path (u "image/png");
      _ ← _register_drawing_file e
            (FilePayload drawing_id (u "thumbnail") thumbnail_gcs_path (u "image/png")
               (Some (size_of thumbnail_data)) None);
      for_each (enumerate_from 1 images) (fun '(page_no, page_data) =>
        let page_gcs_path := prefix ++ u "_page_" ++ format_03d page_no ++ u ".png" in
        _ ← upload_blob e page_data page_gcs_path (u "image/png");
        _register_drawing_file e
          (FilePayload drawing_id (u "page_image") page_gcs_path (u "image/png")
             (Some (size_of page_data)) (Some page_no)))
    end
  end.

End pdf_processor.

(** ** app/services/ocr_service.py *)

Module ocr_service.

Definition _download_image_from_gcs (e : env) (gcs_path : pystr) : M pybytes :=
  download_blob e gcs_path.

(** [None] stands for the error case. *)
Definition get_image_bytes_from_gcs (e : env) (gcs_path : pystr) : M (option pybytes) :=
  try_except (b ← _download_image_from_gcs e gcs_path; ret (Some b))
             (fun _ => ret None).

(** The box [(x_min, y_min, x_max, y_max)] around the vertices of a word, as
    the tokens of a Vision answer carry it; [(0, 0, 0, 0)] without vertices. *)
Definition _normalize_bounding_box (vertices : list (Z * Z)) : Z * Z * Z * Z :=
  match vertices with
  | [] => (0, 0, 0, 0)%Z
  | v :: vs =>
    let x_coords := map fst vs in
    let y_coords := map snd vs in
    (foldl Z.min v.1 x_coords, foldl Z.min v.2 y_coords,
     foldl Z.max v.1 x_coords, foldl Z.max v.2 y_coords)
  end.

Definition extract_text_with_coordinates (e : env) (image_bytes : pybytes) : M ocr_output :=
  try_except
    (response ← annotate_image e image_bytes;
     let image_width := vr_image_width response in
     let image_height := vr_image_height response in
     match vr_error_message response with
     | _ :: _ => ret (OcrOutput [] [] image_width image_height)
     | [] =>
       match vr_full_text_annotation response with
       | None => ret (OcrOutput [] [] image_width image_height)
       | Some (text, words) =>
         ret (OcrOutput (strip text)
                (List.filter (fun t => match strip (tok_text t) with [] => false | _ => true end)
                             words)
                image_width image_height)
       end
     end)
    (fun _ => ret (OcrOutput [] [] 0 0)).

(** [{"page_no": page_no, "text": text}]. *)
Definition page_entry (page_no : N) (text : pystr) : pyval :=
  PDict (list_to_map [(u "page_no", PInt (Z.of_N page_no)); (u "text", PStr text)]).

(** [f"[ページ {page_no}]\n{text}"]. *)
Definition page_block (page_no : N) (text : pystr) : pystr :=
  u "[ページ " ++ str_of_N page_no ++ u "]" ++ [10%N] ++ text.

(** [page_file.get("page_no") or 0]. *)
Definition page_number (page_file : drawing_file) : N :=
  match file_page_no page_file with
  | Some (Npos n) => Npos n
  | _ => 0%N
  end.

(** [if text: all_texts.append(f"[ページ {page_no}]\n{text}")]. *)
Definition add_block (all_texts : list pystr) (page_no : N) (text : pystr) : list pystr :=
  match text with
  | [] => all_texts
  | _ => all_texts ++ [page_block page_no text]
  end.

(** [records[i : i + size] for i in range(0, len(records), size)]. *)
Fixpoint batches_of {A} (fuel size : nat) (records : list A) : list (list A) :=
  match fuel, records with
  | S fuel', _ :: _ => take size records :: batches_of fuel' size (drop size records)
  | _, _ => []
  end.

(** The inner [try] of a page: the image size and the tokens (lines 294-326). *)
Definition persist_page (e : env) (drawing_id page_file_id : pystr) (page_no : N)
    (out : ocr_output) : M unit :=
  _ ← update_file_size e page_file_id (out_image_width out) (out_image_height out);
  _ ← delete_tokens e page_file_id;
  match out_tokens out with
  | [] => ret tt
  | tokens =>
    let token_records := map (TokenRow drawing_id page_file_id page_no) tokens in
    for_each (batches_of (length token_records) 1000 token_records) (insert_tokens e)
  end.

(** One iteration of [for page_file in page_images.data], on the lists
    [pages] and [all_texts]. The entries are added before the inner [try],
    and nothing after them raises, so the outer handler meets the lists as
    they were when the iteration began. *)
Definition ocr_page (e : env) (drawing_id : pystr) (acc : list pyval * list pystr)
    (page_file : drawing_file) : M (list pyval * list pystr) :=
  let '(pages, all_texts) := acc in
  let page_file_id := file_id page_file in
  let page_no := page_number page_file in
  let gcs_path := file_gcs_path page_file in
  try_except
    (image_bytes ← _download_image_from_gcs e gcs_path;
     ocr_result ← extract_text_with_coordinates e image_bytes;
     let text := out_text ocr_result in
     let pages := pages ++ [page_entry page_no text] in
     let all_texts := add_block all_texts page_no text in
     _ ← try_except (persist_page e drawing_id page_file_id page_no ocr_result)
                    (fun db_err => ret tt);
     ret (pages, all_texts))
    (fun _ => ret (pages ++ [page_entry page_no []], all_texts)).

Fixpoint ocr_pages (e : env) (drawing_id : pystr) (page_files : list drawing_file)
    (acc : list pyval * list pystr) : M (list pyval * list pystr) :=
  match page_files with
  | [] => ret acc
  | page_file :: rest =>
    acc' ← ocr_page e drawing_id acc page_file;
    ocr_pages e drawing_id rest acc'
  end.

(** [{"ocr_text": ocr_text, "pages": pages}]. *)
Definition ocr_document (ocr_text : pystr) (pages : list pyval) : pydict :=
  list_to_map [(u "ocr_text", PStr ocr_text); (u "pages", PList pages)].

Definition process_ocr_for_drawing (e : env) (drawing_id : pystr) : M pydict :=
  _ ← create_client e;
  page_images ← select_files e drawing_id (u "page_image") None true false;
  match page_images with
  | [] => ret (ocr_document [] [])
  | _ =>
    '(pages, all_texts) ← ocr_pages e drawing_id page_images ([], []);
    ret (ocr_document (join [10; 10]%N all_texts) pages)
  end.

End ocr_service.
(** ** app/services/ai_extractor.py *)

Module ai_extractor.

(** The page separators tried, in this order. *)
Definition page_separators : list pystr :=
  [u "[ページ 2]"; u "[ページ 3]"; u "[ページ 4]"; u "[ページ 5]"].

(** The [for sep in (...)] loop of [_first_page_ocr_text]. *)
Fixpoint first_page_loop (seps : list pystr) (ocr_text : pystr) : pystr :=
  match seps with
  | [] => ocr_text
  | sep :: seps' =>
    if str_in sep ocr_text then strip (split_head sep ocr_text)
    else first_page_loop seps' ocr_text
  end.

Definition _first_page_ocr_text (ocr_text : pystr) : pystr :=
  match ocr_text with
  | [] => ocr_text
  | _ => first_page_loop page_separators ocr_text
  end.

Definition _KNOWN_LABELS : gset pystr :=
  list_to_set
    [u "名称"; u "品名"; u "材質"; u "表面処理"; u "図番"; u "熱処理"; u "処理指示";
     u "用紙"; u "尺度"; u "作成者"; u "確認者"; u "承認者"; u "部品図"; u "組立図"].

Definition _EXTRACTION_LABELS : gset pystr :=
  list_to_set
    [u "名称"; u "品名"; u "材質"; u "表面処理"; u "図番"; u "熱処理"; u "処理指示";
     u "出図日"].

Definition _LABEL_TO_KEY : gmap pystr pystr :=
  list_to_map
    [(u "名称", u "part_name"); (u "品名", u "part_name"); (u "材質", u "material");
     (u "表面処理", u "surface_treatment"); (u "図番", u "drawing_no");
     (u "熱処理", u "process_note"); (u "処理指示", u "process_note");
     (u "出図日", u "issue_date"); (u "部品図", u "title"); (u "組立図", u "title")].

(** [\d{4}-\d{4}] *)
Definition _DRAWING_NO_PATTERN : regex :=
  rseq [digit; digit; digit; digit; RChar 45; digit; digit; digit] digit.

(** [^\[ページ\s*\d+\]$] *)
Definition _PAGE_SEP_PATTERN : regex :=
  RSeq RBol (rlit (u "[ページ") (rseq [space_star; digit; RStar isdecimal; RChar 93] REol)).

(** [\d{4}-\d{2}-\d{2}] and [\d{4}/\d{2}/\d{2}], searched in a rule-extracted date. *)
Definition date_pattern (sep : N) : regex :=
  rseq [digit; digit; digit; digit; RChar sep; digit; digit; RChar sep; digit] digit.

Definition _SURFACE_OR_MATERIAL_TERMS : gset pystr :=
  list_to_set
    [u "酸洗い"; u "電着塗装"; u "黒染め"; u "バフ研磨"; u "無処理"; u "めっき";
     u "研磨"; u "塗装"; u "クロメート"; u "アルマイト"; u "リン酸塩処理"].

Definition _NON_DRAWING_NO_TERMS : gset pystr :=
  list_to_set [u "IC"; u "IA"; u "IB"; u "A"; u "B"; u "A3"; u "A4"; u "1/1"].

(** [line in _KNOWN_LABELS]. *)
Definition is_label (line : pystr) : bool := bool_decide (line ∈ _KNOWN_LABELS).

(** The record every extraction starts from. *)
Definition empty_result : pydict :=
  list_to_map
    [(u "title", PNone); (u "drawing_no", PNone); (u "part_name", PNone);
     (u "material", PNone); (u "surface_treatment", PNone); (u "process_note", PNone);
     (u "issue_date", PNone); (u "tags", PList [])].

(** The [while j < len(lines)] loop: the first line that is no label. *)
Fixpoint first_non_label (ls : list pystr) : option pystr :=
  match ls with
  | [] => None
  | l :: ls' => if is_label l then first_non_label ls' else Some (strip l)
  end.

(** A neighbouring line as a value: there, and not a label. *)
Definition neighbour (l : option pystr) : option pystr :=
  match l with
  | Some l => if is_label l then None else Some (strip l)
  | None => None
  end.

Definition name_keys : list pystr := [u "part_name"; u "title"].

Definition plain_keys : list pystr :=
  [u "part_name"; u "material"; u "surface_treatment"; u "process_note";
   u "drawing_no"; u "title"].

(** [re_match] as a condition. *)
Definition matches (r : regex) (s : pystr) : bool :=
  match re_match r s with Some _ => true | None => false end.

Definition found (r : regex) (s : pystr) : bool :=
  match re_search r s with Some _ => true | None => false end.

(** The candidate value picked for the label at line [i] (lines 105-134). *)
Definition pick_value (lines : list pystr) (i : nat) (out_key : pystr) : option pystr :=
  let value_next := neighbour (lines !! S i) in
  let value_prev := match i with O => None | S i' => neighbour (lines !! i') end in
  let value_first_non_label := first_non_label (drop (S i) lines) in
  if bool_decide (out_key ∈ name_keys) then
    if otruthy value_next
       && bool_decide (default [] value_next ∈ _SURFACE_OR_MATERIAL_TERMS)
    then (if otruthy value_prev then value_prev else value_next)
    else (if otruthy value_next then value_next else value_prev)
  else
    let value := if otruthy value_next then value_next else value_first_non_label in
    match value with
    | None => value_prev
    | Some _ => value
    end.

(** The normalisation and the rejections of a picked value (lines 136-155). *)
Definition clean_value (result : pydict) (out_key : pystr) (value : option pystr)
    : option pystr :=
  let value :=
    match value with
    | Some (c :: v) =>
      let v' := strip (lstrip_bar (c :: v)) in
      if matches _PAGE_SEP_PATTERN v' then None else Some v'
    | _ => value
    end in
  let value :=
    match value with
    | Some (c :: v) =>
      if bool_decide (out_key ∈ name_keys) then
        if bool_decide ((c :: v) ∈ _SURFACE_OR_MATERIAL_TERMS) then None
        else if matches _DRAWING_NO_PATTERN (c :: v) then None
        else value
      else value
    | _ => value
    end in
  let value :=
    match value with
    | Some (c :: v) =>
      if bool_decide (out_key = u "drawing_no")
         && bool_decide ((c :: v) ∈ _NON_DRAWING_NO_TERMS)
      then None else value
    | _ => value
    end in
  match value with
  | Some (c :: v) =>
    if bool_decide (out_key = u "process_note")
       && match dict_get result (u "material") with
          | PStr m => str_eqb (c :: v) m
          | _ => false
          end
    then None else value
  | _ => value
  end.

(** One iteration of [for i, line in enumerate(lines)]. *)
Definition rule_step (lines : list pystr) (result : pydict) (i : nat) (line : pystr)
    : pydict :=
  if negb (is_label line) then result
  else match _LABEL_TO_KEY !! line with
  | None | Some [] => result
  | Some out_key =>
    match clean_value result out_key (pick_value lines i out_key) with
    | Some (c :: v) =>
      let value := c :: v in
      if bool_decide (out_key ∈ plain_keys) then <[out_key := PStr value]> result
      else if bool_decide (out_key = u "issue_date") then
        if found (date_pattern 45) value || found (date_pattern 47) value
        then <[out_key := PStr value]> result
        else result
      else result
    | _ => result
    end
  end.

Fixpoint rule_loop (lines : list pystr) (result : pydict) (i : nat) (todo : list pystr)
    : pydict :=
  match todo with
  | [] => result
  | line :: todo' => rule_loop lines (rule_step lines result i line) (S i) todo'
  end.

(** The line scan: the loop over all lines, from the empty record. *)
Definition line_scan (lines : list pystr) : pydict := rule_loop lines empty_result 0 lines.

(** The regex pass over the whole text for the drawing number (lines 164-171). *)
Definition drawing_no_by_regex (ocr_text : pystr) (result : pydict) : pydict :=
  match re_search _DRAWING_NO_PATTERN ocr_text with
  | Some candidate =>
    let current := dict_get result (u "drawing_no") in
    if negb (truthy current)
       || negb match current with PStr c => matches _DRAWING_NO_PATTERN c | _ => false end
    then <[u "drawing_no" := PStr candidate]> result
    else result
  | None => result
  end.

(** [lines = [line.strip() for line in ocr_text.splitlines() if line.strip()]]. *)
Definition stripped_lines (ocr_text : pystr) : list pystr :=
  map strip
    (List.filter (fun line => match strip line with [] => false | _ => true end)
                 (splitlines ocr_text)).

Definition _extract_by_rules (ocr_text : pystr) : pydict :=
  let result := empty_result in
  if match ocr_text with [] => true | _ => false end
     || match strip ocr_text with [] => true | _ => false end
  then result
  else
    let lines := stripped_lines ocr_text in
    match lines with
    | [] => result
    | _ => drawing_no_by_regex ocr_text (line_scan lines)
    end.

(** One item of [data.items()] holds a value. *)
Definition item_has_value (kv : pystr * pyval) : bool :=
  if bool_decide (kv.1 = u "tags") then
    match kv.2 with PList (_ :: _) => true | _ => false end
  else negb (is_none kv.2) && negb (eq_empty_str kv.2).

Definition _has_any_extracted_value (data : pydict) : bool :=
  existsb item_has_value (map_to_list data).

(** The [while i < len(lines)] loop of the preprocessor: each label with the
    first following line that is no label. *)
Fixpoint label_pairs (lines : list pystr) : list (pystr * pystr) :=
  match lines with
  | [] => []
  | line :: rest =>
    if is_label line then
      match first_non_label rest with
      | Some (c :: v) => (line, c :: v) :: label_pairs rest
      | _ => label_pairs rest
      end
    else label_pairs rest
  end.

Definition _preprocess_ocr_for_extraction (ocr_text : pystr) : pystr :=
  if match ocr_text with [] => true | _ => false end
     || match strip ocr_text with [] => true | _ => false end
  then ocr_text
  else
    match stripped_lines ocr_text with
    | [] => ocr_text
    | lines =>
      match label_pairs lines with
      | [] => ocr_text
      | pairs =>
        match List.filter (fun kv => bool_decide (kv.1 ∈ _EXTRACTION_LABELS)) pairs with
        | [] => ocr_text
        | filtered => join [10%N] (map (fun kv => kv.1 ++ u ": " ++ kv.2) filtered)
        end
      end
    end.

(** [not d] for a dictionary. *)
Definition dict_is_empty (d : pydict) : bool :=
  match map_to_list d with [] => true | _ => false end.

(** The text-only call. The event is [None] when no API key is configured. *)
Definition extract_drawing_fields (e : env) (ocr_text : pystr) : M pydict :=
  match GEMINI_API_KEY e with
  | [] => _ ← emit (EvGeminiText ocr_text None); ret ∅
  | _ => ask_gemini_text e ocr_text
  end.

(** The call with the page image. *)
Definition extract_drawing_fields_multimodal (e : env) (image_bytes : pybytes)
    (ocr_text mime_type : pystr) : M pydict :=
  match GEMINI_API_KEY e with
  | [] => _ ← emit (EvGeminiMultimodal image_bytes ocr_text mime_type None); ret ∅
  | _ => ask_gemini_multimodal e image_bytes ocr_text mime_type
  end.

(** [datetime.strptime(v, "%Y-%m-%d")] does not raise: [TypeError] for a
    value that is no string, [ValueError] for a string that is no date. *)
Definition strptime_ok (v : pyval) : bool :=
  match v with
  | PStr s => match strptime_ymd s with Some _ => true | None => false end
  | _ => false
  end.

(** The validation of the date (lines 505-512 and 564-571). *)
Definition validate_issue_date (result : pydict) : pydict :=
  let issue_date_str := dict_get result (u "issue_date") in
  if truthy issue_date_str then
    if strptime_ok issue_date_str then result
    else <[u "issue_date" := PNone]> result
  else result.

(** [d.get(k, dflt)] on a value read from the store; [AttributeError] when it
    is no dictionary. *)
Definition get_of (v : pyval) (k : pystr) (dflt : pyval) : M pyval :=
  match v with
  | PDict d => ret (default dflt (d !! k))
  | _ => raise (Exn (u "AttributeError") (u "object has no attribute 'get'"))
  end.

(** Lines 497-573: the cascade on the text of the first page. *)
Definition cascade (e : env) (drawing_id ocr_first : pystr) : M pydict :=
  let rule_result := _extract_by_rules ocr_first in
  if _has_any_extracted_value rule_result then ret (validate_issue_date rule_result)
  else
    let preprocessed := _preprocess_ocr_for_extraction ocr_first in
    let ocr_text_for_ai :=
      if match preprocessed with [] => false | _ => true end
         && negb (str_eqb preprocessed ocr_first)
      then preprocessed else ocr_first in
    page_images ← select_files e drawing_id (u "page_image") None true true;
    ai_result ←
      match page_images with
      | first_page :: _ =>
        let gcs_path := file_gcs_path first_page in
        let mime := match file_mime first_page with [] => u "image/png" | m => m end in
        match gcs_path with
        | [] => ret ∅
        | _ =>
          try_except
            (image_bytes ← ocr_service.get_image_bytes_from_gcs e gcs_path;
             match image_bytes with
             | Some (b :: bs) => extract_drawing_fields_multimodal e (b :: bs) ocr_text_for_ai mime
             | _ => ret ∅
             end)
            (fun _ => ret ∅)
        end
      | [] => ret ∅
      end;
    ai_result ←
      (if dict_is_empty ai_result || negb (_has_any_extracted_value ai_result)
       then extract_drawing_fields e ocr_text_for_ai
       else ret ai_result);
    if dict_is_empty ai_result || negb (_has_any_extracted_value ai_result) then ret ∅
    else ret (validate_issue_date ai_result).

Definition process_ai_extraction_for_drawing (e : env) (drawing_id : pystr) : M pydict :=
  _ ← create_client e;
  drawing ← select_drawing_single e drawing_id;
  match drawing with
  | None => ret ∅
  | Some d =>
    let extracted_json :=
      let v := dict_get (d_fields d) (u "extracted_json") in
      if truthy v then v else PDict ∅ in
    ocr_result ← get_of extracted_json (u "ocr") (PDict ∅);
    ocr_text ← get_of ocr_result (u "ocr_text") (PStr []);
    if negb (truthy ocr_text) then ret ∅
    else
      match ocr_text with
      | PStr ocr_text => cascade e drawing_id (_first_page_ocr_text ocr_text)
      | _ => raise (Exn (u "TypeError") (u "ocr_text is not a string"))
      end
  end.

(** The localized keys a result may use, in the order the table lists them. *)
Definition _AI_KEY_TO_COLUMN : list (pystr * pystr) :=
  [(u "品名", u "part_name"); (u "材質", u "material"); (u "図番", u "drawing_no");
   (u "表面処理", u "surface_treatment"); (u "処理指示", u "process_note");
   (u "熱処理", u "process_note"); (u "出図日", u "issue_date"); (u "タイトル", u "title");
   (u "タグ", u "tags")].

Definition column_keys : list pystr :=
  [u "title"; u "drawing_no"; u "part_name"; u "material"; u "surface_treatment";
   u "process_note"; u "issue_date"; u "tags"].

(** A value that is neither [None] nor [""]. *)
Definition present (v : pyval) : bool := negb (is_none v) && negb (eq_empty_str v).

(** The inner loop over the table, leaving at the first alias with a value. *)
Fixpoint alias_value (ai_result : pydict) (en_key : pystr) (table : list (pystr * pystr))
    : option pyval :=
  match table with
  | [] => None
  | (ja_key, mapped_en) :: table' =>
    if bool_decide (mapped_en = en_key) then
      let v := dict_get ai_result ja_key in
      if present v then Some v else alias_value ai_result en_key table'
    else alias_value ai_result en_key table'
  end.

(** One iteration of [for en_key in column_keys]. *)
Definition normalize_key (ai_result normalized : pydict) (en_key : pystr) : pydict :=
  let val := dict_get ai_result en_key in
  let val :=
    if present val then val
    else default val (alias_value ai_result en_key _AI_KEY_TO_COLUMN) in
  if present val && (negb (bool_decide (en_key = u "tags")) || is_list val)
  then <[en_key := val]> normalized
  else normalized.

Definition _normalize_ai_result (ai_result : pydict) : pydict :=
  foldl (normalize_key ai_result) ∅ column_keys.

(** [if normalized.get(key): update_fields[key] = normalized[key]]. *)
Definition copy_if_set (normalized : pydict) (key : pystr) (update_fields : pydict) : pydict :=
  if truthy (dict_get normalized key)
  then <[key := dict_get normalized key]> update_fields
  else update_fields.

(** The columns written for a result: lines 634-651. *)
Definition column_updates (normalized : pydict) : pydict :=
  let update_fields : pydict := ∅ in
  let update_fields := copy_if_set normalized (u "title") update_fields in
  let update_fields := copy_if_set normalized (u "drawing_no") update_fields in
  let update_fields := copy_if_set normalized (u "part_name") update_fields in
  let update_fields := copy_if_set normalized (u "material") update_fields in
  let update_fields := copy_if_set normalized (u "surface_treatment") update_fields in
  let update_fields := copy_if_set normalized (u "process_note") update_fields in
  let update_fields := copy_if_set normalized (u "issue_date") update_fields in
  if truthy (dict_get normalized (u "tags")) && is_list (dict_get normalized (u "tags"))
  then <[u "tags" := dict_get normalized (u "tags")]> update_fields
  else update_fields.

(** The document read back, or [{}] when it is no dictionary. *)
Definition existing_document (current_drawing : option drawing) : pydict :=
  match current_drawing with
  | Some d =>
    match dict_get (d_fields d) (u "extracted_json") with
    | PDict existing_json => existing_json
    | _ => ∅
    end
  | None => ∅
  end.

Definition save_extracted_fields_to_drawing (e : env) (drawing_id : pystr)
    (ai_result : pydict) : M unit :=
  _ ← create_client e;
  let normalized := _normalize_ai_result ai_result in
  let update_fields := column_updates normalized in
  current_drawing ← select_drawing_single e drawing_id;
  let existing_json := <[u "ai" := PDict ai_result]> (existing_document current_drawing) in
  let update_fields := <[u "extracted_json" := PDict existing_json]> update_fields in
  if dict_is_empty update_fields then ret tt
  else update_drawing e drawing_id update_fields.

End ai_extractor.

(** ** app/services/vectorizer.py *)

Module vectorizer.

Definition _is_pinecone_configured (e : env) : bool :=
  match PINECONE_API_KEY e, PINECONE_INDEX_NAME e with
  | _ :: _, _ :: _ => true
  | _, _ => false
  end.

(** [str(t)]. *)
Definition py_str (e : env) (v : pyval) : pystr :=
  match v with PStr s => s | _ => str_of_value e v end.

(** [v or dflt]. *)
Definition or_else (v dflt : pyval) : pyval := if truthy v then v else dflt.

Definition ai_text_keys : list pystr :=
  [u "title"; u "drawing_no"; u "part_name"; u "material"; u "surface_treatment";
   u "process_note"].

(** The loop over the scalar keys of the [ai] document. *)
Fixpoint ai_parts (ai : pyval) (keys : list pystr) (parts : list pyval) : M (list pyval) :=
  match keys with
  | [] => ret parts
  | key :: keys' =>
    val ← ai_extractor.get_of ai key PNone;
    ai_parts ai keys'
      (match val with PStr (c :: v) => parts ++ [val] | _ => parts end)
  end.

(** ["\n".join(parts)]: [TypeError] for a part that is no string. *)
Fixpoint strings_of (parts : list pyval) : M (list pystr) :=
  match parts with
  | [] => ret []
  | PStr s :: parts' => rest ← strings_of parts'; ret (s :: rest)
  | _ :: _ => raise (Exn (u "TypeError") (u "sequence item: expected str instance"))
  end.

Definition _build_search_text (e : env) (extracted_json : pydict) : M pystr :=
  let ocr := or_else (dict_get extracted_json (u "ocr")) (PDict ∅) in
  ocr_text ← ai_extractor.get_of ocr (u "ocr_text") PNone;
  let ocr_text := or_else ocr_text (PStr []) in
  let parts := if truthy ocr_text then [ocr_text] else [] in
  let ai := or_else (dict_get extracted_json (u "ai")) (PDict ∅) in
  parts ← ai_parts ai ai_text_keys parts;
  tags ← ai_extractor.get_of ai (u "tags") PNone;
  let parts :=
    match tags with
    | PList (t :: ts) => parts ++ [PStr (join [32%N] (map (py_str e) (t :: ts)))]
    | _ => parts
    end in
  parts ← strings_of parts;
  ret (take (N.to_nat 8000) (strip (join [10%N] parts))).

(** [None] stands for no embedding. *)
Definition _get_embedding (e : env) (text : pystr) : M (option (list spec_float)) :=
  match strip text with
  | [] => ret None
  | _ =>
    match GEMINI_API_KEY e with
    | [] => ret None
    | _ =>
      try_except (embed_content e text) (fun _ => ret None)
    end
  end.

Definition vectorize_and_upsert (e : env) (drawing_id company_id : pystr)
    (extracted_json : pydict) : M unit :=
  if negb (_is_pinecone_configured e) then ret tt
  else
    search_text ← _build_search_text e extracted_json;
    match search_text with
    | [] => ret tt
    | _ =>
      vec ← _get_embedding e search_text;
      match vec with
      | None | Some [] => ret tt
      | Some vec =>
        _ ← open_index e;
        try_except (upsert_vector e drawing_id vec company_id drawing_id)
                   (fun err => raise err)
      end
    end.

Definition vectorize_drawing_for_search (e : env) (drawing_id : pystr) : M unit :=
  if negb (_is_pinecone_configured e) then ret tt
  else
    _ ← create_client e;
    row ← select_drawing_single e drawing_id;
    match row with
    | None => ret tt
    | Some d =>
      let company_id := d_company_id d in
      let extracted_json :=
        match or_else (dict_get (d_fields d) (u "extracted_json")) (PDict ∅) with
        | PDict j => j
        | _ => ∅
        end in
      match company_id with
      | None | Some [] => ret tt
      | Some company_id => vectorize_and_upsert e drawing_id company_id extracted_json
      end
    end.

End vectorizer.

(** ** app/services/job_processor.py *)

Module job_processor.

Definition _get_supabase (e : env) : M bool := pdf_processor._get_supabase e.

Definition _fetch_one_queued_job (e : env) : M (option job) :=
  supabase ← _get_supabase e;
  if supabase : bool then select_queued_job e else ret None.

Definition _update_job (e : env) (job_id status : pystr) (step error_message : option pystr)
    (started_at finished_at : option N) : M unit :=
  supabase ← _get_supabase e;
  if supabase : bool
  then update_job e job_id (JobPayload status step error_message started_at finished_at)
  else ret tt.

(** Lines 83-126: mark the drawing, rasterize the PDF if there is one. The
    result tells whether the later stages run ([False]: the early return). *)
Definition rasterize_stage (e : env) (drawing_id : pystr) : M bool :=
  _ ← update_drawing e drawing_id {[ u "status" := PStr (u "processing") ]};
  pdf_files ← select_files e drawing_id (u "original") (Some (u "application/pdf")) false false;
  match pdf_files with
  | pdf_file :: _ =>
    _ ← pdf_processor.process_pdf e drawing_id (file_gcs_path pdf_file);
    ret true
  | [] =>
    page_images ← select_files e drawing_id (u "page_image") None false false;
    match page_images with
    | _ :: _ => ret true
    | [] => ret false
    end
  end.

(** Lines 128-153. *)
Definition ocr_stage (e : env) (drawing_id : pystr) : M unit :=
  try_except
    (ocr_result ← ocr_service.process_ocr_for_drawing e drawing_id;
     if truthy (dict_get ocr_result (u "ocr_text")) || truthy (dict_get ocr_result (u "pages"))
     then
       current_drawing ← select_drawing_single e drawing_id;
       let existing_json :=
         <[u "ocr" := PDict ocr_result]> (ai_extractor.existing_document current_drawing) in
       update_drawing e drawing_id {[ u "extracted_json" := PDict existing_json ]}
     else ret tt)
    (fun _ => ret tt).

(** Lines 155-165. *)
Definition extract_stage (e : env) (drawing_id : pystr) : M unit :=
  try_except
    (ai_result ← ai_extractor.process_ai_extraction_for_drawing e drawing_id;
     if negb (ai_extractor.dict_is_empty ai_result)
     then ai_extractor.save_extracted_fields_to_drawing e drawing_id ai_result
     else ret tt)
    (fun _ => ret tt).

(** Lines 167-172. *)
Definition vectorize_stage (e : env) (drawing_id : pystr) : M unit :=
  try_except (vectorizer.vectorize_drawing_for_search e drawing_id)
             (fun _ => ret tt).

Definition process_drawing_job (e : env) (drawing_id : pystr) : M unit :=
  supabase ← _get_supabase e;
  if supabase : bool then
    continue ← rasterize_stage e drawing_id;
    if continue : bool then
      _ ← ocr_stage e drawing_id;
      _ ← extract_stage e drawing_id;
      vectorize_stage e drawing_id
    else ret tt
  else ret tt.

Definition _run_one_cycle (e : env) : M unit :=
  job ← _fetch_one_queued_job e;
  match job with
  | None => ret tt
  | Some job =>
    let job_id := job_id job in
    let drawing_id := job_drawing_id job in
    now ← utc_now e;
    _ ← _update_job e job_id (u "running") (Some (u "convert")) None (Some now) None;
    try_except
      (_ ← process_drawing_job e drawing_id;
       finished ← utc_now e;
       _update_job e job_id (u "success") None None None (Some finished))
      (fun err =>
         finished ← utc_now e;
         _update_job e job_id (u "error") None (Some (exn_message err)) None (Some finished))
  end.

End job_processor.

(** ** Scenarios and auxiliary notions used in the statements *)

Module Scenario.
Import ai_extractor.

(** The title block of the base-plate drawing, line by line. *)
Definition base_plate_lines : list pystr :=
  [u "名称"; u "ベースプレート"; u "材質"; u "熱処理"; u "SS400"; u "表面処理"; u "黒染め";
   u "図番"; u "2509-0017"; u "品名"; u "ベースプレート"].

Definition base_plate_text : pystr := join [10%N] base_plate_lines.

(** A page that holds a remark only: no label, no drawing number. *)
Definition remark_text : pystr := u "注記 A".

Definition index_down : exn := Exn (u "PineconeException") (u "index unavailable").

(** Services that answer: the OCR reads [page_text] on every page, the
    text-only model answers [text_answer], the model with the image answers
    nothing, and the upsert into the index ends as [upsert_failure] says. *)
Definition service_env (page_text : pystr) (text_answer : pydict)
    (upsert_failure : option exn) : env :=
  {| SUPABASE_URL := u "https://zumen.supabase.co";
     SUPABASE_SERVICE_ROLE_KEY := u "service-role-key";
     PINECONE_API_KEY := u "pinecone-key";
     PINECONE_INDEX_NAME := u "drawings";
     GEMINI_API_KEY := u "gemini-key";
     str_of_value := fun _ => u "?";
     strftime_date := fun _ => u "2026-01-01";
     client_error := None;
     db_fault := fun _ _ => None;
     single_no_row := fun _ => None;
     new_id := fun w => u "f" ++ str_of_N (N.of_nat (length (files w)));
     now := fun w => N.of_nat (length (trace w));
     gcs_download := fun _ _ => Ret [137; 80; 78; 71]%N;
     gcs_upload := fun _ _ _ _ => None;
     convert_from_bytes := fun _ _ => Ret [[137; 80; 78; 71]%N];
     thumbnail_png := fun _ _ => Ret [137; 80; 78; 71]%N;
     vision := fun _ _ => Ret (VisionResponse 800 600 [] (Some (page_text, [])));
     gemini_multimodal := fun _ _ _ _ => ∅;
     gemini_text := fun _ _ => text_answer;
     gemini_embedding := fun _ _ => Ret (Some [S754_zero false]);
     pinecone_index := fun _ => None;
     pinecone_upsert := fun _ _ _ _ _ => upsert_failure |}.

Definition store_down : exn := Exn (u "APIError") (u "connection reset").

(** The same services with a store that answers reads and refuses the
    writes of the OCR stage (image size, tokens). *)
Definition with_failing_page_writes (e : env) : env :=
  {| SUPABASE_URL := SUPABASE_URL e;
     SUPABASE_SERVICE_ROLE_KEY := SUPABASE_SERVICE_ROLE_KEY e;
     PINECONE_API_KEY := PINECONE_API_KEY e;
     PINECONE_INDEX_NAME := PINECONE_INDEX_NAME e;
     GEMINI_API_KEY := GEMINI_API_KEY e;
     str_of_value := str_of_value e;
     strftime_date := strftime_date e;
     client_error := client_error e;
     db_fault := fun _ op =>
       match op with
       | UpdateFileSize _ _ _ | DeleteTokens _ | InsertTokens _ => Some store_down
       | _ => None
       end;
     single_no_row := single_no_row e;
     new_id := new_id e;
     now := now e;
     gcs_download := gcs_download e;
     gcs_upload := gcs_upload e;
     convert_from_bytes := convert_from_bytes e;
     thumbnail_png := thumbnail_png e;
     vision := vision e;
     gemini_multimodal := gemini_multimodal e;
     gemini_text := gemini_text e;
     gemini_embedding := gemini_embedding e;
     pinecone_index := pinecone_index e;
     pinecone_upsert := pinecone_upsert e |}.

(** A result with an empty title, a material, a localized part name and no tags. *)
Definition partial_result : pydict :=
  list_to_map
    [(u "title", PStr []); (u "material", PStr (u "SS400"));
     (u "品名", PStr (u "ベースプレート")); (u "tags", PList []);
     (u "process_note", PNone)].

Definition queued_job : job := Job (u "j1") (u "d1") (u "queued") None None None None 5.

Definition page1 : drawing_file :=
  DrawingFile (u "f1") (u "d1") (u "page_image") (u "drawings/c1/page_001.png")
    (u "image/png") None (Some 1%N) None None.

(** One queued job for the drawing d1 of company c1, with the given artifacts. *)
Definition world_with (fs : list drawing_file) : world :=
  World [queued_job]
        {[ u "d1" := Drawing (Some (u "c1")) {[ u "title" := PStr (u "Old title") ]} ]}
        fs [] [].

(** The answer of a model that names the date by its localized key. *)
Definition localized_date_answer : pydict := {[ u "出図日" := PStr (u "2024/01/05") ]}.

(** The column of a drawing, if the drawing and the column are there. *)
Definition column_of (w : world) (drawing_id key : pystr) : option pyval :=
  match drawings w !! drawing_id with
  | Some d => d_fields d !! key
  | None => None
  end.

End Scenario.

(** Four decimal digits, a hyphen, four decimal digits. *)
Definition drawing_no_form (s : pystr) : bool :=
  match s with
  | [a; b; c; d; h; e; f; g; i] =>
    isdecimal a && isdecimal b && isdecimal c && isdecimal d && (45 =? h)%N
    && isdecimal e && isdecimal f && isdecimal g && isdecimal i
  | _ => false
  end.

(** [pattern.match(c)] for the drawing-number pattern: [c] starts with it. *)
Definition starts_with_drawing_no (v : pyval) : bool :=
  match v with
  | PStr c => drawing_no_form (take 9 c)
  | _ => false
  end.

(** An ExtractedFields record: the eight keys; the six text fields null or a
    non-empty string; the date null; no tags. *)
Definition well_formed (r : pydict) : Prop :=
  dom r = dom ai_extractor.empty_result
  ∧ r !! u "tags" = Some (PList [])
  ∧ r !! u "issue_date" = Some PNone
  ∧ ∀ k, k ∈ ai_extractor.plain_keys →
      r !! k = Some PNone ∨ ∃ c s, r !! k = Some (PStr (c :: s)).

(** The Supabase settings are present and the client accepts them. *)
Definition supabase_ready (e : env) : Prop :=
  SUPABASE_URL e ≠ [] ∧ SUPABASE_SERVICE_ROLE_KEY e ≠ [] ∧ client_error e = None.

(** No request to Supabase fails. *)
Definition no_db_faults (e : env) : Prop := ∀ w op, db_fault e w op = None.

(** The drawing is stored with [extracted_json.ocr.ocr_text] equal to [t]. *)
Definition stored_ocr_text (w : world) (drawing_id t : pystr) : Prop :=
  ∃ d j o,
    drawings w !! drawing_id = Some d
    ∧ dict_get (d_fields d) (u "extracted_json") = PDict j
    ∧ j !! u "ocr" = Some (PDict o)
    ∧ o !! u "ocr_text" = Some (PStr t).

(** Two page texts as the OCR stage joins them, with the given page numbers. *)
Definition two_pages (n1 n2 : N) : pystr :=
  join [10; 10]%N
    [ocr_service.page_block n1 Scenario.base_plate_text;
     ocr_service.page_block n2 (u "注記")].

(** A computation leaves the observation [f] of the state as it found it,
    however it ends. *)
Definition keeps {A B} (f : world → B) (m : M A) : Prop :=
  ∀ w r w', m w = (r, w') → f w' = f w.

(** The drawing has no original PDF and no page image. *)
Definition no_artifacts (w : world) (drawing_id : pystr) : Prop :=
  ∀ f, f ∈ files w → file_drawing_id f = drawing_id →
    file_type f ≠ u "page_image"
    ∧ ¬ (file_type f = u "original" ∧ file_mime f = u "application/pdf").

(** The state once the job [j], just fetched, is marked running. *)
Definition claimed (e : env) (j : job) (w : world) : world :=
  ((now ← utc_now e;
    job_processor._update_job e (job_id j) (u "running") (Some (u "convert")) None
      (Some now) None)
     (record (EvDb SelectQueuedJob None) w)).2.

(** The stages of [process_drawing_job] that come before the vectorizing;
    the result tells whether the vectorizing is reached. *)
Definition stages_before_vectorize (e : env) (drawing_id : pystr) : M bool :=
  continue ← job_processor.rasterize_stage e drawing_id;
  if continue : bool then
    _ ← job_processor.ocr_stage e drawing_id;
    _ ← job_processor.extract_stage e drawing_id;
    ret true
  else ret false.

(** The exceptions the upserts into the vector index ended with. *)
Definition upsert_failures (w : world) : list exn :=
  omap (fun ev => match ev with EvPineconeUpsert _ _ _ _ failed => failed | _ => None end)
       (trace w).

(** The payloads of the two updates of a job in a cycle that ends well. *)
Definition running_payload (now : N) : job_payload :=
  JobPayload (u "running") (Some (u "convert")) None (Some now) None.

Definition success_payload (finished : N) : job_payload :=
  JobPayload (u "success") None None None (Some finished).

(** The payload of the update of a job in a cycle that ends with an exception. *)
Definition error_payload (message : pystr) (finished : N) : job_payload :=
  JobPayload (u "error") None (Some message) None (Some finished).

(** The original PDF of the drawing d1. *)
Definition pdf1 : drawing_file :=
  DrawingFile (u "f0") (u "d1") (u "original") (u "uploads/d1.pdf") (u "application/pdf")
    None None None None.

(** One queued job for the drawing d1, which is not in the table, with its PDF. *)
Definition orphan_world : world := World [Scenario.queued_job] ∅ [pdf1] [] [].

(** What rasterizing raises for a drawing that has no company. *)
Definition no_company : exn :=
  Exn (u "ValueError") (u "company_id not found for drawing_id=d1").

(** A file row apart from the image size the OCR records. *)
Definition without_image_size (f : drawing_file) : drawing_file :=
  DrawingFile (file_id f) (file_drawing_id f) (file_type f) (file_gcs_path f) (file_mime f)
    (file_size f) (file_page_no f) None None.

(** The four tables: everything but the history of interactions. *)
Definition tables (w : world)
    : list job * gmap pystr drawing * list drawing_file * list token_row :=
  (jobs w, drawings w, files w, tokens w).

(** The tokens of the other pages. *)
Definition tokens_off_page (page_file_id : pystr) (ts : list token_row) : list token_row :=
  List.filter (fun t => negb (bool_decide (tr_page_file_id t = page_file_id))) ts.

(** The calls of the generative model in the history, in order. *)
Definition is_model_call (ev : event) : bool :=
  match ev with
  | EvGeminiMultimodal _ _ _ _ | EvGeminiText _ _ => true
  | _ => false
  end.

Definition model_calls (w : world) : list event := List.filter is_model_call (trace w).

(** The text the cascade hands to the model: the preprocessed one when there
    is one and it differs. *)
Definition text_for_model (ocr_first : pystr) : pystr :=
  let preprocessed := ai_extractor._preprocess_ocr_for_extraction ocr_first in
  if match preprocessed with [] => false | _ => true end
     && negb (str_eqb preprocessed ocr_first)
  then preprocessed else ocr_first.

(** An answer of the model is usable: not empty, and with a value. *)
Definition usable (answer : option pydict) : bool :=
  negb (ai_extractor.dict_is_empty (default ∅ answer))
  && ai_extractor._has_any_extracted_value (default ∅ answer).

(** A text of blanks only (the empty text included). *)
Definition blank (s : pystr) : bool := forallb isspace s.

(** * Properties *)

(** ** Strings *)

Section StringFacts.

Lemma isspace_cases c :
  isspace c = true →
  In c [9; 10; 11; 12; 13; 28; 29; 30; 31; 32; 133; 160; 5760; 8192; 8193; 8194; 8195;
        8196; 8197; 8198; 8199; 8200; 8201; 8202; 8232; 8233; 8239; 8287; 12288]%N.
Proof.
  unfold isspace. rewrite !orb_true_iff, !andb_true_iff, !N.leb_le, !N.eqb_eq.
  intros H. simpl.
  assert (Hc : (c = 9 \/ c = 10 \/ c = 11 \/ c = 12 \/ c = 13 \/ c = 28 \/ c = 29 \/ c = 30
          \/ c = 31 \/ c = 32 \/ c = 133 \/ c = 160 \/ c = 5760 \/ c = 8192 \/ c = 8193
          \/ c = 8194 \/ c = 8195 \/ c = 8196 \/ c = 8197 \/ c = 8198 \/ c = 8199
          \/ c = 8200 \/ c = 8201 \/ c = 8202 \/ c = 8232 \/ c = 8233 \/ c = 8239
          \/ c = 8287 \/ c = 12288)%N) by lia.
  clear H. repeat (destruct Hc as [Hc | Hc]; [left; symmetry; exact Hc | right]).
  left. symmetry. exact Hc.
Qed.

Lemma space_not_decimal c : isspace c = true → isdecimal c = false.
Proof.
  intros H. apply isspace_cases in H. simpl in H.
  repeat (destruct H as [<- | H]; [reflexivity |]). destruct H.
Qed.

Lemma space_not_hyphen c : isspace c = true → (45 =? c)%N = false.
Proof.
  intros H. apply isspace_cases in H. simpl in H.
  repeat (destruct H as [<- | H]; [reflexivity |]). destruct H.
Qed.

Lemma linebreak_is_space c : islinebreak c = true → isspace c = true.
Proof.
  unfold islinebreak, isspace.
  rewrite !orb_true_iff, !andb_true_iff, !N.leb_le, !N.eqb_eq. lia.
Qed.

Lemma lstrip_nil_iff p s : lstrip_by p s = [] ↔ forallb p s = true.
Proof.
  induction s as [|c s IH]; simpl; [tauto|].
  destruct (p c); simpl; [exact IH|]. split; discriminate.
Qed.

Lemma lstrip_keeps_last p s c : p c = false → lstrip_by p (s ++ [c]) ≠ [].
Proof.
  intros Hc. rewrite lstrip_nil_iff, forallb_app. simpl. rewrite Hc.
  rewrite andb_false_r. discriminate.
Qed.

Lemma lstrip_head p s c s' : lstrip_by p s = c :: s' → p c = false.
Proof.
  induction s as [|a s IH]; simpl; [discriminate|].
  destruct (p a) eqn:Ha; [exact IH|]. intros [= <- <-]. exact Ha.
Qed.

Lemma strip_nil_iff s : strip s = [] ↔ blank s = true.
Proof.
  unfold strip, rstrip_by, blank. split.
  - intros H. apply lstrip_nil_iff.
    destruct (lstrip_by isspace s) as [|c s'] eqn:E; [reflexivity|].
    exfalso. apply (f_equal (@rev N)) in H. rewrite rev_involutive in H. simpl in H.
    revert H. apply lstrip_keeps_last. eapply lstrip_head, E.
  - intros H. apply lstrip_nil_iff in H. rewrite H. reflexivity.
Qed.

Lemma blank_app s t : blank (s ++ t) = blank s && blank t.
Proof. apply forallb_app. Qed.

Lemma blank_rev s : blank (rev s) = blank s.
Proof.
  unfold blank. induction s as [|c s IH]; [reflexivity|].
  simpl. rewrite forallb_app, IH. simpl. rewrite andb_true_r. apply andb_comm.
Qed.

End StringFacts.

(** ** Lines and blank texts *)

Section Lines.
Import ai_extractor.

Let nonblank (line : pystr) : bool := match strip line with [] => false | _ => true end.

Lemma nonblank_false line : nonblank line = false ↔ blank line = true.
Proof.
  unfold nonblank. rewrite <- strip_nil_iff. destruct (strip line); split; congruence.
Qed.

(** Every line of a blank text is blank. *)
Lemma splitlines_blank n : ∀ s cur,
  length s ≤ n → blank cur = true → blank s = true →
  List.filter nonblank (splitlines_from cur s) = [].
Proof.
  induction n as [|n IH]; intros s cur Hn Hcur Hs.
  - destruct s; [|simpl in Hn; lia]. simpl.
    destruct cur as [|c cur]; [reflexivity|]. simpl.
    replace (nonblank (rev cur ++ [c])) with false; [reflexivity|].
    symmetry. apply nonblank_false. change (rev cur ++ [c]) with (rev (c :: cur)).
    rewrite blank_rev. exact Hcur.
  - destruct s as [|c rest].
    + apply (IH [] cur); [simpl; lia | exact Hcur | reflexivity].
    + simpl in Hn, Hs. apply andb_true_iff in Hs as [Hc Hrest]. simpl.
      destruct (islinebreak c).
      * simpl. replace (nonblank (rev cur)) with false
          by (symmetry; apply nonblank_false; rewrite blank_rev; exact Hcur).
        destruct rest as [|c' rest']; [reflexivity|].
        simpl in Hrest. apply andb_true_iff in Hrest as [Hc' Hrest'].
        destruct ((c =? 13)%N && (c' =? 10)%N).
        -- apply IH; [simpl in Hn; lia | reflexivity | exact Hrest'].
        -- apply IH; [simpl in *; lia | reflexivity |].
           simpl. rewrite Hc'. exact Hrest'.
      * apply IH; [lia | simpl; rewrite Hc; exact Hcur | exact Hrest].
Qed.

(** A text all of whose lines are blank is blank. *)
Lemma splitlines_all_blank n : ∀ s cur,
  length s ≤ n →
  List.filter nonblank (splitlines_from cur s) = [] →
  blank cur = true ∧ blank s = true.
Proof.
  induction n as [|n IH]; intros s cur Hn H.
  - destruct s; [|simpl in Hn; lia]. simpl in H. split; [|reflexivity].
    destruct cur as [|c cur]; [reflexivity|]. simpl in H.
    destruct (nonblank (rev cur ++ [c])) eqn:E; [discriminate|].
    apply nonblank_false in E. change (rev cur ++ [c]) with (rev (c :: cur)) in E.
    rewrite blank_rev in E. exact E.
  - destruct s as [|c rest].
    + apply (IH [] cur); [simpl; lia | exact H].
    + simpl in Hn, H. destruct (islinebreak c) eqn:Hlb.
      * simpl in H. destruct (nonblank (rev cur)) eqn:E; [discriminate|].
        apply nonblank_false in E. rewrite blank_rev in E.
        apply linebreak_is_space in Hlb. split; [exact E|].
        simpl. rewrite Hlb. simpl.
        destruct rest as [|c' rest']; [reflexivity|].
        destruct ((c =? 13)%N && (c' =? 10)%N) eqn:Ecr.
        -- apply andb_true_iff in Ecr as [_ Ec']. apply N.eqb_eq in Ec'. subst c'.
           apply IH in H as [_ H]; [|simpl in Hn; lia]. simpl. exact H.
        -- apply IH in H as [_ H]; [exact H | simpl in *; lia].
      * apply IH in H as [Hcur Hrest]; [|lia].
        simpl in Hcur. apply andb_true_iff in Hcur as [Hc Hcur].
        split; [exact Hcur|]. simpl. rewrite Hc. exact Hrest.
Qed.

Lemma stripped_lines_blank s : blank s = true → stripped_lines s = [].
Proof.
  intros H. unfold stripped_lines, splitlines.
  change (fun line : pystr => match strip line with [] => false | _ => true end) with nonblank.
  rewrite (splitlines_blank (length s)); [reflexivity | lia | reflexivity | exact H].
Qed.

Lemma stripped_lines_nil s : stripped_lines s = [] → blank s = true.
Proof.
  unfold stripped_lines, splitlines. intros H.
  change (fun line : pystr => match strip line with [] => false | _ => true end)
    with nonblank in H.
  apply map_eq_nil in H.
  apply (splitlines_all_blank (length s)) in H as [_ H]; [exact H | lia].
Qed.

Lemma stripped_lines_nil_iff s : stripped_lines s = [] ↔ blank s = true.
Proof. split; [apply stripped_lines_nil | apply stripped_lines_blank]. Qed.

End Lines.
(** ** The drawing-number pattern *)

Section DrawingNoPattern.
Import ai_extractor.

Lemma match_drawing_no bol s :
  match_at _DRAWING_NO_PATTERN bol s (fun _ rest => Some rest)
  = if drawing_no_form (take 9 s) then Some (drop 9 s) else None.
Proof.
  unfold _DRAWING_NO_PATTERN, digit.
  do 9 (destruct s as [|? s];
        [cbn -[N.eqb isdecimal];
         repeat match goal with |- context [if ?b then _ else _] => destruct b end;
         reflexivity |]).
  cbn -[N.eqb isdecimal]. rewrite take_0, drop_0.
  repeat match goal with |- context [if ?b then _ else _] => destruct b; cbn -[N.eqb isdecimal] end;
  reflexivity.
Qed.

Lemma drawing_no_form_length m : drawing_no_form m = true → length m = 9.
Proof.
  do 10 (destruct m as [|? m]; try discriminate). reflexivity.
Qed.

Lemma matches_drawing_no s :
  matches _DRAWING_NO_PATTERN s = drawing_no_form (take 9 s).
Proof.
  unfold matches, re_match. rewrite match_drawing_no.
  destruct (drawing_no_form (take 9 s)); reflexivity.
Qed.

Lemma search_drawing_no_step bol s :
  search_from _DRAWING_NO_PATTERN bol s
  = if drawing_no_form (take 9 s) then Some (take 9 s)
    else match s with [] => None | _ :: s' => search_from _DRAWING_NO_PATTERN false s' end.
Proof.
  destruct s as [|c s].
  - reflexivity.
  - cbn [search_from]. rewrite match_drawing_no.
    destruct (drawing_no_form (take 9 (c :: s))) eqn:E; [|reflexivity].
    f_equal. unfold group0. f_equal.
    apply drawing_no_form_length in E. rewrite length_take in E.
    rewrite length_drop. lia.
Qed.

(** What the search returns has the form and stands in the text, leftmost. *)
Lemma search_drawing_no_some s : ∀ bol cand,
  search_from _DRAWING_NO_PATTERN bol s = Some cand →
  drawing_no_form cand = true
  ∧ ∃ pre post, s = pre ++ cand ++ post
      ∧ ∀ pre' m post', s = pre' ++ m ++ post' → drawing_no_form m = true →
          length pre ≤ length pre'.
Proof.
  induction s as [|c s IH]; intros bol cand H; rewrite search_drawing_no_step in H.
  - discriminate.
  - destruct (drawing_no_form (take 9 (c :: s))) eqn:E.
    + injection H as <-. split; [exact E|].
      exists [], (drop 9 (c :: s)). split; [simpl; rewrite take_drop; reflexivity|].
      intros; simpl; lia.
    + apply IH in H as (Hform & pre & post & -> & Hleft). split; [exact Hform|].
      exists (c :: pre), post. split; [reflexivity|].
      intros pre' m post' Heq Hm. destruct pre' as [|c' pre'].
      * exfalso. simpl in Heq. rewrite Heq in E.
        rewrite take_app_length' in E by (symmetry; apply drawing_no_form_length; exact Hm).
        congruence.
      * simpl in Heq. injection Heq as -> Heq. simpl.
        apply Hleft in Heq; [lia | exact Hm].
Qed.

(** No result: no part of the text has the form. *)
Lemma search_drawing_no_none s : ∀ bol,
  search_from _DRAWING_NO_PATTERN bol s = None →
  ∀ pre m post, s = pre ++ m ++ post → drawing_no_form m = false.
Proof.
  induction s as [|c s IH]; intros bol H pre m post Heq; rewrite search_drawing_no_step in H.
  - destruct pre, m; try discriminate; reflexivity.
  - destruct (drawing_no_form (take 9 (c :: s))) eqn:E; [discriminate|].
    destruct pre as [|c' pre].
    + simpl in Heq. destruct (drawing_no_form m) eqn:Hm; [|reflexivity].
      rewrite Heq in E.
      rewrite take_app_length' in E by (symmetry; apply drawing_no_form_length; exact Hm).
      congruence.
    + simpl in Heq. injection Heq as -> Heq. eapply IH; [exact H | exact Heq].
Qed.

Lemma drawing_no_form_not_blank m : drawing_no_form m = true → blank (take 1 m) = false.
Proof.
  intros H. destruct m as [|a m]; [discriminate|]. simpl.
  destruct (isspace a) eqn:Ha; [|reflexivity].
  apply space_not_decimal in Ha.
  do 8 (destruct m as [|? m]; try discriminate). destruct m; [|discriminate].
  simpl in H. rewrite Ha in H. discriminate.
Qed.

(** A blank text holds no drawing number. *)
Lemma search_from_blank s : ∀ bol,
  blank s = true → search_from _DRAWING_NO_PATTERN bol s = None.
Proof.
  induction s as [|c s IH]; intros bol Hs; rewrite search_drawing_no_step.
  - reflexivity.
  - simpl in Hs. apply andb_true_iff in Hs as [Hc Hs].
    destruct (drawing_no_form (take 9 (c :: s))) eqn:E; [|apply IH; exact Hs].
    apply drawing_no_form_not_blank in E. rewrite take_take in E. simpl in E.
    rewrite Hc in E. discriminate.
Qed.

Lemma search_blank s : blank s = true → re_search _DRAWING_NO_PATTERN s = None.
Proof. apply search_from_blank. Qed.

End DrawingNoPattern.
(** ** The rule engine *)

Section RuleEngine.
Import ai_extractor.

Lemma known_label_cases line :
  is_label line = true →
  line ∈ [u "名称"; u "品名"; u "材質"; u "表面処理"; u "図番"; u "熱処理"; u "処理指示";
          u "用紙"; u "尺度"; u "作成者"; u "確認者"; u "承認者"; u "部品図"; u "組立図"].
Proof.
  unfold is_label, _KNOWN_LABELS. intros H.
  apply bool_decide_eq_true in H. apply elem_of_list_to_set in H. exact H.
Qed.

(** A known label never stands for the date: its key is one of the six
    plain text keys. *)
Lemma label_key_plain line k :
  is_label line = true → _LABEL_TO_KEY !! line = Some k → k ∈ plain_keys.
Proof.
  intros Hl Hk. apply known_label_cases in Hl.
  repeat (apply elem_of_cons in Hl as [-> | Hl];
          [vm_compute in Hk; first [discriminate | injection Hk as <-];
           compute_done |]).
  apply elem_of_nil in Hl. destruct Hl.
Qed.

(** An iteration leaves the record, or sets one plain key to a non-empty string. *)
Lemma rule_step_cases lines result i line :
  rule_step lines result i line = result
  ∨ ∃ k c v, k ∈ plain_keys ∧ rule_step lines result i line = <[k := PStr (c :: v)]> result.
Proof.
  unfold rule_step. destruct (is_label line) eqn:Hl; simpl; [|left; reflexivity].
  destruct (_LABEL_TO_KEY !! line) as [[|a k]|] eqn:Hk; try (left; reflexivity).
  pose proof (label_key_plain _ _ Hl Hk) as Hplain.
  destruct (clean_value _ _ _) as [[|c v]|]; try (left; reflexivity).
  rewrite bool_decide_eq_true_2 by exact Hplain.
  right. exists (a :: k), c, v. split; [exact Hplain | reflexivity].
Qed.


Lemma plain_key_facts k :
  k ∈ plain_keys → k ∈ dom empty_result ∧ k ≠ u "tags" ∧ k ≠ u "issue_date".
Proof.
  intros H.
  repeat (apply elem_of_cons in H as [-> | H]; [repeat split; compute_done |]).
  apply elem_of_nil in H. destruct H.
Qed.

Lemma empty_result_well_formed : well_formed empty_result.
Proof.
  repeat split; try reflexivity.
  intros k H. left.
  repeat (apply elem_of_cons in H as [-> | H]; [reflexivity |]).
  apply elem_of_nil in H. destruct H.
Qed.

Lemma well_formed_insert r k c v :
  well_formed r → k ∈ plain_keys → well_formed (<[k := PStr (c :: v)]> r).
Proof.
  intros (Hdom & Htags & Hdate & Htext) Hk.
  destruct (plain_key_facts k Hk) as (Hin & Hnt & Hnd).
  repeat split.
  - rewrite dom_insert_L, Hdom. apply subseteq_union_1_L, singleton_subseteq_l, Hin.
  - rewrite lookup_insert_ne by exact Hnt. exact Htags.
  - rewrite lookup_insert_ne by exact Hnd. exact Hdate.
  - intros k' Hk'. destruct (decide (k = k')) as [<- | Hne].
    + right. exists c, v. apply lookup_insert_eq.
    + rewrite lookup_insert_ne by exact Hne. apply Htext, Hk'.
Qed.

Lemma rule_step_well_formed lines r i line :
  well_formed r → well_formed (rule_step lines r i line).
Proof.
  intros H. destruct (rule_step_cases lines r i line) as [-> | (k & c & v & Hk & ->)].
  - exact H.
  - apply well_formed_insert; assumption.
Qed.

Lemma rule_loop_well_formed lines todo : ∀ r i,
  well_formed r → well_formed (rule_loop lines r i todo).
Proof.
  induction todo as [|line todo IH]; intros r i H; simpl.
  - exact H.
  - apply IH, rule_step_well_formed, H.
Qed.

Lemma line_scan_well_formed lines : well_formed (line_scan lines).
Proof. apply rule_loop_well_formed, empty_result_well_formed. Qed.

Lemma drawing_no_by_regex_well_formed text r :
  well_formed r → well_formed (drawing_no_by_regex text r).
Proof.
  intros H. unfold drawing_no_by_regex.
  destruct (re_search _DRAWING_NO_PATTERN text) as [cand|] eqn:E; [|exact H].
  destruct (_ || _); [|exact H].
  apply search_drawing_no_some in E as [E _].
  destruct cand as [|c v]; [discriminate|].
  apply well_formed_insert; [exact H | compute_done].
Qed.

(** The early returns agree with the general path: a blank text has no
    lines and holds no drawing number. *)
Lemma extract_by_rules_eq text :
  _extract_by_rules text = drawing_no_by_regex text (line_scan (stripped_lines text)).
Proof.
  assert (Hblank : blank text = true →
            empty_result = drawing_no_by_regex text (line_scan (stripped_lines text))).
  { intros Hb. rewrite stripped_lines_blank by exact Hb.
    unfold drawing_no_by_regex. rewrite search_blank by exact Hb. reflexivity. }
  unfold _extract_by_rules.
  destruct text as [|c text]; [apply Hblank; reflexivity|].
  destruct (strip (c :: text)) eqn:Es.
  - apply Hblank, strip_nil_iff, Es.
  - cbn [orb]. destruct (stripped_lines (c :: text)) eqn:El; [|reflexivity].
    apply Hblank, stripped_lines_nil, El.
Qed.

Lemma extract_by_rules_well_formed text : well_formed (_extract_by_rules text).
Proof.
  rewrite extract_by_rules_eq.
  apply drawing_no_by_regex_well_formed, line_scan_well_formed.
Qed.

Lemma extract_by_rules_blank text :
  blank text = true → _extract_by_rules text = empty_result.
Proof.
  intros Hb. rewrite extract_by_rules_eq, stripped_lines_blank by exact Hb.
  unfold drawing_no_by_regex. rewrite search_blank by exact Hb. reflexivity.
Qed.

End RuleEngine.
(** ** The rule engine: the claims *)

Section RuleEngineClaims.
Import ai_extractor.

(** C9. The rule engine is total: for every text it returns an
    ExtractedFields record (the eight keys, each text field null or a
    non-empty string, no tags), and for an empty or blank text the record
    with every field null and no tags. *)
Theorem rule_engine_is_total (ocr_text : pystr) :
  well_formed (_extract_by_rules ocr_text)
  ∧ (blank ocr_text = true → _extract_by_rules ocr_text = empty_result).
Proof.
  split; [apply extract_by_rules_well_formed | apply extract_by_rules_blank].
Qed.

Lemma rule_engine_is_total_witness :
  _extract_by_rules [] = empty_result
  ∧ _extract_by_rules [32; 12288; 10; 9]%N = empty_result.
Proof.
  split.
  - apply (rule_engine_is_total []). reflexivity.
  - apply (rule_engine_is_total [32; 12288; 10; 9]%N). reflexivity.
Defined.

(** C8. After the line scan the whole text is searched for the
    drawing-number pattern (four digits, a hyphen, four digits); the match
    is the leftmost part of the text of that form. A match replaces the drawing number of the line scan when that is empty or does
    not itself start with the pattern; a line-scan value that does is kept;
    without a match the line-scan value stays. No other field changes. *)
Theorem drawing_no_regex_fallback (ocr_text : pystr) :
  let scan := line_scan (stripped_lines ocr_text) in
  let current := dict_get scan (u "drawing_no") in
  let result := _extract_by_rules ocr_text in
  (∀ k, k ≠ u "drawing_no" → result !! k = scan !! k)
  ∧ match re_search _DRAWING_NO_PATTERN ocr_text with
    | Some candidate =>
      drawing_no_form candidate = true
      ∧ (∃ pre post, ocr_text = pre ++ candidate ++ post
           ∧ ∀ pre' m post', ocr_text = pre' ++ m ++ post' → drawing_no_form m = true →
               length pre ≤ length pre')
      ∧ dict_get result (u "drawing_no")
        = if truthy current && starts_with_drawing_no current
          then current else PStr candidate
    | None =>
      (∀ pre m post, ocr_text = pre ++ m ++ post → drawing_no_form m = false)
      ∧ dict_get result (u "drawing_no") = current
    end.
Proof.
  intros scan current result. subst result. rewrite extract_by_rules_eq.
  fold scan. unfold drawing_no_by_regex. fold current.
  assert (Hm : negb (truthy current)
               || negb match current with
                       | PStr c => matches _DRAWING_NO_PATTERN c
                       | _ => false
                       end
               = negb (truthy current && starts_with_drawing_no current)).
  { rewrite negb_andb. f_equal. f_equal. unfold starts_with_drawing_no.
    destruct current; try reflexivity. apply matches_drawing_no. }
  rewrite Hm. clear Hm.
  destruct (re_search _DRAWING_NO_PATTERN ocr_text) as [candidate|] eqn:E.
  - pose proof (search_drawing_no_some _ _ _ E) as (Hform & pre & post & Heq & Hleft).
    destruct (truthy current && starts_with_drawing_no current); cbn [negb].
    + split; [reflexivity|]. split; [exact Hform|]. split; [eauto | reflexivity].
    + split; [intros k Hk; apply lookup_insert_ne; congruence|].
      split; [exact Hform|]. split; [eauto|].
      unfold dict_get. rewrite lookup_insert_eq. reflexivity.
  - split; [reflexivity|]. split; [|reflexivity].
    exact (search_drawing_no_none _ _ E).
Qed.

Lemma drawing_no_kept text r c :
  dict_get r (u "drawing_no") = PStr c → c ≠ [] →
  drawing_no_form (take 9 c) = true →
  drawing_no_by_regex text r = r.
Proof.
  intros Hc Hne Hform. unfold drawing_no_by_regex.
  destruct (re_search _DRAWING_NO_PATTERN text); [|reflexivity].
  rewrite Hc, matches_drawing_no, Hform.
  destruct c; [congruence | reflexivity].
Qed.

(** C3. On a text whose trimmed non-empty lines are those of the base-plate
    title block, the rule engine returns part_name, material,
    surface_treatment and drawing_no as listed and process_note null; the
    process note is rejected because the candidate picked for it, SS400,
    equals the material resolved one line earlier. *)
Theorem base_plate_scenario (ocr_text : pystr) :
  stripped_lines ocr_text = Scenario.base_plate_lines →
  let r := _extract_by_rules ocr_text in
  let lines := Scenario.base_plate_lines in
  let before := rule_loop lines empty_result 0 (take 3 lines) in
  r !! u "part_name" = Some (PStr (u "ベースプレート"))
  ∧ r !! u "material" = Some (PStr (u "SS400"))
  ∧ r !! u "surface_treatment" = Some (PStr (u "黒染め"))
  ∧ r !! u "drawing_no" = Some (PStr (u "2509-0017"))
  ∧ r !! u "process_note" = Some PNone
  ∧ lines !! 3 = Some (u "熱処理")
  ∧ dict_get before (u "material") = PStr (u "SS400")
  ∧ pick_value lines 3 (u "process_note") = Some (u "SS400")
  ∧ clean_value before (u "process_note") (Some (u "SS400")) = None
  ∧ clean_value empty_result (u "process_note") (Some (u "SS400")) = Some (u "SS400").
Proof.
  intros H r lines before. subst r. rewrite extract_by_rules_eq, H.
  rewrite (drawing_no_kept _ _ (u "2509-0017")); [| | |]; try (vm_compute; congruence).
  repeat split; vm_compute; reflexivity.
Qed.

Lemma base_plate_scenario_witness :
  stripped_lines Scenario.base_plate_text = Scenario.base_plate_lines
  ∧ _extract_by_rules Scenario.base_plate_text !! u "process_note" = Some PNone.
Proof.
  split; [vm_compute; reflexivity|].
  apply (base_plate_scenario Scenario.base_plate_text). vm_compute. reflexivity.
Defined.

End RuleEngineClaims.
(** ** Substrings *)

Section Substrings.

Lemma startswith_spec sub : ∀ s, startswith sub s = true ↔ ∃ post, s = sub ++ post.
Proof.
  induction sub as [|a sub IH]; intros s; simpl.
  - split; [intros _; exists s; reflexivity | reflexivity].
  - destruct s as [|b s].
    + split; [discriminate | intros [post H]; discriminate].
    + rewrite andb_true_iff, N.eqb_eq, IH. split.
      * intros [-> [post ->]]. exists post. reflexivity.
      * intros [post [= -> ->]]. split; [reflexivity | exists post; reflexivity].
Qed.

(** [s.find(sub)] is the start of the leftmost occurrence. *)
Lemma str_find_Some sub s : ∀ i,
  str_find sub s = Some i →
  (∃ post, s = take i s ++ sub ++ post)
  ∧ length (take i s) = i
  ∧ ∀ pre' post', s = pre' ++ sub ++ post' → i ≤ length pre'.
Proof.
  induction s as [|c s IH]; intros i; simpl.
  - destruct (startswith sub []) eqn:E; [|discriminate].
    intros [= <-]. apply startswith_spec in E as [post E].
    repeat split; [exists post; exact E | intros; lia].
  - destruct (startswith sub (c :: s)) eqn:E.
    + intros [= <-]. apply startswith_spec in E as [post E].
      repeat split; [exists post; exact E | intros; lia].
    + destruct (str_find sub s) as [j|] eqn:Ej; [|discriminate].
      intros [= <-]. destruct (IH j eq_refl) as ([post Hpost] & Hlen & Hmin).
      repeat split.
      * exists post. simpl. f_equal. exact Hpost.
      * simpl. f_equal. exact Hlen.
      * intros pre' post' Heq. destruct pre' as [|c' pre'].
        -- exfalso. simpl in Heq.
           assert (startswith sub (c :: s) = true)
             by (apply startswith_spec; exists post'; exact Heq).
           congruence.
        -- simpl in Heq. injection Heq as -> Heq. simpl.
           apply Hmin in Heq. lia.
Qed.

Lemma str_find_None sub s :
  str_find sub s = None → ∀ pre post, s ≠ pre ++ sub ++ post.
Proof.
  induction s as [|c s IH]; simpl.
  - destruct (startswith sub []) eqn:E; [discriminate|]. intros _ pre post Heq.
    destruct pre; [|discriminate]. simpl in Heq.
    assert (startswith sub [] = true) by (apply startswith_spec; exists post; exact Heq).
    congruence.
  - destruct (startswith sub (c :: s)) eqn:E; [discriminate|].
    destruct (str_find sub s) eqn:Ej; [discriminate|]. intros _ pre post Heq.
    destruct pre as [|c' pre].
    + simpl in Heq.
      assert (startswith sub (c :: s) = true)
        by (apply startswith_spec; exists post; exact Heq).
      congruence.
    + simpl in Heq. injection Heq as -> Heq. exact (IH eq_refl _ _ Heq).
Qed.

Lemma str_in_spec sub s : str_in sub s = true ↔ ∃ pre post, s = pre ++ sub ++ post.
Proof.
  unfold str_in. destruct (str_find sub s) as [i|] eqn:E.
  - apply str_find_Some in E as ([post H] & _). split; [|reflexivity].
    intros _. exists (take i s), post. exact H.
  - split; [discriminate|]. intros (pre & post & H).
    exfalso. exact (str_find_None _ _ E _ _ H).
Qed.

(** [s.split(sep)[0]] is what stands before the leftmost occurrence. *)
Lemma split_head_first sep s pre post :
  s = pre ++ sep ++ post →
  (∀ pre' post', s = pre' ++ sep ++ post' → length pre ≤ length pre') →
  split_head sep s = pre.
Proof.
  intros Heq Hmin. unfold split_head.
  destruct (str_find sep s) as [i|] eqn:E.
  - apply str_find_Some in E as ([post' H'] & Hlen & Hmin').
    pose proof (Hmin' _ _ Heq). pose proof (Hmin _ _ H'). 
    assert (i = length pre) by lia. subst i.
    rewrite Heq at 1. rewrite take_app_length. reflexivity.
  - exfalso. exact (str_find_None _ _ E _ _ Heq).
Qed.

End Substrings.
(** ** Running computations *)

Section Running.

Lemma run_bind {A B} (m : M A) (k : A → M B) w :
  (m ≫= k) w = match m w with
               | (Ret a, w') => k a w'
               | (Raise err, w') => (Raise err, w')
               end.
Proof. reflexivity. Qed.

Lemma run_bind_ret {A B} (m : M A) (k : A → M B) w a w' :
  m w = (Ret a, w') → (m ≫= k) w = k a w'.
Proof. intros H. rewrite run_bind, H. reflexivity. Qed.

Lemma run_bind_raise {A B} (m : M A) (k : A → M B) w err w' :
  m w = (Raise err, w') → (m ≫= k) w = (Raise err, w').
Proof. intros H. rewrite run_bind, H. reflexivity. Qed.

Lemma run_try_ret {A} (m : M A) h w a w' :
  m w = (Ret a, w') → try_except m h w = (Ret a, w').
Proof. intros H. unfold try_except. rewrite H. reflexivity. Qed.

Lemma run_try_raise {A} (m : M A) h w err w' :
  m w = (Raise err, w') → try_except m h w = h err w'.
Proof. intros H. unfold try_except. rewrite H. reflexivity. Qed.

Lemma run_execute {A} e op (run : world → A * world) w :
  db_fault e w op = None →
  execute e op run w = (Ret (run w).1, record (EvDb op None) (run w).2).
Proof. intros H. unfold execute. rewrite H. destruct (run w). reflexivity. Qed.

Lemma run_execute_fault {A} e op (run : world → A * world) w err :
  db_fault e w op = Some err →
  execute e op run w = (Raise err, record (EvDb op (Some err)) w).
Proof. intros H. unfold execute. rewrite H. reflexivity. Qed.

Lemma run_create_client e w : supabase_ready e → create_client e w = (Ret tt, w).
Proof.
  intros (Hu & Hk & Hc). unfold create_client.
  destruct (SUPABASE_URL e); [congruence|].
  destruct (SUPABASE_SERVICE_ROLE_KEY e); [congruence|].
  rewrite Hc. reflexivity.
Qed.

Lemma run_get_supabase e w :
  supabase_ready e → pdf_processor._get_supabase e w = (Ret true, w).
Proof.
  intros H. pose proof (run_create_client e w H) as Hc. destruct H as (Hu & Hk & _).
  unfold pdf_processor._get_supabase.
  destruct (SUPABASE_URL e); [congruence|].
  destruct (SUPABASE_SERVICE_ROLE_KEY e); [congruence|].
  rewrite run_bind, Hc. reflexivity.
Qed.

Lemma run_select_drawing_single e id w d :
  db_fault e w (SelectDrawing id true) = None →
  drawings w !! id = Some d →
  select_drawing_single e id w = (Ret (Some d), record (EvDb (SelectDrawing id true) None) w).
Proof.
  intros Hf Hd. unfold select_drawing_single.
  rewrite run_bind, run_execute by exact Hf. simpl. rewrite Hd. reflexivity.
Qed.

Lemma dict_truthy (j : pydict) k v : j !! k = Some v → truthy (PDict j) = true.
Proof.
  intros H. simpl. destruct (map_to_list j) eqn:E; [|reflexivity].
  apply map_to_list_empty_iff in E. subst j. rewrite lookup_empty in H. discriminate.
Qed.

End Running.

Section FirstPage.
Import ai_extractor.

Lemma first_page_loop_skip earlier rest text :
  (∀ sep, sep ∈ earlier → str_in sep text = false) →
  first_page_loop (earlier ++ rest) text = first_page_loop rest text.
Proof.
  induction earlier as [|sep earlier IH]; intros H; simpl; [reflexivity|].
  rewrite (H sep) by apply list_elem_of_here.
  apply IH. intros sep' Hin. apply H. apply list_elem_of_further, Hin.
Qed.

Lemma str_in_false sub s :
  (∀ pre post, s ≠ pre ++ sub ++ post) → str_in sub s = false.
Proof.
  intros H. destruct (str_in sub s) eqn:E; [|reflexivity].
  apply str_in_spec in E as (pre & post & E). destruct (H _ _ E).
Qed.

Lemma page_separator_nonempty sep : sep ∈ page_separators → sep ≠ [].
Proof.
  intros H. repeat (apply elem_of_cons in H as [-> | H]; [compute_done|]).
  apply elem_of_nil in H. destruct H.
Qed.

Lemma run_get_of_dict (j : pydict) k dflt w :
  get_of (PDict j) k dflt w = (Ret (default dflt (j !! k)), w).
Proof. reflexivity. Qed.

(** Reading the stored text and handing its first page to the cascade. *)
Lemma run_process_ai_extraction e d w t :
  supabase_ready e → db_fault e w (SelectDrawing d true) = None →
  stored_ocr_text w d t → t ≠ [] →
  process_ai_extraction_for_drawing e d w
  = cascade e d (_first_page_ocr_text t) (record (EvDb (SelectDrawing d true) None) w).
Proof.
  intros Hready Hf (drw & j & o & Hd & Hj & Ho & Ht) Hne.
  unfold process_ai_extraction_for_drawing.
  rewrite run_bind, run_create_client by exact Hready.
  rewrite run_bind, (run_select_drawing_single _ _ _ drw) by assumption.
  rewrite Hj, (dict_truthy _ _ _ Ho).
  rewrite run_bind, run_get_of_dict, Ho. cbn [default from_option id].
  rewrite run_bind, run_get_of_dict, Ht. cbn [default from_option id].
  destruct t as [|c t]; [congruence|]. reflexivity.
Qed.

End FirstPage.

Section FirstPageClaim.
Import ai_extractor.


Lemma no_occurrence sub s :
  str_in sub s = false → ∀ pre post, s ≠ pre ++ sub ++ post.
Proof.
  intros H pre post Heq.
  assert (str_in sub s = true) by (apply str_in_spec; eauto). congruence.
Qed.


End FirstPageClaim.
(** ** What a computation leaves untouched *)

Create HintDb frame discriminated.

Section Frame.
Context {B : Type} (f : world → B).
Hypothesis f_record : ∀ ev w, f (record ev w) = f w.

Lemma keeps_ret {A} (a : A) : keeps f (ret a).
Proof. intros w r w' [= <- <-]. reflexivity. Qed.

Lemma keeps_raise {A} err : keeps f (@raise A err).
Proof. intros w r w' [= <- <-]. reflexivity. Qed.

Lemma keeps_bind {A C} (m : M A) (k : A → M C) :
  keeps f m → (∀ a, keeps f (k a)) → keeps f (m ≫= k).
Proof.
  intros Hm Hk w r w'. rewrite run_bind.
  destruct (m w) as [[a|err] w1] eqn:E; pose proof (Hm _ _ _ E) as H1.
  - intros H2. apply Hk in H2. congruence.
  - intros [= <- <-]. exact H1.
Qed.

Lemma keeps_try_except {A} (m : M A) h :
  keeps f m → (∀ err, keeps f (h err)) → keeps f (try_except m h).
Proof.
  intros Hm Hh w r w'. unfold try_except.
  destruct (m w) as [[a|err] w1] eqn:E; pose proof (Hm _ _ _ E) as H1.
  - intros [= <- <-]. exact H1.
  - intros H2. apply Hh in H2. congruence.
Qed.

Lemma keeps_for_each {A} (xs : list A) body :
  (∀ x, keeps f (body x)) → keeps f (for_each xs body).
Proof.
  intros Hb. induction xs as [|x xs IH]; simpl.
  - apply keeps_ret.
  - apply keeps_bind; [apply Hb | intros _; exact IH].
Qed.

Lemma keeps_get_world : keeps f get_world.
Proof. intros w r w' [= <- <-]. reflexivity. Qed.

Lemma keeps_emit ev : keeps f (emit ev).
Proof. intros w r w' [= <- <-]. apply f_record. Qed.

Lemma keeps_of_outcome {A} (r : outcome A) : keeps f (of_outcome r).
Proof. destruct r; [apply keeps_ret | apply keeps_raise]. Qed.

Lemma keeps_of_failure r : keeps f (of_failure r).
Proof. destruct r; [apply keeps_raise | apply keeps_ret]. Qed.

(** An oracle asked, its answer recorded. *)
Lemma keeps_asked {A} (ask : world → outcome A) (ev : world → event) :
  keeps f (fun w => of_outcome (ask w) (record (ev w) w)).
Proof.
  intros w r w' H. apply keeps_of_outcome in H. rewrite H. apply f_record.
Qed.

Lemma keeps_told (ask : world → option exn) (ev : world → event) :
  keeps f (fun w => of_failure (ask w) (record (ev w) w)).
Proof.
  intros w r w' H. apply keeps_of_failure in H. rewrite H. apply f_record.
Qed.

Lemma keeps_execute {A} e op (run : world → A * world) :
  (∀ w, f (run w).2 = f w) → keeps f (execute e op run).
Proof.
  intros Hrun w r w'. unfold execute.
  destruct (db_fault e w op).
  - intros [= <- <-]. apply f_record.
  - specialize (Hrun w). destruct (run w) as [a w1]. intros [= <- <-].
    rewrite f_record. exact Hrun.
Qed.

Lemma keeps_create_client e : keeps f (create_client e).
Proof.
  unfold create_client.
  destruct (SUPABASE_URL e); [apply keeps_raise|].
  destruct (SUPABASE_SERVICE_ROLE_KEY e); [apply keeps_raise|].
  apply keeps_of_failure.
Qed.

Lemma keeps_get_supabase e : keeps f (pdf_processor._get_supabase e).
Proof.
  unfold pdf_processor._get_supabase.
  destruct (SUPABASE_URL e); [apply keeps_ret|].
  destruct (SUPABASE_SERVICE_ROLE_KEY e); [apply keeps_ret|].
  apply keeps_bind; [apply keeps_create_client | intros; apply keeps_ret].
Qed.

Lemma keeps_select_queued_job e : keeps f (select_queued_job e).
Proof. apply keeps_execute. reflexivity. Qed.

Lemma keeps_select_drawing e id : keeps f (select_drawing e id).
Proof. apply keeps_execute. reflexivity. Qed.

Lemma keeps_select_drawing_single e id : keeps f (select_drawing_single e id).
Proof.
  unfold select_drawing_single.
  apply keeps_bind; [apply keeps_execute; reflexivity|].
  intros [d|]; [apply keeps_ret|].
  apply keeps_bind; [apply keeps_get_world|]. intros w.
  apply keeps_bind; [apply keeps_of_failure | intros; apply keeps_ret].
Qed.

Lemma keeps_select_files e d t mime ordered limit1 :
  keeps f (select_files e d t mime ordered limit1).
Proof. apply keeps_execute. reflexivity. Qed.

Lemma keeps_utc_now e : keeps f (utc_now e).
Proof. intros w r w' [= <- <-]. apply f_record. Qed.

Lemma keeps_download_blob e path : keeps f (download_blob e path).
Proof. apply (keeps_asked (fun w => gcs_download e w path)). Qed.

Lemma keeps_upload_blob e data path ct : keeps f (upload_blob e data path ct).
Proof. apply (keeps_told (fun w => gcs_upload e w path data ct)). Qed.

Lemma keeps_pdf_to_images e pdf : keeps f (pdf_to_images e pdf).
Proof. apply (keeps_asked (fun w => convert_from_bytes e w pdf)). Qed.

Lemma keeps_render_thumbnail e page : keeps f (render_thumbnail e page).
Proof. apply (keeps_asked (fun w => thumbnail_png e w page)). Qed.

Lemma keeps_annotate_image e image : keeps f (annotate_image e image).
Proof. apply (keeps_asked (fun w => vision e w image)). Qed.

Lemma keeps_ask_gemini_text e t : keeps f (ask_gemini_text e t).
Proof. intros w r w' [= <- <-]. apply f_record. Qed.

Lemma keeps_ask_gemini_multimodal e b t m : keeps f (ask_gemini_multimodal e b t m).
Proof. intros w r w' [= <- <-]. apply f_record. Qed.

Lemma keeps_embed_content e t : keeps f (embed_content e t).
Proof. apply (keeps_asked (fun w => gemini_embedding e w t)). Qed.

Lemma keeps_open_index e : keeps f (open_index e).
Proof. apply (keeps_told (fun w => pinecone_index e w)). Qed.

Lemma keeps_upsert_vector e id v c d : keeps f (upsert_vector e id v c d).
Proof. apply (keeps_told (fun w => pinecone_upsert e w id v c d)). Qed.

(** The writers, for an observation that does not look at what they write. *)
Lemma keeps_update_job e id p :
  (∀ js w, f (set_jobs js w) = f w) → keeps f (update_job e id p).
Proof. intros H. apply keeps_execute. intros w. apply H. Qed.

Lemma keeps_update_drawing e id p :
  (∀ ds w, f (set_drawings ds w) = f w) → keeps f (update_drawing e id p).
Proof.
  intros H. apply keeps_execute. intros w. simpl.
  destruct (drawings w !! id); [apply H | reflexivity].
Qed.

Lemma keeps_update_file_size e id wd ht :
  (∀ fs w, f (set_files fs w) = f w) → keeps f (update_file_size e id wd ht).
Proof. intros H. apply keeps_execute. intros w. apply H. Qed.

Lemma keeps_insert_file e p :
  (∀ fs w, f (set_files fs w) = f w) → keeps f (insert_file e p).
Proof. intros H. apply keeps_execute. intros w. apply H. Qed.

Lemma keeps_delete_tokens e id :
  (∀ ts w, f (set_tokens ts w) = f w) → keeps f (delete_tokens e id).
Proof. intros H. apply keeps_execute. intros w. apply H. Qed.

Lemma keeps_insert_tokens e batch :
  (∀ ts w, f (set_tokens ts w) = f w) → keeps f (insert_tokens e batch).
Proof. intros H. apply keeps_execute. intros w. apply H. Qed.

End Frame.

#[export] Hint Resolve keeps_ret keeps_raise keeps_get_world keeps_emit keeps_of_outcome
  keeps_of_failure keeps_create_client keeps_get_supabase keeps_select_queued_job
  keeps_select_drawing keeps_select_drawing_single keeps_select_files keeps_utc_now
  keeps_download_blob keeps_upload_blob keeps_pdf_to_images keeps_render_thumbnail
  keeps_annotate_image keeps_ask_gemini_text keeps_ask_gemini_multimodal
  keeps_embed_content keeps_open_index keeps_upsert_vector keeps_update_job
  keeps_update_drawing keeps_update_file_size keeps_insert_file keeps_delete_tokens
  keeps_insert_tokens : frame.

#[export] Hint Extern 1 (_ = _) => reflexivity : frame.

(** Take a computation apart along its binds, handlers, loops and cases. *)
Ltac frame_step :=
  lazymatch goal with
  | |- keeps _ (for_each _ _) => apply keeps_for_each; intros ?
  | |- keeps _ (mbind _ _) => apply keeps_bind; [| intros ?]
  | |- keeps _ (try_except _ _) => apply keeps_try_except; [| intros ?]
  | |- keeps _ (match ?x with _ => _ end) => destruct x
  | |- keeps _ _ => solve [eauto 3 with frame]
  end.

Ltac frame := repeat frame_step.

Section FrameOfStages.
Context {B : Type} (f : world → B).
Hypothesis f_record : ∀ ev w, f (record ev w) = f w.

Lemma keeps_get_of v k dflt : keeps f (ai_extractor.get_of v k dflt).
Proof using f_record. unfold ai_extractor.get_of. frame. Qed.

Lemma keeps_extract_text_with_coordinates e image :
  keeps f (ocr_service.extract_text_with_coordinates e image).
Proof using f_record. unfold ocr_service.extract_text_with_coordinates. frame. Qed.

Lemma keeps_get_image_bytes e path : keeps f (ocr_service.get_image_bytes_from_gcs e path).
Proof using f_record.
  unfold ocr_service.get_image_bytes_from_gcs, ocr_service._download_image_from_gcs. frame.
Qed.

Lemma keeps_extract_drawing_fields e t : keeps f (ai_extractor.extract_drawing_fields e t).
Proof using f_record. unfold ai_extractor.extract_drawing_fields. frame. Qed.

Lemma keeps_extract_drawing_fields_multimodal e b t m :
  keeps f (ai_extractor.extract_drawing_fields_multimodal e b t m).
Proof using f_record. unfold ai_extractor.extract_drawing_fields_multimodal. frame. Qed.

Hint Resolve keeps_get_of keeps_extract_text_with_coordinates keeps_get_image_bytes
  keeps_extract_drawing_fields keeps_extract_drawing_fields_multimodal : frame.

(** The cascade reads and asks; it writes nothing. *)
Lemma keeps_cascade e d t : keeps f (ai_extractor.cascade e d t).
Proof using f_record. unfold ai_extractor.cascade. frame. Qed.

Hint Resolve keeps_cascade : frame.

Lemma keeps_process_ai_extraction e d :
  keeps f (ai_extractor.process_ai_extraction_for_drawing e d).
Proof using f_record. unfold ai_extractor.process_ai_extraction_for_drawing. frame. Qed.

Lemma keeps_ai_parts ai keys : ∀ parts, keeps f (vectorizer.ai_parts ai keys parts).
Proof using f_record.
  induction keys as [|key keys IH]; intros parts; simpl; [frame|].
  apply keeps_bind; [frame | intros val; apply IH].
Qed.

Lemma keeps_strings_of parts : keeps f (vectorizer.strings_of parts).
Proof using f_record.
  induction parts as [|p parts IH]; simpl; [frame|].
  destruct p; frame.
Qed.

Hint Resolve keeps_ai_parts keeps_strings_of : frame.

Lemma keeps_build_search_text e j : keeps f (vectorizer._build_search_text e j).
Proof using f_record. unfold vectorizer._build_search_text. frame. Qed.

Lemma keeps_get_embedding e t : keeps f (vectorizer._get_embedding e t).
Proof using f_record. unfold vectorizer._get_embedding. frame. Qed.

Hint Resolve keeps_build_search_text keeps_get_embedding : frame.

(** Vectorizing reads the drawing and talks to Gemini and Pinecone. *)
Lemma keeps_vectorize_and_upsert e d c j : keeps f (vectorizer.vectorize_and_upsert e d c j).
Proof using f_record. unfold vectorizer.vectorize_and_upsert. frame. Qed.

Hint Resolve keeps_vectorize_and_upsert : frame.

Lemma keeps_vectorize_drawing_for_search e d :
  keeps f (vectorizer.vectorize_drawing_for_search e d).
Proof using f_record. unfold vectorizer.vectorize_drawing_for_search. frame. Qed.

End FrameOfStages.

#[export] Hint Resolve keeps_get_of keeps_extract_text_with_coordinates keeps_get_image_bytes
  keeps_extract_drawing_fields keeps_extract_drawing_fields_multimodal keeps_cascade
  keeps_process_ai_extraction keeps_ai_parts keeps_strings_of keeps_build_search_text
  keeps_get_embedding keeps_vectorize_and_upsert keeps_vectorize_drawing_for_search : frame.

Section JobsFrame.

(** Nothing but [_update_job] writes the jobs. *)
Lemma process_pdf_keeps_jobs e d path : keeps jobs (pdf_processor.process_pdf e d path).
Proof.
  unfold pdf_processor.process_pdf, pdf_processor._get_company_id,
    pdf_processor._register_drawing_file. frame.
Qed.

Lemma persist_page_keeps_jobs e d id n out : keeps jobs (ocr_service.persist_page e d id n out).
Proof. unfold ocr_service.persist_page. frame. Qed.

Hint Resolve process_pdf_keeps_jobs persist_page_keeps_jobs : frame.

Lemma ocr_page_keeps_jobs e d acc page : keeps jobs (ocr_service.ocr_page e d acc page).
Proof.
  unfold ocr_service.ocr_page, ocr_service._download_image_from_gcs.
  destruct acc. frame.
Qed.

Lemma ocr_pages_keeps_jobs e d pages : ∀ acc, keeps jobs (ocr_service.ocr_pages e d pages acc).
Proof.
  induction pages as [|page pages IH]; intros acc; simpl; [frame|].
  apply keeps_bind; [apply ocr_page_keeps_jobs | intros acc'; apply IH].
Qed.

Hint Resolve ocr_pages_keeps_jobs : frame.

Lemma process_ocr_keeps_jobs e d : keeps jobs (ocr_service.process_ocr_for_drawing e d).
Proof. unfold ocr_service.process_ocr_for_drawing. frame. Qed.

Lemma save_keeps_jobs e d r : keeps jobs (ai_extractor.save_extracted_fields_to_drawing e d r).
Proof. unfold ai_extractor.save_extracted_fields_to_drawing. frame. Qed.

Hint Resolve process_ocr_keeps_jobs save_keeps_jobs : frame.

Lemma rasterize_stage_keeps_jobs e d : keeps jobs (job_processor.rasterize_stage e d).
Proof. unfold job_processor.rasterize_stage. frame. Qed.

Lemma ocr_stage_keeps_jobs e d : keeps jobs (job_processor.ocr_stage e d).
Proof. unfold job_processor.ocr_stage. frame. Qed.

Lemma extract_stage_keeps_jobs e d : keeps jobs (job_processor.extract_stage e d).
Proof. unfold job_processor.extract_stage. frame. Qed.

Lemma vectorize_stage_keeps_jobs e d : keeps jobs (job_processor.vectorize_stage e d).
Proof. unfold job_processor.vectorize_stage. frame. Qed.

Hint Resolve rasterize_stage_keeps_jobs ocr_stage_keeps_jobs extract_stage_keeps_jobs
  vectorize_stage_keeps_jobs : frame.

Lemma process_drawing_job_keeps_jobs e d : keeps jobs (job_processor.process_drawing_job e d).
Proof.
  unfold job_processor.process_drawing_job, job_processor._get_supabase. frame.
Qed.

End JobsFrame.
(** ** Persisting an extraction *)

Section Persisting.
Import ai_extractor.

Lemma truthy_get (m : pydict) k :
  truthy (dict_get m k) = true → m !! k = Some (dict_get m k).
Proof.
  unfold dict_get. destruct (m !! k); [reflexivity | discriminate].
Qed.

Lemma truthy_present v : truthy v = true → v ≠ PNone ∧ v ≠ PStr [].
Proof. destruct v as [| | | | [|] | |]; try discriminate; split; congruence. Qed.

Lemma copy_if_set_lookup normalized key update_fields k v :
  copy_if_set normalized key update_fields !! k = Some v →
  (k = key ∧ normalized !! k = Some v ∧ truthy v = true) ∨ update_fields !! k = Some v.
Proof.
  unfold copy_if_set. destruct (truthy (dict_get normalized key)) eqn:E; [|right; assumption].
  destruct (decide (key = k)) as [<- | Hne].
  - rewrite lookup_insert_eq. intros [= <-]. left.
    split; [reflexivity|]. split; [apply truthy_get, E | exact E].
  - rewrite lookup_insert_ne by exact Hne. right. assumption.
Qed.

Lemma copy_if_set_none normalized key update_fields k :
  update_fields !! k = None → truthy (dict_get normalized k) = false →
  copy_if_set normalized key update_fields !! k = None.
Proof.
  intros Hu Hk. unfold copy_if_set. destruct (truthy (dict_get normalized key)) eqn:E; [|exact Hu].
  destruct (decide (key = k)) as [<- | Hne]; [congruence|].
  rewrite lookup_insert_ne by exact Hne. exact Hu.
Qed.

(** A column is written only from a value of that key that is set: neither
    null nor empty, and for the tags a non-empty list. *)
Lemma column_updates_lookup normalized k v :
  column_updates normalized !! k = Some v →
  k ∈ column_keys ∧ normalized !! k = Some v ∧ truthy v = true
  ∧ (k = u "tags" → ∃ t ts, v = PList (t :: ts)).
Proof.
  unfold column_updates. intros H.
  assert (Hscalar : ∀ key, key ∈ column_keys → key ≠ u "tags" →
            k = key ∧ normalized !! k = Some v ∧ truthy v = true →
            k ∈ column_keys ∧ normalized !! k = Some v ∧ truthy v = true
            ∧ (k = u "tags" → ∃ t ts, v = PList (t :: ts))).
  { intros key Hin Hne (-> & Hn & Ht). repeat split; try assumption. congruence. }
  destruct (truthy (dict_get normalized (u "tags")) && is_list (dict_get normalized (u "tags")))
    eqn:Etags.
  - destruct (decide (u "tags" = k)) as [<- | Hne].
    + rewrite lookup_insert_eq in H. injection H as <-.
      apply andb_true_iff in Etags as [Et El].
      split; [compute_done|]. split; [apply truthy_get, Et|]. split; [exact Et|].
      intros _. destruct (dict_get normalized (u "tags")) as [| | | | |[|t ts]|]; try discriminate.
      exists t, ts. reflexivity.
    + rewrite lookup_insert_ne in H by exact Hne.
      repeat (apply copy_if_set_lookup in H as [H | H];
              [eapply Hscalar; [| | exact H]; compute_done |]).
      rewrite lookup_empty in H. discriminate.
  - repeat (apply copy_if_set_lookup in H as [H | H];
            [eapply Hscalar; [| | exact H]; compute_done |]).
    rewrite lookup_empty in H. discriminate.
Qed.

Lemma column_updates_none normalized k :
  truthy (dict_get normalized k) = false → column_updates normalized !! k = None.
Proof.
  intros Hk. unfold column_updates.
  assert (Hcopies : ∀ upd : pydict, upd !! k = None →
            (if truthy (dict_get normalized (u "tags")) && is_list (dict_get normalized (u "tags"))
             then <[u "tags" := dict_get normalized (u "tags")]> upd else upd) !! k = None).
  { intros upd Hu. destruct (truthy (dict_get normalized (u "tags"))) eqn:Et; [|exact Hu].
    destruct (is_list _); [|exact Hu]. cbn [andb].
    destruct (decide (u "tags" = k)) as [<- | Hne]; [congruence|].
    rewrite lookup_insert_ne by exact Hne. exact Hu. }
  apply Hcopies. repeat (apply copy_if_set_none; [| exact Hk]). apply lookup_empty.
Qed.

(** The loop over the aliases finds nothing where no alias holds a value. *)
Lemma alias_value_none ai_result en_key table :
  (∀ ja_key, (ja_key, en_key) ∈ table → present (dict_get ai_result ja_key) = false) →
  alias_value ai_result en_key table = None.
Proof.
  induction table as [|[ja mapped] table IH]; intros H; simpl; [reflexivity|].
  destruct (bool_decide (mapped = en_key)) eqn:E.
  - apply bool_decide_eq_true in E. subst mapped.
    rewrite (H ja) by apply list_elem_of_here.
    apply IH. intros ja' Hin. apply H, list_elem_of_further, Hin.
  - apply IH. intros ja' Hin. apply H, list_elem_of_further, Hin.
Qed.

Lemma normalize_key_other ai_result normalized en_key k :
  k ≠ en_key → normalize_key ai_result normalized en_key !! k = normalized !! k.
Proof.
  intros Hne. unfold normalize_key.
  destruct (_ && _); [|reflexivity]. apply lookup_insert_ne. congruence.
Qed.

Lemma normalize_key_absent ai_result normalized en_key :
  present (dict_get ai_result en_key) = false →
  (∀ ja_key, (ja_key, en_key) ∈ _AI_KEY_TO_COLUMN →
     present (dict_get ai_result ja_key) = false) →
  normalize_key ai_result normalized en_key = normalized.
Proof.
  intros Hc Ha. unfold normalize_key.
  rewrite Hc, alias_value_none by exact Ha. cbn [default from_option id].
  rewrite Hc. reflexivity.
Qed.

(** A key for which neither the result nor an alias holds a value is not
    in the normalized record. *)
Lemma normalize_absent ai_result k :
  present (dict_get ai_result k) = false →
  (∀ ja_key, (ja_key, k) ∈ _AI_KEY_TO_COLUMN → present (dict_get ai_result ja_key) = false) →
  _normalize_ai_result ai_result !! k = None.
Proof.
  intros Hc Ha. unfold _normalize_ai_result.
  assert (Hfold : ∀ keys normalized, normalized !! k = None →
            foldl (normalize_key ai_result) normalized keys !! k = None).
  { induction keys as [|key keys IH]; intros normalized Hn; simpl; [exact Hn|].
    apply IH. destruct (decide (k = key)) as [<- | Hne].
    - rewrite normalize_key_absent by assumption. exact Hn.
    - rewrite normalize_key_other by exact Hne. exact Hn. }
  apply Hfold, lookup_empty.
Qed.


Lemma bind_inv {A C} (m : M A) (k : A → M C) w r w' :
  (m ≫= k) w = (r, w') →
  (∃ a w1, m w = (Ret a, w1) ∧ k a w1 = (r, w'))
  ∨ (∃ err, m w = (Raise err, w') ∧ r = Raise err).
Proof.
  rewrite run_bind. destruct (m w) as [[a|err] w1].
  - intros H. left. eauto.
  - intros [= <- <-]. right. eauto.
Qed.

Lemma dict_is_empty_insert (m : pydict) k v : dict_is_empty (<[k := v]> m) = false.
Proof.
  unfold dict_is_empty. destruct (map_to_list (<[k := v]> m)) eqn:E; [|reflexivity].
  apply map_to_list_empty_iff in E. exfalso. exact (insert_non_empty _ _ _ E).
Qed.

(** What an update of a drawing does to the table, however it ends. *)
Lemma update_drawing_effect e id payload w r w' :
  update_drawing e id payload w = (r, w') →
  drawings w' = drawings w
  ∨ ∃ d, drawings w !! id = Some d
      ∧ drawings w' = <[id := Drawing (d_company_id d) (payload ∪ d_fields d)]> (drawings w).
Proof.
  unfold update_drawing, execute. destruct (db_fault e w _).
  - intros [= <- <-]. left. reflexivity.
  - destruct (drawings w !! id) as [d|] eqn:E; intros [= <- <-].
    + right. exists d. split; [reflexivity | reflexivity].
    + left. reflexivity.
Qed.

Lemma save_effect e id ai_result w r w' :
  save_extracted_fields_to_drawing e id ai_result w = (r, w') →
  drawings w' = drawings w
  ∨ ∃ d existing_json,
      drawings w !! id = Some d
      ∧ drawings w'
        = <[id := Drawing (d_company_id d)
                    (<[u "extracted_json" := PDict existing_json]>
                       (column_updates (_normalize_ai_result ai_result)) ∪ d_fields d)]>
            (drawings w).
Proof.
  unfold save_extracted_fields_to_drawing. intros H.
  apply bind_inv in H as [(a & w1 & H1 & H) | (err & H1 & _)];
    apply (keeps_create_client drawings) in H1; [|left; exact H1].
  apply bind_inv in H as [(cur & w2 & H2 & H) | (err & H2 & _)];
    apply (keeps_select_drawing_single drawings (λ _ _, eq_refl)) in H2;
    [|left; congruence].
  rewrite dict_is_empty_insert in H.
  apply update_drawing_effect in H as [H | (d & Hd & H)].
  - left. congruence.
  - right. exists d. eexists. rewrite <- H1, <- H2. split; [exact Hd | exact H].
Qed.

End Persisting.

Section PersistingClaim.
Import ai_extractor.

(** C6. When an extraction result is persisted, a column (title,
    drawing_no, part_name, material, surface_treatment, process_note,
    issue_date, tags) is part of the update only with its normalized value,
    which is then neither null nor empty (for tags: a non-empty list). A key
    for which the result and its aliases hold nothing, null or the empty
    string is left out, and a column that is left out keeps the value the
    drawing had. *)
Theorem columns_only_from_values (ai_result : pydict) :
  let normalized := _normalize_ai_result ai_result in
  let update_fields := column_updates normalized in
  (∀ k v, update_fields !! k = Some v →
     k ∈ column_keys ∧ normalized !! k = Some v
     ∧ v ≠ PNone ∧ v ≠ PStr [] ∧ truthy v = true
     ∧ (k = u "tags" → ∃ t ts, v = PList (t :: ts)))
  ∧ (∀ k, present (dict_get ai_result k) = false →
       (∀ ja_key, (ja_key, k) ∈ _AI_KEY_TO_COLUMN →
          present (dict_get ai_result ja_key) = false) →
       update_fields !! k = None)
  ∧ (∀ e drawing_id w r w' d,
       save_extracted_fields_to_drawing e drawing_id ai_result w = (r, w') →
       drawings w !! drawing_id = Some d →
       ∃ d', drawings w' !! drawing_id = Some d'
         ∧ ∀ k, k ≠ u "extracted_json" → update_fields !! k = None →
             d_fields d' !! k = d_fields d !! k).
Proof.
  intros normalized update_fields. split; [|split].
  - intros k v H. apply column_updates_lookup in H as (Hin & Hn & Ht & Htags).
    destruct (truthy_present v Ht). repeat split; assumption.
  - intros k Hc Ha. apply column_updates_none.
    unfold dict_get. subst normalized. rewrite normalize_absent by assumption. reflexivity.
  - intros e id w r w' d Hsave Hd.
    apply save_effect in Hsave as [Hsame | (d0 & json & Hd0 & Hnew)].
    + exists d. rewrite Hsame. split; [exact Hd | reflexivity].
    + rewrite Hd in Hd0. injection Hd0 as <-.
      eexists. rewrite Hnew, lookup_insert_eq. split; [reflexivity|].
      intros k Hk Hnone. cbn [d_fields].
      apply lookup_union_r. rewrite lookup_insert_ne by congruence. exact Hnone.
Qed.

End PersistingClaim.
(** ** The extraction cascade *)

Section Cascade.
Import ai_extractor.

(** The validation keeps a date that parses, nulls any other value that is
    set, and touches no other key. *)
Lemma validate_issue_date_spec result :
  (truthy (dict_get (validate_issue_date result) (u "issue_date")) = true →
   strptime_ok (dict_get (validate_issue_date result) (u "issue_date")) = true)
  ∧ (∀ k, k ≠ u "issue_date" → validate_issue_date result !! k = result !! k).
Proof.
  unfold validate_issue_date.
  destruct (truthy (dict_get result (u "issue_date"))) eqn:Et.
  - destruct (strptime_ok (dict_get result (u "issue_date"))) eqn:Es.
    + split; [intros _; exact Es | reflexivity].
    + split.
      * unfold dict_get. rewrite lookup_insert_eq. discriminate.
      * intros k Hk. apply lookup_insert_ne. congruence.
  - split; [congruence | reflexivity].
Qed.

(** The rule engine never sets the date, so its record passes unchanged. *)
Lemma validate_rule_result text :
  validate_issue_date (_extract_by_rules text) = _extract_by_rules text.
Proof.
  destruct (extract_by_rules_well_formed text) as (_ & _ & Hdate & _).
  unfold validate_issue_date, dict_get. rewrite Hdate. reflexivity.
Qed.

(** C2. For every OCR text: when the rule engine, run on the first page,
    returns a record with a value (a scalar field neither null nor empty, or
    tags), the cascade returns that record at once, its date validated, and
    the state it leaves is the state it found: no request for a page image
    and no call of the generative model, with the image or with the text
    alone, is made. Reading the stored text is then the only interaction of
    the whole extraction. *)
Theorem rule_result_short_circuits (e : env) (drawing_id ocr_text : pystr) :
  let rule_result := _extract_by_rules (_first_page_ocr_text ocr_text) in
  _has_any_extracted_value rule_result = true →
  validate_issue_date rule_result = rule_result
  ∧ (∀ w, cascade e drawing_id (_first_page_ocr_text ocr_text) w
          = (Ret (validate_issue_date rule_result), w))
  ∧ (∀ w, supabase_ready e → db_fault e w (SelectDrawing drawing_id true) = None →
          stored_ocr_text w drawing_id ocr_text →
          process_ai_extraction_for_drawing e drawing_id w
          = (Ret rule_result, record (EvDb (SelectDrawing drawing_id true) None) w)).
Proof.
  intros rule_result Hany.
  assert (Hcascade : ∀ w, cascade e drawing_id (_first_page_ocr_text ocr_text) w
                          = (Ret (validate_issue_date rule_result), w)).
  { intros w. unfold cascade. fold rule_result. rewrite Hany. reflexivity. }
  split; [apply validate_rule_result|]. split; [exact Hcascade|].
  intros w Hready Hf Hstored.
  rewrite (run_process_ai_extraction e drawing_id w ocr_text); try assumption.
  - rewrite Hcascade. subst rule_result. rewrite validate_rule_result. reflexivity.
  - intros ->. subst rule_result. vm_compute in Hany. discriminate.
Qed.

(** The base-plate text: the rule engine finds values, nothing else runs. *)
Lemma rule_result_short_circuits_witness :
  cascade (Scenario.service_env Scenario.base_plate_text ∅ None) (u "d1")
    (_first_page_ocr_text Scenario.base_plate_text) (Scenario.world_with [Scenario.page1])
  = (Ret (validate_issue_date (_extract_by_rules (_first_page_ocr_text Scenario.base_plate_text))),
     Scenario.world_with [Scenario.page1]).
Proof.
  assert (Hany : _has_any_extracted_value
                   (_extract_by_rules (_first_page_ocr_text Scenario.base_plate_text)) = true)
    by (vm_compute; reflexivity).
  exact (proj1 (proj2 (rule_result_short_circuits
                         (Scenario.service_env Scenario.base_plate_text ∅ None)
                         (u "d1") Scenario.base_plate_text Hany))
               (Scenario.world_with [Scenario.page1])).
Defined.

(** C5, at the failing input. The page holds no label, the text-only model
    answers {"出図日": "2024/01/05"}: the validation looks at the key
    issue_date only, the normalization then takes the value of the alias,
    and the column issue_date receives a value that is no YYYY-MM-DD date. *)
Theorem localized_date_is_persisted_unvalidated :
  let e := Scenario.service_env Scenario.remark_text Scenario.localized_date_answer None in
  let w' := (job_processor._run_one_cycle e (Scenario.world_with [Scenario.page1])).2 in
  Scenario.column_of w' (u "d1") (u "issue_date") = Some (PStr (u "2024/01/05"))
  ∧ strptime_ymd (u "2024/01/05") = None.
Proof. vm_compute. split; reflexivity. Qed.

End Cascade.
(** ** The OCR stage *)

Section OcrStage.
Import ocr_service.

(** A handler that only logs makes the whole [try] end normally. *)
Lemma try_logged_total (m : M unit) w :
  try_except m (fun _ => ret tt) w = (Ret tt, (try_except m (fun _ => ret tt) w).2).
Proof.
  unfold try_except. destruct (m w) as [[[]|err] w1]; reflexivity.
Qed.

(** The OCR of an image never raises; a failure of the Vision call gives
    the empty text. *)
Lemma run_extract_text e image w :
  ∃ out,
    extract_text_with_coordinates e image w
    = (Ret out, record (EvVision image (vision e w image)) w)
    ∧ (∀ err, vision e w image = Raise err → out = OcrOutput [] [] 0 0).
Proof.
  unfold extract_text_with_coordinates, try_except, annotate_image.
  rewrite run_bind.
  destruct (vision e w image) as [resp|err] eqn:E; cbn [of_outcome ret raise].
  - destruct (vr_error_message resp);
      [destruct (vr_full_text_annotation resp) as [[text words]|]|];
      (eexists; split; [reflexivity | intros; discriminate]).
  - eexists. split; [reflexivity | reflexivity].
Qed.

(** One page whose image was downloaded: the entry and the block are in the
    lists whatever the requests of the persistence step do. *)
Lemma ocr_page_downloaded e drawing_id pages all_texts page_file w image_bytes :
  gcs_download e w (file_gcs_path page_file) = Ret image_bytes →
  let page_no := page_number page_file in
  let w1 := record (EvGcsDownload (file_gcs_path page_file) (Ret image_bytes)) w in
  let w2 := record (EvVision image_bytes (vision e w1 image_bytes)) w1 in
  ∃ out,
    extract_text_with_coordinates e image_bytes w1 = (Ret out, w2)
    ∧ (∀ err, vision e w1 image_bytes = Raise err → out_text out = [])
    ∧ ocr_page e drawing_id (pages, all_texts) page_file w
      = (Ret (pages ++ [page_entry page_no (out_text out)],
              add_block all_texts page_no (out_text out)),
         (try_except (persist_page e drawing_id (file_id page_file) page_no out)
                     (fun _ => ret tt) w2).2).
Proof.
  intros Hd page_no w1 w2.
  destruct (run_extract_text e image_bytes w1) as (out & Hout & Hfail).
  exists out. split; [exact Hout|]. split.
  { intros err Herr. rewrite (Hfail err Herr). reflexivity. }
  unfold ocr_page. fold page_no.
  assert (Hdl : _download_image_from_gcs e (file_gcs_path page_file) w = (Ret image_bytes, w1)).
  { unfold _download_image_from_gcs, download_blob. rewrite Hd. reflexivity. }
  erewrite run_try_ret; [reflexivity|].
  rewrite (run_bind_ret _ _ _ _ _ Hdl), (run_bind_ret _ _ _ _ _ Hout).
  rewrite run_bind, try_logged_total. reflexivity.
Qed.

(** One page whose download failed: an entry with the empty text. *)
Lemma ocr_page_not_downloaded e drawing_id pages all_texts page_file w err :
  gcs_download e w (file_gcs_path page_file) = Raise err →
  ocr_page e drawing_id (pages, all_texts) page_file w
  = (Ret (pages ++ [page_entry (page_number page_file) []], all_texts),
     record (EvGcsDownload (file_gcs_path page_file) (Raise err)) w).
Proof.
  intros Hd. unfold ocr_page.
  erewrite run_try_raise; [reflexivity|].
  apply run_bind_raise. unfold _download_image_from_gcs, download_blob.
  rewrite Hd. reflexivity.
Qed.

(** In every case a page adds one entry and at most its own block. *)
Lemma ocr_page_total e drawing_id pages all_texts page_file w :
  ∃ text w',
    ocr_page e drawing_id (pages, all_texts) page_file w
    = (Ret (pages ++ [page_entry (page_number page_file) text],
            add_block all_texts (page_number page_file) text), w').
Proof.
  destruct (gcs_download e w (file_gcs_path page_file)) as [image|err] eqn:Hd.
  - destruct (ocr_page_downloaded e drawing_id pages all_texts page_file w image Hd)
      as (out & _ & _ & H).
    exists (out_text out). eexists. exact H.
  - exists []. eexists. apply ocr_page_not_downloaded. exact Hd.
Qed.

Lemma join_contains sep parts block :
  block ∈ parts → ∃ pre post, join sep parts = pre ++ block ++ post.
Proof.
  induction parts as [|p parts IH]; intros Hin; [apply elem_of_nil in Hin; destruct Hin|].
  apply elem_of_cons in Hin as [-> | Hin].
  - destruct parts as [|q parts].
    + exists [], []. simpl. rewrite app_nil_r. reflexivity.
    + exists [], (sep ++ join sep (q :: parts)). reflexivity.
  - destruct (IH Hin) as (pre & post & Heq).
    destruct parts as [|q parts]; [apply elem_of_nil in Hin; destruct Hin|].
    exists (p ++ sep ++ pre), post.
    change (join sep (p :: q :: parts)) with (p ++ sep ++ join sep (q :: parts)).
    rewrite Heq, <- !app_assoc. reflexivity.
Qed.

Lemma add_block_keeps all_texts page_no text block :
  block ∈ all_texts → block ∈ add_block all_texts page_no text.
Proof.
  intros H. unfold add_block. destruct text; [exact H|].
  apply elem_of_app. left. exact H.
Qed.

(** The loop over the pages never raises, adds one entry per page and
    drops no block. *)
Lemma ocr_pages_total e drawing_id page_files : ∀ pages all_texts w,
  ∃ pages' all_texts' w',
    ocr_pages e drawing_id page_files (pages, all_texts) w = (Ret (pages', all_texts'), w')
    ∧ length pages' = length pages + length page_files
    ∧ ∀ block, block ∈ all_texts → block ∈ all_texts'.
Proof.
  induction page_files as [|page_file page_files IH]; intros pages all_texts w.
  - exists pages, all_texts, w. split; [reflexivity|]. split; [simpl; lia | auto].
  - destruct (ocr_page_total e drawing_id pages all_texts page_file w) as (text & w1 & H1).
    destruct (IH (pages ++ [page_entry (page_number page_file) text])
                 (add_block all_texts (page_number page_file) text) w1)
      as (pages' & all_texts' & w' & H & Hlen & Hkeep).
    exists pages', all_texts', w'. split; [|split].
    + cbn [ocr_pages]. rewrite (run_bind_ret _ _ _ _ _ H1). exact H.
    + rewrite Hlen, length_app. simpl. lia.
    + intros block Hin. apply Hkeep, add_block_keeps, Hin.
Qed.

(** The page number the loop uses is the column, 0 when it is null. *)
Lemma page_number_default page_file :
  page_number page_file = default 0%N (file_page_no page_file).
Proof. unfold page_number. destruct (file_page_no page_file) as [[|n]|]; reflexivity. Qed.

Lemma add_block_adds all_texts page_no text :
  text ≠ [] → page_block page_no text ∈ add_block all_texts page_no text.
Proof.
  intros H. unfold add_block. destruct text; [congruence|].
  apply elem_of_app. right. apply list_elem_of_here.
Qed.

(** The loop over the pages: it never raises; page by page it adds the
    entry of the page, and the block of a page with a text is in the texts
    at the end, with every block that was there. *)
Lemma ocr_pages_entries e drawing_id page_files : ∀ pages all_texts w,
  ∃ more all_texts' w',
    ocr_pages e drawing_id page_files (pages, all_texts) w
    = (Ret (pages ++ more, all_texts'), w')
    ∧ length more = length page_files
    ∧ (∀ i page_file, page_files !! i = Some page_file →
         ∃ text, more !! i = Some (page_entry (page_number page_file) text)
                 ∧ (text ≠ [] → page_block (page_number page_file) text ∈ all_texts'))
    ∧ ∀ block, block ∈ all_texts → block ∈ all_texts'.
Proof.
  induction page_files as [|f fs IH]; intros pages all_texts w.
  - exists [], all_texts, w. rewrite app_nil_r. split; [reflexivity|]. split; [reflexivity|].
    split; [|auto]. intros i page_file Hi. rewrite lookup_nil in Hi. discriminate.
  - destruct (ocr_page_total e drawing_id pages all_texts f w) as (t & wa & Ha).
    destruct (IH (pages ++ [page_entry (page_number f) t])
                 (add_block all_texts (page_number f) t) wa)
      as (more & ts' & w' & H & Hlen & Hentries & Hkeep).
    exists (page_entry (page_number f) t :: more), ts', w'. split; [|split; [|split]].
    + cbn [ocr_pages]. rewrite (run_bind_ret _ _ _ _ _ Ha), H, <- app_assoc. reflexivity.
    + simpl. rewrite Hlen. reflexivity.
    + intros i page_file Hi. destruct i as [|i].
      * injection Hi as <-. exists t. split; [reflexivity|].
        intros Ht. apply Hkeep, add_block_adds, Ht.
      * exact (Hentries i page_file Hi).
    + intros block Hin. apply Hkeep, add_block_keeps, Hin.
Qed.

(** What the function returns is made of the lists of the loop. *)
Lemma process_ocr_ret e drawing_id w doc w' :
  process_ocr_for_drawing e drawing_id w = (Ret doc, w') →
  ∃ page_files w1 pages all_texts,
    select_files e drawing_id (u "page_image") None true false w = (Ret page_files, w1)
    ∧ ocr_pages e drawing_id page_files ([], []) w1 = (Ret (pages, all_texts), w')
    ∧ doc = ocr_document (join [10; 10]%N all_texts) pages.
Proof.
  unfold process_ocr_for_drawing. intros H.
  apply bind_inv in H as [([] & w0 & H0 & H) | (err & _ & ?)]; [|discriminate].
  assert (w0 = w) as ->.
  { revert H0. unfold create_client, of_failure.
    destruct (SUPABASE_URL e); [discriminate|].
    destruct (SUPABASE_SERVICE_ROLE_KEY e); [discriminate|].
    destruct (client_error e); [discriminate|]. intros [= <-]. reflexivity. }
  apply bind_inv in H as [(page_files & w1 & H1 & H) | (err & _ & ?)]; [|discriminate].
  exists page_files, w1.
  destruct page_files as [|f fs].
  - injection H as <- <-. exists [], []. split; [exact H1|]. split; reflexivity.
  - apply bind_inv in H as [([pages all_texts] & w2 & H2 & H) | (err & _ & ?)]; [|discriminate].
    injection H as <- <-. exists pages, all_texts. split; [exact H1|]. split; [exact H2 | reflexivity].
Qed.

End OcrStage.

Section OcrStageClaim.
Import ocr_service.


End OcrStageClaim.
(** ** The orchestrator *)

Section Orchestrator.
Import job_processor.

Lemma run_fetch e w :
  supabase_ready e → no_db_faults e →
  _fetch_one_queued_job e w
  = (Ret (oldest_queued (jobs w) None), record (EvDb SelectQueuedJob None) w).
Proof.
  intros Hr Hf. unfold _fetch_one_queued_job, _get_supabase.
  rewrite (run_bind_ret _ _ _ _ _ (run_get_supabase e w Hr)).
  unfold select_queued_job. rewrite run_execute by apply Hf. reflexivity.
Qed.

Lemma run_update_job e id status step error_message started finished w :
  supabase_ready e → no_db_faults e →
  let p := JobPayload status step error_message started finished in
  _update_job e id status step error_message started finished w
  = (Ret tt, record (EvDb (UpdateJob id p) None) (set_jobs (patch_jobs id p (jobs w)) w)).
Proof.
  intros Hr Hf p. unfold _update_job, _get_supabase.
  rewrite (run_bind_ret _ _ _ _ _ (run_get_supabase e w Hr)).
  unfold update_job. rewrite run_execute by apply Hf. reflexivity.
Qed.

Lemma run_utc_now e w : utc_now e w = (Ret (now e w), record (EvNow (now e w)) w).
Proof. reflexivity. Qed.

Lemma run_select_files e d t mime ordered limit1 w :
  no_db_faults e →
  (∀ f, f ∈ files w →
     bool_decide (file_drawing_id f = d) && bool_decide (file_type f = t)
     && match mime with Some m => bool_decide (file_mime f = m) | None => true end = false) →
  select_files e d t mime ordered limit1 w
  = (Ret [], record (EvDb (SelectFiles d t mime ordered limit1) None) w).
Proof.
  intros Hf Hnone. unfold select_files. rewrite run_execute by apply Hf. cbn [fst snd].
  assert (Hfilter : List.filter (fun f =>
            bool_decide (file_drawing_id f = d) && bool_decide (file_type f = t)
            && match mime with Some m => bool_decide (file_mime f = m) | None => true end)
            (files w) = []).
  { induction (files w) as [|f fs IH]; [reflexivity|]. simpl.
    rewrite (Hnone f) by apply list_elem_of_here.
    apply IH. intros g Hg. apply Hnone, list_elem_of_further, Hg. }
  rewrite Hfilter. destruct ordered, limit1; reflexivity.
Qed.

(** Without artifacts the first stage makes its three requests and tells
    the runner to stop. *)
Lemma run_rasterize_no_artifacts e d w :
  no_db_faults e → no_artifacts w d →
  rasterize_stage e d w
  = (Ret false,
     record (EvDb (SelectFiles d (u "page_image") None false false) None)
       (record (EvDb (SelectFiles d (u "original") (Some (u "application/pdf")) false false) None)
          ((update_drawing e d {[u "status" := PStr (u "processing")]} w).2))).
Proof.
  intros Hf Hnone. unfold rasterize_stage.
  assert (Hfiles : ∀ w', (update_drawing e d {[u "status" := PStr (u "processing")]} w).2 = w' →
            files w' = files w).
  { intros w' <-. unfold update_drawing. rewrite run_execute by apply Hf. cbn [fst snd].
    destruct (drawings w !! d); reflexivity. }
  rewrite run_bind. unfold update_drawing at 1. rewrite run_execute by apply Hf.
  set (w1 := record _ _).
  assert (Hw1 : (update_drawing e d {[u "status" := PStr (u "processing")]} w).2 = w1).
  { unfold update_drawing. rewrite run_execute by apply Hf. reflexivity. }
  rewrite Hw1. pose proof (Hfiles _ Hw1) as Hfs.
  rewrite run_bind, run_select_files; [| exact Hf |].
  2:{ intros f Hin. rewrite Hfs in Hin.
      destruct (decide (file_drawing_id f = d)) as [Hd|Hd];
        [|rewrite (bool_decide_eq_false_2 _ Hd); reflexivity].
      destruct (Hnone f Hin Hd) as [_ Hpdf].
      rewrite (bool_decide_eq_true_2 _ Hd). cbn [andb].
      destruct (decide (file_type f = u "original")) as [Ht|Ht];
        [|rewrite (bool_decide_eq_false_2 _ Ht); reflexivity].
      rewrite (bool_decide_eq_true_2 _ Ht). cbn [andb].
      apply bool_decide_eq_false_2. intros Hm. apply Hpdf. split; assumption. }
  rewrite run_bind, run_select_files; [reflexivity | exact Hf |].
  intros f Hin. change (files (record _ w1)) with (files w1) in Hin. rewrite Hfs in Hin.
  destruct (decide (file_drawing_id f = d)) as [Hd|Hd];
    [|rewrite (bool_decide_eq_false_2 _ Hd); reflexivity].
  destruct (Hnone f Hin Hd) as [Hpage _].
  rewrite (bool_decide_eq_false_2 _ Hpage), andb_false_r. reflexivity.
Qed.

Lemma patch_jobs_status id p js j' :
  j' ∈ patch_jobs id p js → job_id j' = id → job_status j' = p_status p.
Proof.
  unfold patch_jobs. intros Hin Hid. apply list_elem_of_fmap in Hin as (j0 & -> & _).
  destruct (bool_decide (job_id j0 = id)) eqn:E; [reflexivity|].
  apply bool_decide_eq_false in E. contradiction.
Qed.

Lemma patch_jobs_error_message id p js :
  p_error_message p = None →
  map job_error_message (patch_jobs id p js) = map job_error_message js.
Proof.
  intros Hp. unfold patch_jobs. rewrite map_map. apply map_ext. intros j.
  destruct (bool_decide (job_id j = id)); [|reflexivity].
  simpl. rewrite Hp. reflexivity.
Qed.

End Orchestrator.

Section NoArtifactsClaim.
Import job_processor.

(** C7. A drawing without an original PDF and without page images: the
    stage runner makes its three requests (mark the drawing, look for the
    PDF, look for page images) and returns without raising and without
    running the OCR, extract or vectorize stage; the cycle then marks the
    job success. The interactions of the whole cycle are listed. *)
Theorem no_artifacts_job_succeeds (e : env) (w : world) (j : job) :
  supabase_ready e → no_db_faults e →
  oldest_queued (jobs w) None = Some j →
  no_artifacts w (job_drawing_id j) →
  let d := job_drawing_id j in
  let w1 := claimed e j w in
  ∃ w2 w',
    rasterize_stage e d w1 = (Ret false, w2)
    ∧ process_drawing_job e d w1 = (Ret tt, w2)
    ∧ _run_one_cycle e w = (Ret tt, w')
    ∧ (∀ j', j' ∈ jobs w' → job_id j' = job_id j → job_status j' = u "success")
    ∧ map job_error_message (jobs w') = map job_error_message (jobs w)
    ∧ ∃ t1 t2,
        trace w'
        = trace w
          ++ [EvDb SelectQueuedJob None;
              EvNow t1;
              EvDb (UpdateJob (job_id j) (running_payload t1)) None;
              EvDb (UpdateDrawing d {[u "status" := PStr (u "processing")]}) None;
              EvDb (SelectFiles d (u "original") (Some (u "application/pdf")) false false) None;
              EvDb (SelectFiles d (u "page_image") None false false) None;
              EvNow t2;
              EvDb (UpdateJob (job_id j) (success_payload t2)) None].
Proof.
  intros Hr Hf Hj Hnone d w1.
  assert (Hw1 : w1 = record (EvDb (UpdateJob (job_id j) (running_payload
                                     (now e (record (EvDb SelectQueuedJob None) w)))) None)
                       (set_jobs (patch_jobs (job_id j) (running_payload
                                     (now e (record (EvDb SelectQueuedJob None) w)))
                                    (jobs (record (EvNow (now e (record (EvDb SelectQueuedJob None) w)))
                                             (record (EvDb SelectQueuedJob None) w))))
                          (record (EvNow (now e (record (EvDb SelectQueuedJob None) w)))
                             (record (EvDb SelectQueuedJob None) w)))).
  { unfold w1, claimed. rewrite run_bind, run_utc_now, run_update_job by assumption.
    reflexivity. }
  assert (Hnone1 : no_artifacts w1 d) by (rewrite Hw1; exact Hnone).
  pose proof (run_rasterize_no_artifacts e d w1 Hf Hnone1) as Hras.
  set (w2 := record _ _) in Hras.
  assert (Hpdj : process_drawing_job e d w1 = (Ret tt, w2)).
  { unfold process_drawing_job, _get_supabase.
    rewrite (run_bind_ret _ _ _ _ _ (run_get_supabase e w1 Hr)).
    rewrite (run_bind_ret _ _ _ _ _ Hras). reflexivity. }
  eexists w2, _. split; [exact Hras|]. split; [exact Hpdj|].
  split.
  { unfold _run_one_cycle.
    rewrite (run_bind_ret _ _ _ _ _ (run_fetch e w Hr Hf)), Hj.
    rewrite run_bind, run_utc_now, run_bind, run_update_job by assumption.
    fold (running_payload (now e (record (EvDb SelectQueuedJob None) w))).
    rewrite <- Hw1.
    erewrite run_try_ret; [reflexivity|].
    rewrite (run_bind_ret _ _ _ _ _ Hpdj), run_bind, run_utc_now.
    rewrite run_update_job by assumption. reflexivity. }
  assert (Hjobs2 : jobs w2 = jobs w1).
  { apply (rasterize_stage_keeps_jobs e d w1 _ _ Hras). }
  assert (Htrace2 : trace w2 = trace w1
            ++ [EvDb (UpdateDrawing d {[u "status" := PStr (u "processing")]}) None;
                EvDb (SelectFiles d (u "original") (Some (u "application/pdf")) false false) None;
                EvDb (SelectFiles d (u "page_image") None false false) None]).
  { unfold w2. unfold update_drawing. rewrite run_execute by apply Hf. cbn [fst snd].
    destruct (drawings w1 !! d); cbn [record trace set_drawings];
      rewrite <- !app_assoc; reflexivity. }
  split; [|split].
  - intros j' Hin Hid. cbn [jobs record set_jobs] in Hin.
    apply (patch_jobs_status _ _ _ _ Hin Hid).
  - cbn [jobs record set_jobs]. rewrite patch_jobs_error_message by reflexivity.
    rewrite Hjobs2, Hw1. cbn [jobs record set_jobs].
    apply patch_jobs_error_message. reflexivity.
  - eexists _, _. cbn [trace record set_jobs]. rewrite Htrace2, Hw1.
    cbn [trace record set_jobs]. rewrite <- !app_assoc. reflexivity.
Qed.

End NoArtifactsClaim.

Section ScenarioFacts.

Lemma service_env_ready page_text answer failure :
  supabase_ready (Scenario.service_env page_text answer failure).
Proof. repeat split; cbv; congruence. Qed.

Lemma service_env_no_db_faults page_text answer failure :
  no_db_faults (Scenario.service_env page_text answer failure).
Proof. intros w op. reflexivity. Qed.

End ScenarioFacts.

Section NoArtifactsWitness.
Import job_processor.

(** The drawing d1 with no artifact at all. *)
Lemma no_artifacts_job_succeeds_witness :
  ∃ w', _run_one_cycle (Scenario.service_env Scenario.remark_text ∅ None)
          (Scenario.world_with []) = (Ret tt, w')
        ∧ ∀ j', j' ∈ jobs w' → job_id j' = u "j1" → job_status j' = u "success".
Proof.
  destruct (no_artifacts_job_succeeds
              (Scenario.service_env Scenario.remark_text ∅ None)
              (Scenario.world_with []) Scenario.queued_job
              (service_env_ready _ _ _) (service_env_no_db_faults _ _ _) eq_refl)
    as (w2 & w' & _ & _ & Hcycle & Hstatus & _).
  - intros f Hin. apply elem_of_nil in Hin. destruct Hin.
  - exists w'. split; [exact Hcycle | exact Hstatus].
Defined.

End NoArtifactsWitness.

(** ** A failure of the vectorizing *)

#[export] Hint Resolve process_pdf_keeps_jobs persist_page_keeps_jobs ocr_pages_keeps_jobs
  process_ocr_keeps_jobs save_keeps_jobs rasterize_stage_keeps_jobs ocr_stage_keeps_jobs
  extract_stage_keeps_jobs vectorize_stage_keeps_jobs : frame.

Section VectorizeFailure.
Import job_processor.

(** Lines 107-120 of the vectorizer: the exception of the upsert is logged
    and raised again. *)
Lemma upsert_exception_is_reraised e id values company ww err :
  pinecone_upsert e ww id values company id = Some err →
  try_except (upsert_vector e id values company id) (fun err => raise err) ww
  = (Raise err, record (EvPineconeUpsert id values company id (Some err)) ww).
Proof.
  intros H. unfold try_except, upsert_vector. rewrite H. reflexivity.
Qed.

Lemma stages_before_vectorize_keeps_jobs e d : keeps jobs (stages_before_vectorize e d).
Proof. unfold stages_before_vectorize. frame. Qed.

(** When the earlier stages get through, the job is the vectorize stage
    from the state they leave. *)
Lemma process_drawing_job_reaches e d w1 w2 :
  supabase_ready e →
  stages_before_vectorize e d w1 = (Ret true, w2) →
  process_drawing_job e d w1 = vectorize_stage e d w2.
Proof.
  intros Hr H. unfold process_drawing_job, _get_supabase.
  rewrite (run_bind_ret _ _ _ _ _ (run_get_supabase e w1 Hr)).
  unfold stages_before_vectorize in H. rewrite run_bind in H. rewrite run_bind.
  destruct (rasterize_stage e d w1) as [[[|]|err] wa]; try discriminate.
  rewrite run_bind in H. rewrite run_bind.
  destruct (ocr_stage e d wa) as [[[]|err] wb]; [|discriminate].
  rewrite run_bind in H. rewrite run_bind.
  destruct (extract_stage e d wb) as [[[]|err] wc]; [|discriminate].
  injection H as <-. reflexivity.
Qed.

End VectorizeFailure.

Section VectorizeFailureClaim.
Import job_processor.

(** C1, as the code has it. When the vectorizing raises (the upsert into
    the vector index raising is the case in point: the vectorizer logs it
    and raises it again), the stage runner catches and logs the exception:
    the job does not end error but success, no error_message is set, and
    the drawings table, extracted_json included, is as the OCR and extract
    stages left it. *)
Theorem vectorize_failure_is_swallowed (e : env) (w : world) (j : job) (w2 w3 : world)
    (err : exn) :
  supabase_ready e → no_db_faults e →
  oldest_queued (jobs w) None = Some j →
  stages_before_vectorize e (job_drawing_id j) (claimed e j w) = (Ret true, w2) →
  vectorizer.vectorize_drawing_for_search e (job_drawing_id j) w2 = (Raise err, w3) →
  vectorize_stage e (job_drawing_id j) w2 = (Ret tt, w3)
  ∧ process_drawing_job e (job_drawing_id j) (claimed e j w) = (Ret tt, w3)
  ∧ ∃ w',
      _run_one_cycle e w = (Ret tt, w')
      ∧ drawings w' = drawings w2
      ∧ (∀ j', j' ∈ jobs w' → job_id j' = job_id j → job_status j' = u "success")
      ∧ map job_error_message (jobs w') = map job_error_message (jobs w).
Proof.
  intros Hr Hf Hj Hstages Hvec.
  assert (Hstage : vectorize_stage e (job_drawing_id j) w2 = (Ret tt, w3)).
  { unfold vectorize_stage. rewrite (run_try_raise _ _ _ _ _ Hvec). reflexivity. }
  assert (Hpdj : process_drawing_job e (job_drawing_id j) (claimed e j w) = (Ret tt, w3)).
  { rewrite (process_drawing_job_reaches e _ _ w2 Hr Hstages). exact Hstage. }
  split; [exact Hstage|]. split; [exact Hpdj|].
  assert (Hclaimed : ∃ t1, (now ← utc_now e;
             _update_job e (job_id j) (u "running") (Some (u "convert")) None (Some now) None)
              (record (EvDb SelectQueuedJob None) w) = (Ret tt, claimed e j w)
            ∧ jobs (claimed e j w) = patch_jobs (job_id j) (running_payload t1) (jobs w)).
  { eexists. unfold claimed. rewrite run_bind, run_utc_now, run_update_job by assumption.
    split; reflexivity. }
  destruct Hclaimed as (t1 & Hclaim & Hjobs1).
  pose proof (stages_before_vectorize_keeps_jobs e _ _ _ _ Hstages) as Hjobs2.
  pose proof (keeps_vectorize_drawing_for_search jobs (fun _ _ => eq_refl) e _ _ _ _ Hvec)
    as Hjobs3.
  pose proof (keeps_vectorize_drawing_for_search drawings (fun _ _ => eq_refl) e _ _ _ _ Hvec)
    as Hdrawings3.
  eexists. split; [|split; [|split]].
  - unfold _run_one_cycle.
    rewrite (run_bind_ret _ _ _ _ _ (run_fetch e w Hr Hf)), Hj.
    rewrite run_bind in Hclaim. rewrite run_bind.
    destruct (utc_now e (record (EvDb SelectQueuedJob None) w)) as [[t|?] wt];
      [|discriminate].
    rewrite run_bind, Hclaim.
    erewrite run_try_ret; [reflexivity|].
    rewrite (run_bind_ret _ _ _ _ _ Hpdj), run_bind, run_utc_now.
    rewrite run_update_job by assumption. reflexivity.
  - exact Hdrawings3.
  - intros j' Hin Hid. cbn [jobs record set_jobs] in Hin.
    apply (patch_jobs_status _ _ _ _ Hin Hid).
  - cbn [jobs record set_jobs]. rewrite patch_jobs_error_message by reflexivity.
    rewrite Hjobs3, Hjobs2, Hjobs1. apply patch_jobs_error_message. reflexivity.
Qed.

(** C1 as stated fails: the upsert raises, and the job ends success with no
    error_message. *)
Lemma upsert_failure_job_not_error :
  let e := Scenario.service_env Scenario.base_plate_text ∅ (Some Scenario.index_down) in
  let w' := (_run_one_cycle e (Scenario.world_with [Scenario.page1])).2 in
  upsert_failures w' = [Scenario.index_down]
  ∧ map job_status (jobs w') = [u "success"]
  ∧ map job_error_message (jobs w') = [None].
Proof. vm_compute. repeat split. Qed.

(** The same run, through the theorem. *)
Lemma vectorize_failure_is_swallowed_witness :
  let e := Scenario.service_env Scenario.base_plate_text ∅ (Some Scenario.index_down) in
  let w := Scenario.world_with [Scenario.page1] in
  let w2 := (stages_before_vectorize e (u "d1") (claimed e Scenario.queued_job w)).2 in
  ∃ w', _run_one_cycle e w = (Ret tt, w') ∧ drawings w' = drawings w2.
Proof.
  intros e w w2.
  assert (H1 : stages_before_vectorize e (job_drawing_id Scenario.queued_job)
                 (claimed e Scenario.queued_job w) = (Ret true, w2))
    by (vm_compute; reflexivity).
  assert (H2 : vectorizer.vectorize_drawing_for_search e (job_drawing_id Scenario.queued_job) w2
               = (Raise Scenario.index_down,
                  (vectorizer.vectorize_drawing_for_search e (u "d1") w2).2))
    by (vm_compute; reflexivity).
  destruct (vectorize_failure_is_swallowed e w Scenario.queued_job w2 _ Scenario.index_down
              (service_env_ready _ _ _) (service_env_no_db_faults _ _ _) eq_refl H1 H2)
    as (_ & _ & w' & Hcycle & Hdrawings & _).
  exists w'. split; [exact Hcycle | exact Hdrawings].
Defined.

End VectorizeFailureClaim.
Section MoreWitnesses.
Import ocr_service ai_extractor.


(** The empty title and the missing drawing number write nothing: the
    title the drawing had stays; the material and the localized part name
    are written. *)
Lemma columns_only_from_values_witness :
  let e := Scenario.service_env Scenario.remark_text ∅ None in
  let w := Scenario.world_with [] in
  let w' := (save_extracted_fields_to_drawing e (u "d1") Scenario.partial_result w).2 in
  (∃ d', drawings w' !! u "d1" = Some d'
         ∧ d_fields d' !! u "title" = Some (PStr (u "Old title")))
  ∧ Scenario.column_of w' (u "d1") (u "material") = Some (PStr (u "SS400"))
  ∧ Scenario.column_of w' (u "d1") (u "part_name") = Some (PStr (u "ベースプレート"))
  ∧ Scenario.column_of w' (u "d1") (u "tags") = None.
Proof.
  intros e w w'. split; [|repeat split; vm_compute; reflexivity].
  assert (Hsave : save_extracted_fields_to_drawing e (u "d1") Scenario.partial_result w
                  = (Ret tt, w')) by (vm_compute; reflexivity).
  assert (Hd : drawings w !! u "d1"
               = Some (Drawing (Some (u "c1")) {[u "title" := PStr (u "Old title")]}))
    by (vm_compute; reflexivity).
  destruct (proj2 (proj2 (columns_only_from_values Scenario.partial_result))
              e (u "d1") w (Ret tt) w' _ Hsave Hd) as (d' & Hd' & Hkeep).
  exists d'. split; [exact Hd'|].
  rewrite (Hkeep (u "title")); [vm_compute; reflexivity | vm_compute; congruence |].
  vm_compute. reflexivity.
Defined.

End MoreWitnesses.
(** * Further properties *)

(** ** The rule engine: what a value can be *)

Section RuleValues.
Import ai_extractor.

Lemma lstrip_by_fixed p s : lstrip_by p (lstrip_by p s) = lstrip_by p s.
Proof.
  destruct (lstrip_by p s) as [|c s'] eqn:E; [reflexivity|].
  apply lstrip_head in E. simpl. rewrite E. reflexivity.
Qed.

(** What is stripped on the left is a run of accepted characters. *)
Lemma lstrip_by_suffix p s : ∃ d, s = d ++ lstrip_by p s ∧ forallb p d = true.
Proof.
  induction s as [|c s (d & IH & Hd)]; [exists []; split; reflexivity|].
  simpl. destruct (p c) eqn:Hc.
  - exists (c :: d). simpl. rewrite Hc, Hd. split; [f_equal; exact IH | reflexivity].
  - exists []. split; reflexivity.
Qed.

Lemma rstrip_by_prefix p s : ∃ d, s = rstrip_by p s ++ d ∧ forallb p d = true.
Proof.
  unfold rstrip_by. destruct (lstrip_by_suffix p (rev s)) as (d & Hd & Hp).
  exists (rev d). split.
  - rewrite <- rev_app_distr, <- Hd, rev_involutive. reflexivity.
  - rewrite forallb_forall in Hp. apply forallb_forall. intros x Hx.
    apply Hp, in_rev, Hx.
Qed.

(** Stripping twice is stripping once. *)
Lemma strip_idempotent s : strip (strip s) = strip s.
Proof.
  unfold strip.
  assert (Hl : lstrip_by isspace (rstrip_by isspace (lstrip_by isspace s))
               = rstrip_by isspace (lstrip_by isspace s)).
  { destruct (rstrip_by_prefix isspace (lstrip_by isspace s)) as (d & Hd & _).
    destruct (rstrip_by isspace (lstrip_by isspace s)) as [|c r]; [reflexivity|].
    simpl in Hd. apply lstrip_head in Hd. simpl. rewrite Hd. reflexivity. }
  rewrite Hl. unfold rstrip_by. rewrite rev_involutive, lstrip_by_fixed. reflexivity.
Qed.

Lemma decimal_not_space c : isdecimal c = true → isspace c = false.
Proof.
  intros H. destruct (isspace c) eqn:E; [|reflexivity].
  apply space_not_decimal in E. congruence.
Qed.

(** A drawing number has nothing to strip, is no page marker and no
    reference symbol. *)
Lemma drawing_no_form_trimmed m : drawing_no_form m = true → strip m = m.
Proof.
  intros H. do 9 (destruct m as [|? m]; try discriminate). destruct m; [|discriminate].
  simpl in H. repeat (apply andb_true_iff in H as [H ?]).
  unfold strip, rstrip_by. cbn [lstrip_by].
  rewrite (decimal_not_space n) by assumption. cbn [rev app lstrip_by].
  rewrite (decimal_not_space n7) by assumption. reflexivity.
Qed.

Lemma drawing_no_form_no_page_marker m :
  drawing_no_form m = true → matches _PAGE_SEP_PATTERN m = false.
Proof.
  intros H. do 9 (destruct m as [|? m]; try discriminate). destruct m; [|discriminate].
  simpl in H. repeat (apply andb_true_iff in H as [H ?]).
  assert (Hu : u "[ページ" = [91; 12506; 12540; 12472]%N) by (vm_compute; reflexivity).
  unfold matches, re_match, _PAGE_SEP_PATTERN, rlit. rewrite Hu.
  cbn -[N.eqb isdecimal isspace].
  destruct (N.eqb_spec 91 n) as [<- | Hne]; [|reflexivity].
  vm_compute in H. discriminate.
Qed.

Lemma drawing_no_form_no_reference_symbol m :
  drawing_no_form m = true → m ∉ _NON_DRAWING_NO_TERMS.
Proof.
  intros H Hin. apply drawing_no_form_length in H.
  unfold _NON_DRAWING_NO_TERMS in Hin. apply elem_of_list_to_set in Hin.
  repeat (apply elem_of_cons in Hin as [-> | Hin]; [vm_compute in H; discriminate|]).
  apply elem_of_nil in Hin. destruct Hin.
Qed.

(** What the normalisation lets through: nothing, the empty string, or the
    stripped candidate, which then passed every rejection that applies to
    its key. *)
Lemma clean_value_cases result k raw c v :
  clean_value result k raw = Some (c :: v) →
  ∃ raw0, raw = Some raw0
    ∧ (c :: v) = strip (lstrip_bar raw0)
    ∧ matches _PAGE_SEP_PATTERN (c :: v) = false
    ∧ (k ∈ name_keys →
         ((c :: v) ∉ _SURFACE_OR_MATERIAL_TERMS)
         ∧ matches _DRAWING_NO_PATTERN (c :: v) = false)
    ∧ (k = u "drawing_no" → (c :: v) ∉ _NON_DRAWING_NO_TERMS)
    ∧ (k = u "process_note" → dict_get result (u "material") ≠ PStr (c :: v)).
Proof.
  unfold clean_value. destruct raw as [[|c0 raw0]|]; try discriminate.
  destruct (matches _PAGE_SEP_PATTERN (strip (lstrip_bar (c0 :: raw0)))) eqn:Epage;
    [discriminate|].
  destruct (strip (lstrip_bar (c0 :: raw0))) as [|c1 v1] eqn:Ev; [discriminate|].
  assert (Hrest : ∀ value : option pystr,
            value = Some (c1 :: v1) →
            match
              (match value with
               | Some (c :: v) =>
                 if bool_decide (k = u "drawing_no")
                    && bool_decide ((c :: v) ∈ _NON_DRAWING_NO_TERMS)
                 then None else value
               | _ => value
               end)
            with
            | Some (c :: v) =>
              if bool_decide (k = u "process_note")
                 && match dict_get result (u "material") with
                    | PStr m => str_eqb (c :: v) m
                    | _ => false
                    end
              then None else
                (match value with
                 | Some (c :: v) =>
                   if bool_decide (k = u "drawing_no")
                      && bool_decide ((c :: v) ∈ _NON_DRAWING_NO_TERMS)
                   then None else value
                 | _ => value
                 end)
            | _ =>
              (match value with
               | Some (c :: v) =>
                 if bool_decide (k = u "drawing_no")
                    && bool_decide ((c :: v) ∈ _NON_DRAWING_NO_TERMS)
                 then None else value
               | _ => value
               end)
            end = Some (c :: v) →
            c :: v = c1 :: v1
            ∧ (k = u "drawing_no" → (c1 :: v1) ∉ _NON_DRAWING_NO_TERMS)
            ∧ (k = u "process_note" → dict_get result (u "material") ≠ PStr (c1 :: v1))).
  { intros value ->.
    destruct (bool_decide (k = u "drawing_no")
              && bool_decide ((c1 :: v1) ∈ _NON_DRAWING_NO_TERMS)) eqn:Eno; [discriminate|].
    destruct (bool_decide (k = u "process_note") && _) eqn:Enote; [discriminate|].
    intros [= <- <-]. split; [reflexivity|]. split.
    - intros ->. rewrite bool_decide_eq_true_2 in Eno by reflexivity.
      apply bool_decide_eq_false in Eno. exact Eno.
    - intros -> Hm. rewrite bool_decide_eq_true_2, Hm in Enote by reflexivity.
      unfold str_eqb in Enote. rewrite bool_decide_eq_true_2 in Enote by reflexivity.
      discriminate. }
  destruct (bool_decide (k ∈ name_keys)) eqn:Ename.
  - destruct (bool_decide ((c1 :: v1) ∈ _SURFACE_OR_MATERIAL_TERMS)) eqn:Eterm; [discriminate|].
    destruct (matches _DRAWING_NO_PATTERN (c1 :: v1)) eqn:Edn; [discriminate|].
    intros H. apply (Hrest _ eq_refl) in H as (Heq & Hno & Hnote).
    injection Heq as -> ->.
    exists (c0 :: raw0). split; [reflexivity|]. split; [symmetry; exact Ev|].
    split; [exact Epage|]. split; [|split; assumption].
    intros _. split; [apply bool_decide_eq_false in Eterm; exact Eterm | exact Edn].
  - intros H. apply (Hrest _ eq_refl) in H as (Heq & Hno & Hnote).
    injection Heq as -> ->.
    exists (c0 :: raw0). split; [reflexivity|]. split; [symmetry; exact Ev|].
    split; [exact Epage|]. split; [|split; assumption].
    intros Hin. apply bool_decide_eq_false in Ename. contradiction.
Qed.

(** An iteration leaves the record, or sets a key to a value that the
    normalisation let through for that key. *)
Lemma rule_step_sets lines result i line :
  rule_step lines result i line = result
  ∨ ∃ k raw c v,
      clean_value result k raw = Some (c :: v)
      ∧ rule_step lines result i line = <[k := PStr (c :: v)]> result.
Proof.
  unfold rule_step. destruct (is_label line); simpl; [|left; reflexivity].
  destruct (_LABEL_TO_KEY !! line) as [[|a k]|]; try (left; reflexivity).
  destruct (clean_value _ _ _) as [[|c v]|] eqn:E; try (left; reflexivity).
  destruct (bool_decide ((a :: k) ∈ plain_keys)); [right; eauto 10|].
  destruct (bool_decide (a :: k = u "issue_date")); [|left; reflexivity].
  destruct (_ || _); [right; eauto 10 | left; reflexivity].
Qed.

(** A property of the values that the normalisation guarantees, whatever the
    record looks like, and that a drawing number found by the pattern has,
    holds of every string of the record returned; and no string of the
    record is empty. *)
Lemma extract_by_rules_values (P : pystr → pystr → Prop) :
  (∀ result k raw c v, clean_value result k raw = Some (c :: v) → P k (c :: v)) →
  (∀ cand, drawing_no_form cand = true → P (u "drawing_no") cand) →
  ∀ text k s, _extract_by_rules text !! k = Some (PStr s) → s ≠ [] ∧ P k s.
Proof.
  intros Hclean Hcand text.
  set (Inv := fun r : pydict => ∀ k s, r !! k = Some (PStr s) → s ≠ [] ∧ P k s).
  assert (Hstep : ∀ lines r i line, Inv r → Inv (rule_step lines r i line)).
  { intros lines r i line Hr.
    destruct (rule_step_sets lines r i line) as [-> | (k & raw & c & v & Hc & ->)];
      [exact Hr|].
    intros k' s'. destruct (decide (k = k')) as [<- | Hne].
    - rewrite lookup_insert_eq. intros [= <-]. split; [discriminate | eapply Hclean, Hc].
    - rewrite lookup_insert_ne by exact Hne. apply Hr. }
  assert (Hloop : ∀ lines todo r i, Inv r → Inv (rule_loop lines r i todo)).
  { intros lines todo. induction todo as [|line todo IH]; intros r i Hr; simpl;
      [exact Hr | apply IH, Hstep, Hr]. }
  assert (Hempty : Inv empty_result).
  { intros k s H. exfalso. apply elem_of_list_to_map_2 in H.
    repeat (apply elem_of_cons in H as [H | H]; [discriminate H|]).
    apply elem_of_nil in H. destruct H. }
  rewrite extract_by_rules_eq. unfold drawing_no_by_regex, line_scan.
  destruct (re_search _DRAWING_NO_PATTERN text) as [cand|] eqn:E.
  - destruct (_ || _); [|apply Hloop, Hempty].
    intros k s. destruct (decide (u "drawing_no" = k)) as [<- | Hne].
    + rewrite lookup_insert_eq. intros [= <-].
      apply search_drawing_no_some in E as [E _].
      split; [intros ->; discriminate | apply Hcand, E].
    + rewrite lookup_insert_ne by exact Hne. apply Hloop, Hempty.
  - apply Hloop, Hempty.
Qed.

(** A value found under its key makes the record one with a value. *)
Lemma has_value_of_lookup (r : pydict) k v :
  r !! k = Some v → item_has_value (k, v) = true → _has_any_extracted_value r = true.
Proof.
  intros Hk Hv. unfold _has_any_extracted_value. apply existsb_exists.
  exists (k, v). split; [|exact Hv].
  apply list_elem_of_In, elem_of_map_to_list, Hk.
Qed.

Lemma rule_loop_no_label lines todo : ∀ r i,
  (∀ line, line ∈ todo → is_label line = false) → rule_loop lines r i todo = r.
Proof.
  induction todo as [|line todo IH]; intros r i H; simpl; [reflexivity|].
  unfold rule_step at 1. rewrite (H line) by apply list_elem_of_here. simpl.
  apply IH. intros l Hl. apply H, list_elem_of_further, Hl.
Qed.

End RuleValues.

Section RuleValuesProperties.
Import ai_extractor.

(** X1. Every string the rule engine returns, under whatever key, is
    trimmed (stripping it changes nothing), is not empty and is no page
    marker "[ページ N]": a marker picked as a value is dropped. *)
Theorem rule_values_are_trimmed (ocr_text k s : pystr) :
  _extract_by_rules ocr_text !! k = Some (PStr s) →
  s ≠ [] ∧ strip s = s ∧ matches _PAGE_SEP_PATTERN s = false.
Proof.
  intros H.
  apply (extract_by_rules_values
           (fun _ s => strip s = s ∧ matches _PAGE_SEP_PATTERN s = false)) in H;
    [exact H | |].
  - intros result k0 raw c v Hc.
    apply clean_value_cases in Hc as (raw0 & _ & -> & Hpage & _).
    split; [apply strip_idempotent | exact Hpage].
  - intros cand Hcand.
    split; [apply drawing_no_form_trimmed | apply drawing_no_form_no_page_marker]; exact Hcand.
Qed.

(** On the base-plate title block: the part name. *)
Lemma rule_values_are_trimmed_witness :
  strip (u "ベースプレート") = u "ベースプレート"
  ∧ matches _PAGE_SEP_PATTERN (u "ベースプレート") = false.
Proof.
  assert (H : _extract_by_rules Scenario.base_plate_text !! u "part_name"
              = Some (PStr (u "ベースプレート"))) by (vm_compute; reflexivity).
  exact (proj2 (rule_values_are_trimmed Scenario.base_plate_text (u "part_name")
                  (u "ベースプレート") H)).
Defined.

(** X2. The part name and the title the rule engine returns are never one
    of the surface-treatment or material terms, and never start with a
    drawing number (four digits, a hyphen, four digits): such a value from a
    neighbouring column is dropped. *)
Theorem names_are_screened (ocr_text k s : pystr) :
  k ∈ name_keys →
  _extract_by_rules ocr_text !! k = Some (PStr s) →
  (s ∉ _SURFACE_OR_MATERIAL_TERMS) ∧ starts_with_drawing_no (PStr s) = false.
Proof.
  intros Hk H.
  apply (extract_by_rules_values
           (fun k s => k ∈ name_keys →
                       (s ∉ _SURFACE_OR_MATERIAL_TERMS)
                       ∧ starts_with_drawing_no (PStr s) = false)) in H;
    [exact (proj2 H Hk) | |].
  - intros result k0 raw c v Hc Hname.
    apply clean_value_cases in Hc as (raw0 & _ & _ & _ & Hn & _).
    destruct (Hn Hname) as [Hterm Hno]. split; [exact Hterm|].
    unfold starts_with_drawing_no. rewrite <- matches_drawing_no. exact Hno.
  - intros cand _ Hname. exfalso. revert Hname. clear. compute_done.
Qed.

(** The cover sheet lists the surface treatment right after the label of the
    name: the term is not taken for the name. *)
Lemma names_are_screened_witness :
  _extract_by_rules (u "名称" ++ [10%N] ++ u "黒染め") !! u "part_name" = Some PNone
  ∧ ((u "ベースプレート" ∉ _SURFACE_OR_MATERIAL_TERMS)
     ∧ starts_with_drawing_no (PStr (u "ベースプレート")) = false).
Proof.
  split; [vm_compute; reflexivity|].
  assert (Hk : u "part_name" ∈ name_keys) by (vm_compute; left).
  assert (H : _extract_by_rules Scenario.base_plate_text !! u "part_name"
              = Some (PStr (u "ベースプレート"))) by (vm_compute; reflexivity).
  exact (names_are_screened Scenario.base_plate_text (u "part_name") (u "ベースプレート") Hk H).
Defined.

(** X3. The drawing number the rule engine returns is never one of the
    reference symbols and paper sizes (IC, IA, IB, A, B, A3, A4, 1/1). *)
Theorem drawing_no_is_no_reference_symbol (ocr_text s : pystr) :
  _extract_by_rules ocr_text !! u "drawing_no" = Some (PStr s) →
  s ∉ _NON_DRAWING_NO_TERMS.
Proof.
  intros H.
  apply (extract_by_rules_values
           (fun k s => k = u "drawing_no" → s ∉ _NON_DRAWING_NO_TERMS)) in H;
    [exact (proj2 H eq_refl) | |].
  - intros result k0 raw c v Hc Hkey.
    apply clean_value_cases in Hc as (raw0 & _ & _ & _ & _ & Hd & _). exact (Hd Hkey).
  - intros cand Hcand _. apply drawing_no_form_no_reference_symbol, Hcand.
Qed.

Lemma drawing_no_is_no_reference_symbol_witness :
  _extract_by_rules (u "図番" ++ [10%N] ++ u "A3") !! u "drawing_no" = Some PNone
  ∧ u "2509-0017" ∉ _NON_DRAWING_NO_TERMS.
Proof.
  split; [vm_compute; reflexivity|].
  assert (H : _extract_by_rules Scenario.base_plate_text !! u "drawing_no"
              = Some (PStr (u "2509-0017"))) by (vm_compute; reflexivity).
  exact (drawing_no_is_no_reference_symbol Scenario.base_plate_text (u "2509-0017") H).
Defined.

(** X4. A text that holds a drawing number anywhere (four digits, a hyphen,
    four digits) always gets a drawing number that starts with one; the
    record then holds a value, so the cascade returns it without asking for
    a page image or a model: it leaves the state as it found it. *)
Theorem drawing_number_in_text_skips_the_model (e : env) (drawing_id ocr_text pre m post : pystr) :
  ocr_text = pre ++ m ++ post → drawing_no_form m = true →
  starts_with_drawing_no (dict_get (_extract_by_rules ocr_text) (u "drawing_no")) = true
  ∧ _has_any_extracted_value (_extract_by_rules ocr_text) = true
  ∧ ∀ w, cascade e drawing_id ocr_text w = (Ret (_extract_by_rules ocr_text), w).
Proof.
  intros Heq Hm.
  assert (Hstarts : starts_with_drawing_no (dict_get (_extract_by_rules ocr_text) (u "drawing_no"))
                    = true).
  { rewrite extract_by_rules_eq. unfold drawing_no_by_regex.
    destruct (re_search _DRAWING_NO_PATTERN ocr_text) as [cand|] eqn:E.
    - apply search_drawing_no_some in E as [Hcand _].
      destruct (negb (truthy _)) eqn:Et; cbn [orb].
      + unfold dict_get at 1. rewrite lookup_insert_eq. simpl.
        rewrite take_ge by (rewrite (drawing_no_form_length _ Hcand); lia). exact Hcand.
      + destruct (dict_get (line_scan (stripped_lines ocr_text)) (u "drawing_no")) as [| | | |c| |]
          eqn:Ec; cbn [negb]; try (unfold dict_get at 1; rewrite lookup_insert_eq; simpl;
            rewrite take_ge by (rewrite (drawing_no_form_length _ Hcand); lia); exact Hcand).
        destruct (matches _DRAWING_NO_PATTERN c) eqn:Emc; cbn [negb].
        * rewrite Ec. simpl. rewrite <- matches_drawing_no. exact Emc.
        * unfold dict_get at 1. rewrite lookup_insert_eq. simpl.
          rewrite take_ge by (rewrite (drawing_no_form_length _ Hcand); lia). exact Hcand.
    - exfalso. pose proof (search_drawing_no_none _ _ E _ _ _ Heq). congruence. }
  assert (Hany : _has_any_extracted_value (_extract_by_rules ocr_text) = true).
  { unfold dict_get in Hstarts.
    destruct (_extract_by_rules ocr_text !! u "drawing_no") as [v|] eqn:Ev; [|discriminate].
    apply (has_value_of_lookup _ _ _ Ev).
    destruct v as [| | | |[|c s]| |]; try discriminate. reflexivity. }
  split; [exact Hstarts|]. split; [exact Hany|].
  intros w. unfold cascade. rewrite Hany, validate_rule_result. reflexivity.
Qed.

(** A remark that quotes a drawing number, with no label at all. *)
Lemma drawing_number_in_text_skips_the_model_witness :
  cascade (Scenario.service_env Scenario.remark_text ∅ None) (u "d1")
    (u "参照 2509-0017 を見よ") (Scenario.world_with [Scenario.page1])
  = (Ret (_extract_by_rules (u "参照 2509-0017 を見よ")), Scenario.world_with [Scenario.page1]).
Proof.
  assert (Heq : u "参照 2509-0017 を見よ" = u "参照 " ++ u "2509-0017" ++ u " を見よ")
    by (vm_compute; reflexivity).
  assert (Hm : drawing_no_form (u "2509-0017") = true) by (vm_compute; reflexivity).
  exact (proj2 (proj2 (drawing_number_in_text_skips_the_model
                         (Scenario.service_env Scenario.remark_text ∅ None) (u "d1")
                         (u "参照 2509-0017 を見よ") (u "参照 ") (u "2509-0017") (u " を見よ")
                         Heq Hm))
               (Scenario.world_with [Scenario.page1])).
Defined.

(** X5. Without a known label on a line of its own and without a drawing
    number in the text, the rule engine finds nothing: it returns the
    record with every field null, and the record holds no value. *)
Theorem no_label_no_number_finds_nothing (ocr_text : pystr) :
  (∀ line, line ∈ stripped_lines ocr_text → is_label line = false) →
  re_search _DRAWING_NO_PATTERN ocr_text = None →
  _extract_by_rules ocr_text = empty_result
  ∧ _has_any_extracted_value (_extract_by_rules ocr_text) = false.
Proof.
  intros Hlines Hsearch.
  assert (H : _extract_by_rules ocr_text = empty_result).
  { rewrite extract_by_rules_eq. unfold drawing_no_by_regex. rewrite Hsearch.
    unfold line_scan. apply rule_loop_no_label, Hlines. }
  split; [exact H|]. rewrite H. vm_compute. reflexivity.
Qed.

Lemma no_label_no_number_finds_nothing_witness :
  _extract_by_rules Scenario.remark_text = empty_result
  ∧ _has_any_extracted_value (_extract_by_rules Scenario.remark_text) = false.
Proof.
  apply (no_label_no_number_finds_nothing Scenario.remark_text).
  - intros line Hin.
    assert (Hl : stripped_lines Scenario.remark_text = [Scenario.remark_text])
      by (vm_compute; reflexivity).
    rewrite Hl in Hin. apply list_elem_of_singleton in Hin. subst line.
    vm_compute. reflexivity.
  - vm_compute. reflexivity.
Defined.

End RuleValuesProperties.
(** ** The normalization of a model answer *)

Section Normalizing.
Import ai_extractor.

(** What an iteration leaves under its own key. *)
Lemma normalize_key_own ai_result normalized en_key :
  normalize_key ai_result normalized en_key !! en_key
  = match normalize_key ai_result ∅ en_key !! en_key with
    | Some v => Some v
    | None => normalized !! en_key
    end.
Proof.
  unfold normalize_key. destruct (_ && _).
  - rewrite !lookup_insert_eq. reflexivity.
  - rewrite lookup_empty. reflexivity.
Qed.

(** The loop runs over distinct keys, so each key of the record is decided
    by its own iteration; no other key is in the record. *)
Lemma normalize_lookup ai_result k :
  _normalize_ai_result ai_result !! k
  = if bool_decide (k ∈ column_keys) then normalize_key ai_result ∅ k !! k else None.
Proof.
  unfold _normalize_ai_result.
  assert (Hfold : ∀ keys normalized, NoDup keys →
            foldl (normalize_key ai_result) normalized keys !! k
            = if bool_decide (k ∈ keys)
              then match normalize_key ai_result ∅ k !! k with
                   | Some v => Some v
                   | None => normalized !! k
                   end
              else normalized !! k).
  { induction keys as [|key keys IH]; intros normalized Hnd; simpl; [reflexivity|].
    apply NoDup_cons in Hnd as [Hnotin Hnd]. rewrite IH by exact Hnd.
    destruct (decide (k = key)) as [-> | Hne].
    - rewrite (bool_decide_eq_false_2 _ Hnotin).
      rewrite bool_decide_eq_true_2 by apply list_elem_of_here.
      apply normalize_key_own.
    - rewrite (normalize_key_other ai_result normalized key k Hne).
      destruct (decide (k ∈ keys)) as [Hin | Hnin].
      + rewrite (bool_decide_eq_true_2 _ Hin).
        rewrite bool_decide_eq_true_2 by (apply list_elem_of_further, Hin). reflexivity.
      + rewrite (bool_decide_eq_false_2 _ Hnin).
        rewrite bool_decide_eq_false_2; [reflexivity|].
        intros H. apply elem_of_cons in H as [H | H]; contradiction. }
  rewrite Hfold by (unfold column_keys; compute_done).
  rewrite lookup_empty. destruct (normalize_key ai_result ∅ k !! k); reflexivity.
Qed.

(** What is in the normalized record has a value, and tags are a list. *)
Lemma normalize_lookup_Some ai_result k v :
  _normalize_ai_result ai_result !! k = Some v →
  k ∈ column_keys ∧ present v = true ∧ (k = u "tags" → is_list v = true).
Proof.
  rewrite normalize_lookup. destruct (decide (k ∈ column_keys)) as [Hin | Hnin].
  - rewrite (bool_decide_eq_true_2 _ Hin). unfold normalize_key.
    destruct (present _ && _) eqn:E; [|rewrite lookup_empty; discriminate].
    rewrite lookup_insert_eq. intros [= <-].
    apply andb_true_iff in E as [Hp Hl]. split; [exact Hin|]. split; [exact Hp|].
    intros ->. rewrite bool_decide_eq_true_2 in Hl by reflexivity. exact Hl.
  - rewrite (bool_decide_eq_false_2 _ Hnin). discriminate.
Qed.

(** No localized key is the name of a column. *)
Lemma alias_is_no_column ja_key en_key :
  (ja_key, en_key) ∈ _AI_KEY_TO_COLUMN → ja_key ∉ column_keys.
Proof.
  intros H.
  repeat (apply elem_of_cons in H as [[= -> ->] | H]; [compute_done|]).
  apply elem_of_nil in H. destruct H.
Qed.

Lemma alias_value_skip ai_result en_key ja_key mapped table :
  present (dict_get ai_result ja_key) = false ∨ mapped ≠ en_key →
  alias_value ai_result en_key ((ja_key, mapped) :: table) = alias_value ai_result en_key table.
Proof.
  intros H. simpl. destruct (decide (mapped = en_key)) as [-> | Hne].
  - rewrite bool_decide_eq_true_2 by reflexivity.
    destruct H as [-> | H]; [reflexivity | congruence].
  - rewrite (bool_decide_eq_false_2 _ Hne). reflexivity.
Qed.

End Normalizing.

Section NormalizingProperties.
Import ai_extractor.

(** X6. Normalizing is idempotent, and the normalized record holds columns
    only: each key is one of the eight column names, its value is neither
    null nor the empty string, and tags are a list. *)
Theorem normalization_is_idempotent (ai_result : pydict) :
  _normalize_ai_result (_normalize_ai_result ai_result) = _normalize_ai_result ai_result
  ∧ ∀ k v, _normalize_ai_result ai_result !! k = Some v →
      k ∈ column_keys ∧ v ≠ PNone ∧ v ≠ PStr [] ∧ (k = u "tags" → is_list v = true).
Proof.
  split.
  - apply map_eq. intros k. rewrite (normalize_lookup (_normalize_ai_result ai_result)).
    destruct (decide (k ∈ column_keys)) as [Hin | Hnin].
    + rewrite (bool_decide_eq_true_2 _ Hin).
      destruct (_normalize_ai_result ai_result !! k) as [v|] eqn:Ek.
      * destruct (normalize_lookup_Some _ _ _ Ek) as (_ & Hp & Hl).
        unfold normalize_key, dict_get. rewrite Ek. cbn [default from_option id].
        rewrite Hp. cbv iota. rewrite Hp. cbn [andb].
        destruct (decide (k = u "tags")) as [Ht | Ht].
        -- rewrite (Hl Ht), orb_true_r. apply lookup_insert_eq.
        -- rewrite (bool_decide_eq_false_2 _ Ht). apply lookup_insert_eq.
      * rewrite normalize_key_absent; [apply lookup_empty | |].
        -- unfold dict_get. rewrite Ek. reflexivity.
        -- intros ja Hja. apply alias_is_no_column in Hja.
           unfold dict_get. rewrite normalize_lookup, (bool_decide_eq_false_2 _ Hja).
           reflexivity.
    + rewrite (bool_decide_eq_false_2 _ Hnin).
      rewrite normalize_lookup, (bool_decide_eq_false_2 _ Hnin). reflexivity.
  - intros k v H. apply normalize_lookup_Some in H as (Hin & Hp & Hl).
    split; [exact Hin|]. split; [|split; [|exact Hl]].
    + intros ->. discriminate.
    + intros ->. discriminate.
Qed.

(** X7. Precedence in the normalization. A column key that holds a value
    in the answer wins over every localized alias (for tags, when that value
    is a list). Without it, the note comes from 処理指示 before 熱処理, the
    order of the table. *)
Theorem canonical_key_wins (ai_result : pydict) :
  (∀ k, k ∈ column_keys → present (dict_get ai_result k) = true →
        (k = u "tags" → is_list (dict_get ai_result k) = true) →
        _normalize_ai_result ai_result !! k = Some (dict_get ai_result k))
  ∧ (present (dict_get ai_result (u "process_note")) = false →
     present (dict_get ai_result (u "処理指示")) = true →
     _normalize_ai_result ai_result !! u "process_note"
     = Some (dict_get ai_result (u "処理指示")))
  ∧ (present (dict_get ai_result (u "process_note")) = false →
     present (dict_get ai_result (u "処理指示")) = false →
     present (dict_get ai_result (u "熱処理")) = true →
     _normalize_ai_result ai_result !! u "process_note"
     = Some (dict_get ai_result (u "熱処理"))).
Proof.
  split; [|split].
  - intros k Hin Hp Hl. rewrite normalize_lookup, (bool_decide_eq_true_2 _ Hin).
    unfold normalize_key. rewrite Hp. cbv iota. rewrite Hp. cbn [andb].
    destruct (decide (k = u "tags")) as [Ht | Ht].
    + rewrite (Hl Ht), orb_true_r. apply lookup_insert_eq.
    + rewrite (bool_decide_eq_false_2 _ Ht). apply lookup_insert_eq.
  - intros Hc Ha. rewrite normalize_lookup.
    rewrite bool_decide_eq_true_2 by compute_done.
    unfold normalize_key. rewrite Hc. unfold _AI_KEY_TO_COLUMN.
    rewrite !alias_value_skip by (right; compute_done).
    cbn [alias_value]. rewrite bool_decide_eq_true_2 by reflexivity.
    rewrite Ha. cbn [default from_option id]. rewrite Ha.
    rewrite (bool_decide_eq_false_2 (u "process_note" = u "tags")) by compute_done.
    apply lookup_insert_eq.
  - intros Hc Ha Hb. rewrite normalize_lookup.
    rewrite bool_decide_eq_true_2 by compute_done.
    unfold normalize_key. rewrite Hc. unfold _AI_KEY_TO_COLUMN.
    rewrite !alias_value_skip by (right; compute_done).
    rewrite alias_value_skip by (left; exact Ha).
    cbn [alias_value]. rewrite bool_decide_eq_true_2 by reflexivity.
    rewrite Hb. cbn [default from_option id]. rewrite Hb.
    rewrite (bool_decide_eq_false_2 (u "process_note" = u "tags")) by compute_done.
    apply lookup_insert_eq.
Qed.

End NormalizingProperties.

Section NormalizingWitnesses.
Import ai_extractor.

Lemma normalization_is_idempotent_witness :
  _normalize_ai_result (_normalize_ai_result Scenario.partial_result)
  = _normalize_ai_result Scenario.partial_result
  ∧ u "part_name" ∈ column_keys.
Proof.
  destruct (normalization_is_idempotent Scenario.partial_result) as [Hidem Hkeys].
  split; [exact Hidem|].
  assert (H : _normalize_ai_result Scenario.partial_result !! u "part_name"
              = Some (PStr (u "ベースプレート"))) by (vm_compute; reflexivity).
  exact (proj1 (Hkeys (u "part_name") (PStr (u "ベースプレート")) H)).
Defined.

(** An answer with both aliases of the note, and with the material under
    its column key and under its alias. *)
Lemma canonical_key_wins_witness :
  let answer : pydict :=
    list_to_map [(u "熱処理", PStr (u "焼戻し")); (u "処理指示", PStr (u "焼入れ"));
                 (u "material", PStr (u "SS400")); (u "材質", PStr (u "S45C"))] in
  _normalize_ai_result answer !! u "material" = Some (PStr (u "SS400"))
  ∧ _normalize_ai_result answer !! u "process_note" = Some (PStr (u "焼入れ")).
Proof.
  intros answer.
  destruct (canonical_key_wins answer) as (Hcanon & Hfirst & _). split.
  - assert (Hin : u "material" ∈ column_keys) by (vm_compute; do 3 right; left).
    assert (Hp : present (dict_get answer (u "material")) = true) by (vm_compute; reflexivity).
    assert (Hl : u "material" = u "tags" → is_list (dict_get answer (u "material")) = true)
      by (vm_compute; discriminate).
    exact (Hcanon (u "material") Hin Hp Hl).
  - assert (Hc : present (dict_get answer (u "process_note")) = false)
      by (vm_compute; reflexivity).
    assert (Ha : present (dict_get answer (u "処理指示")) = true) by (vm_compute; reflexivity).
    exact (Hfirst Hc Ha).
Defined.

End NormalizingWitnesses.
(** ** What the stages write *)

Section FrameOfWriters.
Context {B : Type} (f : world → B).
Hypothesis f_record : ∀ ev w, f (record ev w) = f w.
Hypothesis f_tokens : ∀ ts w, f (set_tokens ts w) = f w.
Hypothesis f_sizes : ∀ e id width height, keeps f (update_file_size e id width height).
Hypothesis f_inserts : ∀ e p, keeps f (insert_file e p).

(** Rasterizing adds files; the OCR sets image sizes and replaces tokens. *)
Lemma keeps_process_pdf e d path : keeps f (pdf_processor.process_pdf e d path).
Proof using f_record f_inserts.
  unfold pdf_processor.process_pdf, pdf_processor._get_company_id,
    pdf_processor._register_drawing_file. frame.
Qed.

Lemma keeps_persist_page e d id n out : keeps f (ocr_service.persist_page e d id n out).
Proof using f_record f_sizes f_tokens. unfold ocr_service.persist_page. frame. Qed.

Hint Resolve keeps_persist_page : frame.

Lemma keeps_ocr_page e d acc page : keeps f (ocr_service.ocr_page e d acc page).
Proof using f_record f_sizes f_tokens.
  unfold ocr_service.ocr_page, ocr_service._download_image_from_gcs.
  destruct acc. frame.
Qed.

Lemma keeps_ocr_pages e d pages : ∀ acc, keeps f (ocr_service.ocr_pages e d pages acc).
Proof using f_record f_sizes f_tokens.
  induction pages as [|page pages IH]; intros acc; simpl; [frame|].
  apply keeps_bind; [apply keeps_ocr_page | intros acc'; apply IH].
Qed.

Hint Resolve keeps_ocr_pages : frame.

Lemma keeps_process_ocr e d : keeps f (ocr_service.process_ocr_for_drawing e d).
Proof using f_record f_sizes f_tokens. unfold ocr_service.process_ocr_for_drawing. frame. Qed.

End FrameOfWriters.

Section DrawingWrites.
Import ai_extractor.

(** A read of one drawing returns the row of the table and leaves the table. *)
Lemma select_drawing_single_ret e id w cur w' :
  select_drawing_single e id w = (Ret cur, w') →
  cur = drawings w !! id ∧ drawings w' = drawings w.
Proof.
  intros H.
  pose proof (keeps_select_drawing_single drawings (λ _ _, eq_refl) e id _ _ _ H) as Hk.
  split; [|exact Hk].
  unfold select_drawing_single in H. rewrite run_bind in H. unfold execute in H.
  destruct (db_fault e w _); [discriminate|].
  destruct (drawings w !! id) as [d|]; [injection H as <- _; reflexivity|].
  rewrite run_bind in H. cbn [get_world] in H. rewrite run_bind in H.
  destruct (of_failure _ _) as [[[]|err] w1]; [|discriminate].
  injection H as <- _. reflexivity.
Qed.

(** An update that returns has replaced the columns of the payload. *)
Lemma update_drawing_ret e id payload w w' :
  update_drawing e id payload w = (Ret tt, w') →
  drawings w'
  = match drawings w !! id with
    | Some d => <[id := Drawing (d_company_id d) (payload ∪ d_fields d)]> (drawings w)
    | None => drawings w
    end.
Proof.
  unfold update_drawing, execute. destruct (db_fault e w _); [discriminate|].
  intros [= <-]. destruct (drawings w !! id); reflexivity.
Qed.

(** Writing the one column: every other column, the owner and every other
    drawing stay. *)
Lemma update_extracted_json_effect e id json w r w' :
  update_drawing e id {[ u "extracted_json" := PDict json ]} w = (r, w') →
  (∀ id', id' ≠ id → drawings w' !! id' = drawings w !! id')
  ∧ ∀ d, drawings w !! id = Some d →
      ∃ d', drawings w' !! id = Some d'
        ∧ d_company_id d' = d_company_id d
        ∧ (∀ k, k ≠ u "extracted_json" → d_fields d' !! k = d_fields d !! k)
        ∧ (d_fields d' !! u "extracted_json" = d_fields d !! u "extracted_json"
           ∨ d_fields d' !! u "extracted_json" = Some (PDict json)).
Proof.
  intros H. apply update_drawing_effect in H as [H | (d0 & Hd0 & H)]; rewrite H.
  - split; [reflexivity|]. intros d Hd. exists d. repeat split; auto.
  - split; [intros id' Hne; apply lookup_insert_ne; congruence|].
    intros d Hd. rewrite Hd in Hd0. injection Hd0 as <-.
    eexists. rewrite lookup_insert_eq. split; [reflexivity|]. cbn [d_company_id d_fields].
    split; [reflexivity|]. split.
    + intros k Hk. apply lookup_union_r. apply lookup_singleton_ne. congruence.
    + right. apply lookup_union_Some_l. apply lookup_singleton_eq.
Qed.

End DrawingWrites.

Section DrawingWritesProperties.
Import ai_extractor job_processor.

(** X8. Saving an extraction that returns: the drawing's extracted_json is
    the document that was there (or {} when that was no dictionary) with the
    key "ai" set to the result as the model gave it; every other key of the
    document, the OCR document among them, is as before. The owner of the
    drawing and all other drawings are untouched. *)
Theorem save_keeps_other_documents (e : env) (drawing_id : pystr) (ai_result : pydict)
    (w w' : world) (d : drawing) :
  save_extracted_fields_to_drawing e drawing_id ai_result w = (Ret tt, w') →
  drawings w !! drawing_id = Some d →
  (∃ d' json,
     drawings w' !! drawing_id = Some d'
     ∧ d_company_id d' = d_company_id d
     ∧ d_fields d' !! u "extracted_json" = Some (PDict json)
     ∧ json !! u "ai" = Some (PDict ai_result)
     ∧ ∀ k, k ≠ u "ai" → json !! k = existing_document (Some d) !! k)
  ∧ ∀ id', id' ≠ drawing_id → drawings w' !! id' = drawings w !! id'.
Proof.
  unfold save_extracted_fields_to_drawing. intros H Hd.
  apply bind_inv in H as [(a & w1 & H1 & H) | (err & _ & ?)]; [|discriminate].
  apply (keeps_create_client drawings) in H1.
  apply bind_inv in H as [(cur & w2 & H2 & H) | (err & _ & ?)]; [|discriminate].
  apply select_drawing_single_ret in H2 as [-> H2]. rewrite H1, Hd in H.
  rewrite dict_is_empty_insert in H. apply update_drawing_ret in H.
  rewrite H2, H1, Hd in H. rewrite H. split.
  - eexists _, _. rewrite lookup_insert_eq. split; [reflexivity|]. cbn [d_company_id d_fields].
    split; [reflexivity|]. split; [|split].
    + apply lookup_union_Some_l. apply lookup_insert_eq.
    + apply lookup_insert_eq.
    + intros k Hk. apply lookup_insert_ne. congruence.
  - intros id' Hne. apply lookup_insert_ne. congruence.
Qed.

(** X9. The OCR stage never raises. Whatever happens in it, it leaves the
    jobs, every other drawing, the owner of the drawing and every column of
    the drawing but extracted_json; and extracted_json either stays or
    becomes the document that was there with the key "ocr" replaced. *)
Theorem ocr_stage_writes_one_column (e : env) (drawing_id : pystr) (w : world) :
  ∃ w',
    ocr_stage e drawing_id w = (Ret tt, w')
    ∧ jobs w' = jobs w
    ∧ (∀ id', id' ≠ drawing_id → drawings w' !! id' = drawings w !! id')
    ∧ ∀ d, drawings w !! drawing_id = Some d →
        ∃ d', drawings w' !! drawing_id = Some d'
          ∧ d_company_id d' = d_company_id d
          ∧ (∀ k, k ≠ u "extracted_json" → d_fields d' !! k = d_fields d !! k)
          ∧ (d_fields d' !! u "extracted_json" = d_fields d !! u "extracted_json"
             ∨ ∃ ocr_result,
                 d_fields d' !! u "extracted_json"
                 = Some (PDict (<[u "ocr" := PDict ocr_result]> (existing_document (Some d))))).
Proof.
  exists (ocr_stage e drawing_id w).2.
  split; [unfold ocr_stage; apply try_logged_total|].
  split; [apply (ocr_stage_keeps_jobs e drawing_id w (ocr_stage e drawing_id w).1);
          destruct (ocr_stage e drawing_id w); reflexivity|].
  assert (Hsame : ∀ w1 : world, drawings w1 = drawings w →
            (∀ id', id' ≠ drawing_id → drawings w1 !! id' = drawings w !! id')
            ∧ ∀ d, drawings w !! drawing_id = Some d →
                ∃ d', drawings w1 !! drawing_id = Some d'
                  ∧ d_company_id d' = d_company_id d
                  ∧ (∀ k, k ≠ u "extracted_json" → d_fields d' !! k = d_fields d !! k)
                  ∧ (d_fields d' !! u "extracted_json" = d_fields d !! u "extracted_json"
                     ∨ ∃ ocr_result,
                         d_fields d' !! u "extracted_json"
                         = Some (PDict (<[u "ocr" := PDict ocr_result]>
                                          (existing_document (Some d)))))).
  { intros w1 ->. split; [reflexivity|]. intros d Hd. exists d. repeat split; auto. }
  unfold ocr_stage, try_except.
  match goal with
  | |- context [match ?x with (_, _) => _ end] => destruct x as [[[]|err] w1] eqn:H
  end; cbn [ret snd].
  all: apply bind_inv in H as [(ocr_result & wa & Ha & H) | (err' & Ha & _)];
    apply (keeps_process_ocr drawings (λ _ _, eq_refl) (λ _ _, eq_refl)
             (λ e0 id wd ht, keeps_update_file_size drawings (λ _ _, eq_refl) e0 id wd ht
                               (λ _ _, eq_refl))) in Ha;
    [|apply Hsame; exact Ha].
  all: destruct (truthy _ || truthy _);
    [|first [discriminate H | injection H as <-; apply Hsame; exact Ha]].
  all: apply bind_inv in H as [(cur & wb & Hb & H) | (err' & Hb & _)];
    [apply select_drawing_single_ret in Hb as [-> Hb]
    |apply (keeps_select_drawing_single drawings (λ _ _, eq_refl)) in Hb;
     apply Hsame; congruence].
  all: apply update_extracted_json_effect in H as [Hothers Hthis];
    rewrite Hb, Ha in Hothers, Hthis; split; [exact Hothers|];
    intros d Hd; destruct (Hthis d Hd) as (d' & Hd' & Hc & Hk & Hj);
    exists d'; split; [exact Hd'|]; split; [exact Hc|]; split; [exact Hk|];
    destruct Hj as [Hj | Hj]; [left; exact Hj | right; exists ocr_result];
    rewrite Hj, Hd; reflexivity.
Qed.

End DrawingWritesProperties.
(** ** The queue and the cycle *)

Section Queue.
Import job_processor.

(** The scan keeps the earliest queued job seen so far. *)
Lemma oldest_queued_spec js : ∀ best,
  (∀ b, best = Some b → job_status b = u "queued") →
  match oldest_queued js best with
  | Some j =>
    job_status j = u "queued"
    ∧ (j ∈ js ∨ best = Some j)
    ∧ (∀ j', j' ∈ js → job_status j' = u "queued" → (job_created_at j ≤ job_created_at j')%N)
    ∧ (∀ b, best = Some b → (job_created_at j ≤ job_created_at b)%N)
  | None => best = None ∧ ∀ j', j' ∈ js → job_status j' ≠ u "queued"
  end.
Proof.
  induction js as [|j js IH]; intros best Hbest; simpl.
  - destruct best as [b|].
    + split; [apply Hbest; reflexivity|]. split; [right; reflexivity|].
      split; [intros j' Hin; apply elem_of_nil in Hin; destruct Hin|].
      intros b' [= <-]. lia.
    + split; [reflexivity|]. intros j' Hin. apply elem_of_nil in Hin. destruct Hin.
  - destruct (bool_decide (job_status j = u "queued")) eqn:Eq.
    + apply bool_decide_eq_true in Eq.
      assert (Hj : ∀ b, Some j = Some b → job_status b = u "queued") by (intros b [= <-]; exact Eq).
      destruct best as [b|].
      * destruct (job_created_at j <? job_created_at b)%N eqn:Elt.
        -- apply N.ltb_lt in Elt. specialize (IH (Some j) Hj).
           destruct (oldest_queued js (Some j)) as [m|].
           ++ destruct IH as (Hs & Hin & Hmin & Hb). split; [exact Hs|]. split; [|split].
              ** left. destruct Hin as [Hin | [= ->]];
                   [apply list_elem_of_further, Hin | apply list_elem_of_here].
              ** intros j' Hj' Hq. apply elem_of_cons in Hj' as [-> | Hj'];
                   [apply Hb; reflexivity | apply Hmin; assumption].
              ** intros b' [= <-]. specialize (Hb j eq_refl). lia.
           ++ destruct IH as [? _]. discriminate.
        -- apply N.ltb_ge in Elt. specialize (IH (Some b) Hbest).
           destruct (oldest_queued js (Some b)) as [m|].
           ++ destruct IH as (Hs & Hin & Hmin & Hb). split; [exact Hs|]. split; [|split].
              ** destruct Hin as [Hin | Hin]; [left; apply list_elem_of_further, Hin | right; exact Hin].
              ** intros j' Hj' Hq. apply elem_of_cons in Hj' as [-> | Hj'];
                   [specialize (Hb b eq_refl); lia | apply Hmin; assumption].
              ** exact Hb.
           ++ destruct IH as [? _]. discriminate.
      * specialize (IH (Some j) Hj). destruct (oldest_queued js (Some j)) as [m|].
        -- destruct IH as (Hs & Hin & Hmin & Hb). split; [exact Hs|]. split; [|split].
           ++ left. destruct Hin as [Hin | [= ->]];
                [apply list_elem_of_further, Hin | apply list_elem_of_here].
           ++ intros j' Hj' Hq. apply elem_of_cons in Hj' as [-> | Hj'];
                [apply Hb; reflexivity | apply Hmin; assumption].
           ++ intros b [=].
        -- destruct IH as [? _]. discriminate.
    + apply bool_decide_eq_false in Eq. specialize (IH best Hbest).
      destruct (oldest_queued js best) as [m|].
      * destruct IH as (Hs & Hin & Hmin & Hb). split; [exact Hs|]. split; [|split].
        -- destruct Hin as [Hin | Hin]; [left; apply list_elem_of_further, Hin | right; exact Hin].
        -- intros j' Hj' Hq. apply elem_of_cons in Hj' as [-> | Hj'];
             [contradiction | apply Hmin; assumption].
        -- exact Hb.
      * destruct IH as [Hnone Hall]. split; [exact Hnone|].
        intros j' Hj'. apply elem_of_cons in Hj' as [-> | Hj']; [exact Eq | apply Hall, Hj'].
Qed.

(** What an update of a job leaves of the table. *)
Lemma patch_jobs_ids id p js : map job_id (patch_jobs id p js) = map job_id js.
Proof.
  unfold patch_jobs. rewrite map_map. apply map_ext. intros j.
  destruct (bool_decide (job_id j = id)); reflexivity.
Qed.

Lemma patch_jobs_others id p js j' :
  job_id j' ≠ id → j' ∈ patch_jobs id p js ↔ j' ∈ js.
Proof.
  intros Hne. unfold patch_jobs. rewrite list_elem_of_fmap. split.
  - intros (j0 & -> & Hin). destruct (bool_decide (job_id j0 = id)) eqn:E; [|exact Hin].
    exfalso. apply Hne. apply bool_decide_eq_true in E. exact E.
  - intros Hin. exists j'. split; [|exact Hin].
    rewrite bool_decide_eq_false_2 by exact Hne. reflexivity.
Qed.

Lemma patch_jobs_fields id p js j' :
  j' ∈ patch_jobs id p js → job_id j' = id →
  job_status j' = p_status p
  ∧ (∀ m, p_error_message p = Some m → job_error_message j' = Some m)
  ∧ (∀ t, p_finished_at p = Some t → job_finished_at j' = Some t).
Proof.
  unfold patch_jobs. intros Hin Hid. apply list_elem_of_fmap in Hin as (j0 & -> & _).
  destruct (bool_decide (job_id j0 = id)) eqn:E.
  - split; [reflexivity|]. split; intros x Hx; simpl; rewrite Hx; reflexivity.
  - apply bool_decide_eq_false in E. contradiction.
Qed.

(** Marking the fetched job running. *)
Lemma run_claim e j w :
  supabase_ready e → no_db_faults e →
  (now ← utc_now e;
   _update_job e (job_id j) (u "running") (Some (u "convert")) None (Some now) None)
    (record (EvDb SelectQueuedJob None) w) = (Ret tt, claimed e j w)
  ∧ ∃ t1, jobs (claimed e j w) = patch_jobs (job_id j) (running_payload t1) (jobs w).
Proof.
  intros Hr Hf. unfold claimed.
  rewrite run_bind, run_utc_now, run_update_job by assumption.
  split; [reflexivity | eexists; reflexivity].
Qed.

(** The cycle on a fetched job, by how the stage runner ends. *)
Lemma run_cycle e w j r w2 :
  supabase_ready e → no_db_faults e →
  oldest_queued (jobs w) None = Some j →
  process_drawing_job e (job_drawing_id j) (claimed e j w) = (r, w2) →
  let final :=
    match r with
    | Ret _ => success_payload (now e w2)
    | Raise err => error_payload (exn_message err) (now e w2)
    end in
  _run_one_cycle e w
  = (Ret tt,
     record (EvDb (UpdateJob (job_id j) final) None)
       (set_jobs (patch_jobs (job_id j) final (jobs w2)) (record (EvNow (now e w2)) w2))).
Proof.
  intros Hr Hf Hj Hpdj final. unfold _run_one_cycle.
  rewrite (run_bind_ret _ _ _ _ _ (run_fetch e w Hr Hf)), Hj.
  destruct (run_claim e j w Hr Hf) as [Hclaim _].
  rewrite run_bind in Hclaim. rewrite run_bind.
  destruct (utc_now e (record (EvDb SelectQueuedJob None) w)) as [[t|?] wt]; [|discriminate].
  rewrite run_bind, Hclaim.
  destruct r as [[]|err].
  - erewrite run_try_ret; [reflexivity|].
    rewrite (run_bind_ret _ _ _ _ _ Hpdj), run_bind, run_utc_now.
    rewrite run_update_job by assumption. reflexivity.
  - erewrite run_try_raise; [|apply run_bind_raise; exact Hpdj].
    rewrite run_bind, run_utc_now. rewrite run_update_job by assumption. reflexivity.
Qed.

(** Past the first stage nothing makes the stage runner raise. *)
Lemma later_stages_total e d w :
  ∃ w', (_ ← ocr_stage e d; _ ← extract_stage e d; vectorize_stage e d) w = (Ret tt, w').
Proof.
  unfold ocr_stage at 1. rewrite run_bind, try_logged_total.
  unfold extract_stage at 1. rewrite run_bind, try_logged_total.
  unfold vectorize_stage at 1. rewrite try_logged_total. eexists. reflexivity.
Qed.

End Queue.

Section QueueProperties.
Import job_processor.


(** X11. A job whose processing raises ends error: the cycle itself
    returns, the job has status error, the message of the exception as its
    error_message and a finishing time; what the stages wrote to the
    drawings before the exception stays. *)
Theorem failed_job_is_marked_error (e : env) (w : world) (j : job) (err : exn) (w2 : world) :
  supabase_ready e → no_db_faults e →
  oldest_queued (jobs w) None = Some j →
  process_drawing_job e (job_drawing_id j) (claimed e j w) = (Raise err, w2) →
  ∃ w',
    _run_one_cycle e w = (Ret tt, w')
    ∧ (∀ j', j' ∈ jobs w' → job_id j' = job_id j →
         job_status j' = u "error"
         ∧ job_error_message j' = Some (exn_message err)
         ∧ job_finished_at j' = Some (now e w2))
    ∧ drawings w' = drawings w2 ∧ files w' = files w2.
Proof.
  intros Hr Hf Hj Hpdj. eexists. split; [exact (run_cycle e w j _ w2 Hr Hf Hj Hpdj)|].
  split; [|split; reflexivity].
  intros j' Hin Hid. cbn [jobs record set_jobs] in Hin.
  destruct (patch_jobs_fields _ _ _ _ Hin Hid) as (Hs & Hm & Ht).
  split; [exact Hs|]. split; [apply Hm | apply Ht]; reflexivity.
Qed.

(** The PDF of a drawing that is not in the table: no company, a ValueError. *)
Lemma failed_job_is_marked_error_witness :
  ∃ w', _run_one_cycle (Scenario.service_env Scenario.remark_text ∅ None) orphan_world
        = (Ret tt, w')
        ∧ ∀ j', j' ∈ jobs w' → job_id j' = u "j1" →
            job_status j' = u "error"
            ∧ job_error_message j' = Some (exn_message no_company).
Proof.
  pose (e := Scenario.service_env Scenario.remark_text ∅ None).
  assert (Hpdj : process_drawing_job e (job_drawing_id Scenario.queued_job)
                   (claimed e Scenario.queued_job orphan_world)
                 = (Raise no_company,
                    (process_drawing_job e (u "d1") (claimed e Scenario.queued_job orphan_world)).2))
    by (vm_compute; reflexivity).
  destruct (failed_job_is_marked_error e orphan_world Scenario.queued_job no_company _
              (service_env_ready _ _ _) (service_env_no_db_faults _ _ _) eq_refl Hpdj)
    as (w' & Hcycle & Hjob & _).
  exists w'. split; [exact Hcycle|].
  intros j' Hin Hid. destruct (Hjob j' Hin Hid) as (Hs & Hm & _). split; [exact Hs | exact Hm].
Defined.

(** X12. Once the first stage has returned, nothing fails the job: whatever
    the OCR, the extraction and the vectorizing do, the stage runner
    returns, and the cycle marks the job success and sets no error_message. *)
Theorem later_stages_never_fail_the_job (e : env) (w : world) (j : job) (continue : bool)
    (w2 : world) :
  supabase_ready e → no_db_faults e →
  oldest_queued (jobs w) None = Some j →
  rasterize_stage e (job_drawing_id j) (claimed e j w) = (Ret continue, w2) →
  ∃ w3 w',
    process_drawing_job e (job_drawing_id j) (claimed e j w) = (Ret tt, w3)
    ∧ _run_one_cycle e w = (Ret tt, w')
    ∧ (∀ j', j' ∈ jobs w' → job_id j' = job_id j → job_status j' = u "success")
    ∧ map job_error_message (jobs w') = map job_error_message (jobs w)
    ∧ drawings w' = drawings w3.
Proof.
  intros Hr Hf Hj Hras.
  assert (Hpdj : ∃ w3, process_drawing_job e (job_drawing_id j) (claimed e j w) = (Ret tt, w3)).
  { unfold process_drawing_job, _get_supabase.
    rewrite (run_bind_ret _ _ _ _ _ (run_get_supabase e _ Hr)).
    rewrite (run_bind_ret _ _ _ _ _ Hras).
    destruct continue; [apply later_stages_total | eexists; reflexivity]. }
  destruct Hpdj as [w3 Hpdj]. exists w3. eexists.
  split; [exact Hpdj|]. split; [exact (run_cycle e w j _ w3 Hr Hf Hj Hpdj)|].
  split; [|split; [|reflexivity]].
  - intros j' Hin Hid. cbn [jobs record set_jobs] in Hin.
    apply (patch_jobs_status _ _ _ _ Hin Hid).
  - cbn [jobs record set_jobs]. rewrite patch_jobs_error_message by reflexivity.
    rewrite (process_drawing_job_keeps_jobs e _ _ _ _ Hpdj).
    destruct (run_claim e j w Hr Hf) as [_ [t1 ->]].
    apply patch_jobs_error_message. reflexivity.
Qed.

(** The page holds a remark only and the model answers nothing: no
    extraction is saved, and the job ends success. *)
Lemma later_stages_never_fail_the_job_witness :
  let e := Scenario.service_env Scenario.remark_text ∅ None in
  ∃ w', _run_one_cycle e (Scenario.world_with [Scenario.page1]) = (Ret tt, w')
        ∧ ∀ j', j' ∈ jobs w' → job_id j' = u "j1" → job_status j' = u "success".
Proof.
  intros e. pose (w := Scenario.world_with [Scenario.page1]).
  assert (Hras : rasterize_stage e (job_drawing_id Scenario.queued_job)
                   (claimed e Scenario.queued_job w)
                 = (Ret true, (rasterize_stage e (u "d1") (claimed e Scenario.queued_job w)).2))
    by (vm_compute; reflexivity).
  destruct (later_stages_never_fail_the_job e w Scenario.queued_job true _
              (service_env_ready _ _ _) (service_env_no_db_faults _ _ _) eq_refl Hras)
    as (w3 & w' & _ & Hcycle & Hjob & _).
  exists w'. split; [exact Hcycle | exact Hjob].
Defined.



End QueueProperties.
(** ** What the OCR and the rasterizing write *)

Section OcrWrites.
Import ocr_service.

Lemma batches_of_concat {A} size : 0 < size → ∀ fuel (records : list A),
  length records ≤ fuel → concat (batches_of fuel size records) = records.
Proof.
  intros Hs. induction fuel as [|fuel IH]; intros records Hlen.
  - destruct records; [reflexivity | simpl in Hlen; lia].
  - destruct records as [|r records]; [reflexivity|].
    cbn [batches_of concat]. rewrite IH; [apply take_drop|].
    rewrite length_drop. simpl in *. lia.
Qed.

Lemma batches_of_sizes {A} size : 0 < size → ∀ fuel (records : list A),
  Forall (fun batch => batch ≠ [] ∧ length batch ≤ size) (batches_of fuel size records).
Proof.
  intros Hs. induction fuel as [|fuel IH]; intros records; [constructor|].
  destruct records as [|r records]; [constructor|].
  cbn [batches_of]. constructor; [|apply IH].
  split; [|rewrite length_take; lia].
  destruct size; [lia | discriminate].
Qed.

(** The requests of the persistence step, when they return. *)
Lemma update_file_size_ret e id width height w w' :
  update_file_size e id width height w = (Ret tt, w') →
  tokens w' = tokens w
  ∧ map without_image_size (files w') = map without_image_size (files w)
  ∧ ∀ f, f ∈ files w' → file_id f = id →
      file_image_width f = Some width ∧ file_image_height f = Some height.
Proof.
  unfold update_file_size, execute. destruct (db_fault e w _); [discriminate|].
  intros [= <-]. cbn [tokens files record set_files]. split; [reflexivity|]. split.
  - rewrite map_map. apply map_ext. intros f.
    destruct (bool_decide (file_id f = id)); reflexivity.
  - intros f Hin Hid. apply list_elem_of_fmap in Hin as (f0 & -> & _).
    destruct (bool_decide (file_id f0 = id)) eqn:E; [split; reflexivity|].
    apply bool_decide_eq_false in E. contradiction.
Qed.

Lemma delete_tokens_ret e id w w' :
  delete_tokens e id w = (Ret tt, w') →
  tokens w' = tokens_off_page id (tokens w) ∧ files w' = files w.
Proof.
  unfold delete_tokens, execute. destruct (db_fault e w _); [discriminate|].
  intros [= <-]. split; reflexivity.
Qed.

Lemma insert_batches_ret e batches : ∀ w w',
  for_each batches (insert_tokens e) w = (Ret tt, w') →
  tokens w' = tokens w ++ concat batches ∧ files w' = files w.
Proof.
  induction batches as [|batch batches IH]; intros w w' H.
  - injection H as <-. rewrite app_nil_r. split; reflexivity.
  - cbn [for_each] in H.
    apply bind_inv in H as [([] & w1 & H1 & H) | (err & _ & ?)]; [|discriminate].
    apply IH in H as [Ht Hf]. unfold insert_tokens, execute in H1.
    destruct (db_fault e w _); [discriminate|]. injection H1 as <-.
    rewrite Ht, Hf. cbn [tokens files record set_tokens concat].
    rewrite <- app_assoc. split; reflexivity.
Qed.

Lemma update_file_size_keeps_rows e id width height :
  keeps (fun w => (jobs w, drawings w, map without_image_size (files w)))
        (update_file_size e id width height).
Proof.
  apply keeps_execute; [reflexivity|]. intros w. cbn [fst snd jobs drawings files set_files].
  f_equal. rewrite map_map. apply map_ext. intros f.
  destruct (bool_decide (file_id f = id)); reflexivity.
Qed.

End OcrWrites.

Section OcrWritesProperties.
Import ocr_service.

(** X14. The extraction and the vectorizing only read: however they end,
    jobs, drawings, files and tokens are as they found them. The extraction
    hands its result to the caller, which saves it; the vectorizing writes
    to the vector index alone. *)
Theorem extraction_and_vectorizing_only_read (e : env) (drawing_id : pystr) :
  keeps tables (ai_extractor.process_ai_extraction_for_drawing e drawing_id)
  ∧ keeps tables (vectorizer.vectorize_drawing_for_search e drawing_id).
Proof.
  split.
  - apply keeps_process_ai_extraction. reflexivity.
  - apply keeps_vectorize_drawing_for_search. reflexivity.
Qed.

(** X15. The OCR of a drawing, however it ends, leaves the jobs and the
    drawings, and neither adds nor removes a file: of the rows of
    drawing_files it changes the image size at most. *)
Theorem ocr_keeps_the_files (e : env) (drawing_id : pystr) :
  keeps (fun w => (jobs w, drawings w, map without_image_size (files w)))
        (process_ocr_for_drawing e drawing_id).
Proof.
  apply keeps_process_ocr; [reflexivity | reflexivity |].
  apply update_file_size_keeps_rows.
Qed.

(** X16. The batches of an insert cover the records in order, none is
    empty and none is longer than the batch size. *)
Theorem batches_cover_the_records {A} (size : nat) (records : list A) :
  0 < size →
  concat (batches_of (length records) size records) = records
  ∧ Forall (fun batch => batch ≠ [] ∧ length batch ≤ size)
           (batches_of (length records) size records).
Proof.
  intros Hs. split; [apply batches_of_concat; [exact Hs | lia] | apply batches_of_sizes, Hs].
Qed.

Lemma batches_cover_the_records_witness :
  concat (batches_of 5 2 [1; 2; 3; 4; 5]) = [1; 2; 3; 4; 5]
  ∧ batches_of 5 2 [1; 2; 3; 4; 5] = [[1; 2]; [3; 4]; [5]].
Proof.
  split; [|reflexivity].
  apply (batches_cover_the_records 2 [1; 2; 3; 4; 5]). lia.
Defined.

(** X17. The persistence step of a page, when it returns, has replaced the
    tokens of the page: those of the other pages stay, in order, followed
    by one row per token of this OCR run, in order. The file of the page has
    the image size of the run, and no file is added or removed. *)
Theorem persist_page_replaces_tokens (e : env) (drawing_id page_file_id : pystr) (page_no : N)
    (out : ocr_output) (w w' : world) :
  persist_page e drawing_id page_file_id page_no out w = (Ret tt, w') →
  tokens w'
  = tokens_off_page page_file_id (tokens w)
    ++ map (TokenRow drawing_id page_file_id page_no) (out_tokens out)
  ∧ map without_image_size (files w') = map without_image_size (files w)
  ∧ ∀ f, f ∈ files w' → file_id f = page_file_id →
      file_image_width f = Some (out_image_width out)
      ∧ file_image_height f = Some (out_image_height out).
Proof.
  unfold persist_page. intros H.
  apply bind_inv in H as [([] & w1 & H1 & H) | (err & _ & ?)]; [|discriminate].
  apply update_file_size_ret in H1 as (Ht1 & Hf1 & Hsize).
  apply bind_inv in H as [([] & w2 & H2 & H) | (err & _ & ?)]; [|discriminate].
  apply delete_tokens_ret in H2 as (Ht2 & Hf2).
  assert (Hrest : tokens w'
                  = tokens w2 ++ map (TokenRow drawing_id page_file_id page_no) (out_tokens out)
                  ∧ files w' = files w2).
  { destruct (out_tokens out) as [|t ts] eqn:Eout.
    - injection H as <-. rewrite app_nil_r. split; reflexivity.
    - apply insert_batches_ret in H as [Ht Hf]. split; [|exact Hf].
      rewrite Ht, batches_of_concat; [reflexivity | lia | lia]. }
  destruct Hrest as [Ht Hf]. rewrite Ht, Ht2, Ht1, Hf, Hf2.
  split; [reflexivity|]. split; [exact Hf1 | exact Hsize].
Qed.

(** A second run over the page f1 of d1: the token of the first run goes. *)
Lemma persist_page_replaces_tokens_witness :
  let e := Scenario.service_env Scenario.base_plate_text ∅ None in
  let old := TokenRow (u "d1") (u "f1") 1 (OcrToken (u "旧") 0 0 1 1 None (u "word")) in
  let other := TokenRow (u "d1") (u "f2") 2 (OcrToken (u "他") 0 0 1 1 None (u "word")) in
  let new := OcrToken (u "新") 0 0 1 1 None (u "word") in
  let w := World [] ∅ [Scenario.page1] [old; other] [] in
  tokens (persist_page e (u "d1") (u "f1") 1 (OcrOutput (u "新") [new] 800 600) w).2
  = [other; TokenRow (u "d1") (u "f1") 1 new].
Proof.
  intros e old other new w.
  assert (H : persist_page e (u "d1") (u "f1") 1 (OcrOutput (u "新") [new] 800 600) w
              = (Ret tt, (persist_page e (u "d1") (u "f1") 1 (OcrOutput (u "新") [new] 800 600) w).2))
    by (vm_compute; reflexivity).
  rewrite (proj1 (persist_page_replaces_tokens e _ _ _ _ w _ H)).
  vm_compute. reflexivity.
Defined.

End OcrWritesProperties.
(** ** Rasterizing a PDF *)

Section Rasterizing.
Import pdf_processor.

(** Whether there is a client depends on the settings alone. *)
Lemma get_supabase_stable e w b w1 :
  _get_supabase e w = (Ret b, w1) → ∀ w2, _get_supabase e w2 = (Ret b, w2).
Proof.
  unfold _get_supabase, create_client.
  destruct (SUPABASE_URL e); [intros [= <- _]; reflexivity|].
  destruct (SUPABASE_SERVICE_ROLE_KEY e); [intros [= <- _]; reflexivity|].
  rewrite run_bind. destruct (client_error e); [discriminate|].
  intros [= <- _] w2. reflexivity.
Qed.

(** A company was found: there is a client, and the drawing has that owner. *)
Lemma get_company_id_Some e d w c w1 :
  _get_company_id e d w = (Ret (Some c), w1) →
  (∀ w2, _get_supabase e w2 = (Ret true, w2))
  ∧ tables w1 = tables w
  ∧ ∃ drw, drawings w !! d = Some drw ∧ d_company_id drw = Some c.
Proof.
  unfold _get_company_id. intros H.
  apply bind_inv in H as [(b & wa & Ha & H) | (err & _ & ?)]; [|discriminate].
  pose proof (keeps_get_supabase tables e _ _ _ Ha) as Hta.
  destruct b; [|discriminate].
  split; [exact (get_supabase_stable e _ _ _ Ha)|].
  apply bind_inv in H as [(r & wb & Hb & H) | (err & _ & ?)]; [|discriminate].
  pose proof (keeps_select_drawing tables (λ _ _, eq_refl) e d _ _ _ Hb) as Htb.
  unfold select_drawing, execute in Hb. destruct (db_fault e wa _); [discriminate|].
  injection Hb as <- _.
  assert (Hd : drawings wa = drawings w) by (injection Hta; auto).
  rewrite Hd in H. destruct (drawings w !! d) as [drw|]; [|discriminate].
  injection H as Hc <-. split; [congruence|]. exists drw. split; [reflexivity | exact Hc].
Qed.

(** Making the client touches nothing, not even the history. *)
Lemma get_supabase_world e w r w1 : _get_supabase e w = (r, w1) → w1 = w.
Proof.
  unfold _get_supabase, create_client.
  destruct (SUPABASE_URL e); [intros [= _ <-]; reflexivity|].
  destruct (SUPABASE_SERVICE_ROLE_KEY e); [intros [= _ <-]; reflexivity|].
  rewrite run_bind. destruct (client_error e); intros [= _ <-]; reflexivity.
Qed.

(** No company: the lookup returns nothing or raises, and writes nothing. *)
Lemma get_company_id_none e d w :
  (∀ drw, drawings w !! d = Some drw →
     d_company_id drw = None ∨ d_company_id drw = Some []) →
  ∃ r w1,
    _get_company_id e d w = (r, w1)
    ∧ (r = Ret None ∨ r = Ret (Some []) ∨ ∃ err, r = Raise err)
    ∧ tables w1 = tables w
    ∧ (trace w1 = trace w ∨ ∃ failed, trace w1 = trace w ++ [EvDb (SelectDrawing d false) failed])
    ∧ (supabase_ready e → db_fault e w (SelectDrawing d false) = None →
       r = Ret None ∨ r = Ret (Some [])).
Proof.
  intros Hnone. unfold _get_company_id. rewrite run_bind.
  destruct (_get_supabase e w) as [[b|err] wa] eqn:Ha;
    pose proof (get_supabase_world e _ _ _ Ha) as ->.
  - destruct b.
    + rewrite run_bind. unfold select_drawing, execute.
      destruct (db_fault e w (SelectDrawing d false)) as [err|] eqn:Ef.
      * eexists _, _. split; [reflexivity|]. split; [right; right; eauto|].
        split; [reflexivity|]. split; [right; eauto | congruence].
      * destruct (drawings w !! d) as [drw|] eqn:Ed.
        -- eexists _, _. split; [reflexivity|].
           destruct (Hnone drw eq_refl) as [-> | ->];
             (split; [auto|]; split; [reflexivity|]; split; [right; eauto | auto]).
        -- eexists _, _. split; [reflexivity|]. split; [auto|].
           split; [reflexivity|]. split; [right; eauto | auto].
    + eexists _, _. split; [reflexivity|]. split; [auto|].
      split; [reflexivity|]. split; [left; reflexivity | auto].
  - eexists _, _. split; [reflexivity|]. split; [right; right; eauto|].
    split; [reflexivity|]. split; [left; reflexivity|].
    intros Hr _. rewrite (run_get_supabase e w Hr) in Ha. discriminate.
Qed.

(** Registering a file when there is a client: one row more. *)
Lemma register_ret e p w w' :
  (∀ w2, _get_supabase e w2 = (Ret true, w2)) →
  _register_drawing_file e p w = (Ret tt, w') →
  files w'
  = files w ++ [DrawingFile (new_id e w) (fp_drawing_id p) (fp_type p) (fp_gcs_path p)
                  (fp_mime p) (fp_size p) (fp_page_no p) None None]
  ∧ jobs w' = jobs w ∧ drawings w' = drawings w ∧ tokens w' = tokens w.
Proof.
  intros Hs. unfold _register_drawing_file. rewrite (run_bind_ret _ _ _ _ _ (Hs w)).
  unfold insert_file, execute. destruct (db_fault e w _); [discriminate|].
  intros [= <-]. repeat split.
Qed.

Lemma upload_blob_tables e data path ct w r w' :
  upload_blob e data path ct w = (r, w') → tables w' = tables w.
Proof. apply (keeps_upload_blob tables). reflexivity. Qed.

(** The loop over the pages: one row per image, numbered upwards. *)
Lemma register_pages_ret e d prefix images : ∀ n w w',
  (∀ w2, _get_supabase e w2 = (Ret true, w2)) →
  for_each (enumerate_from n images) (fun '(page_no, page_data) =>
    let page_gcs_path := prefix ++ u "_page_" ++ format_03d page_no ++ u ".png" in
    _ ← upload_blob e page_data page_gcs_path (u "image/png");
    _register_drawing_file e
      (FilePayload d (u "page_image") page_gcs_path (u "image/png")
         (Some (size_of page_data)) (Some page_no))) w = (Ret tt, w') →
  ∃ pages,
    files w' = files w ++ pages
    ∧ length pages = length images
    ∧ (∀ i f, pages !! i = Some f →
         file_drawing_id f = d ∧ file_type f = u "page_image" ∧ file_mime f = u "image/png"
         ∧ file_page_no f = Some (n + N.of_nat i)%N
         ∧ file_gcs_path f = prefix ++ u "_page_" ++ format_03d (n + N.of_nat i) ++ u ".png"
         ∧ ∃ data, images !! i = Some data ∧ file_size f = Some (size_of data))
    ∧ jobs w' = jobs w ∧ drawings w' = drawings w ∧ tokens w' = tokens w.
Proof.
  induction images as [|image images IH]; intros n w w' Hs H.
  - injection H as <-. exists []. rewrite app_nil_r.
    split; [reflexivity|]. split; [reflexivity|]. split; [|repeat split].
    intros i f Hi. rewrite lookup_nil in Hi. discriminate.
  - cbn [enumerate_from for_each] in H.
    apply bind_inv in H as [([] & w1 & H1 & H) | (err & _ & ?)]; [|discriminate].
    apply bind_inv in H1 as [([] & wa & Ha & H1) | (err & _ & ?)]; [|discriminate].
    apply upload_blob_tables in Ha. injection Ha as Hja Hda Hfa Hta.
    apply (register_ret e _ _ _ Hs) in H1 as (Hf1 & Hj1 & Hd1 & Ht1).
    apply (IH _ _ _ Hs) in H as (pages & Hf & Hlen & Hpages & Hj & Hd & Ht).
    refine (ex_intro _ (_ :: pages) _). split; [|split; [|split]].
    + rewrite Hf, Hf1, Hfa, <- app_assoc. reflexivity.
    + simpl. rewrite Hlen. reflexivity.
    + intros i f Hi. destruct i as [|i].
      * injection Hi as <-. replace (n + N.of_nat 0)%N with n by lia.
        do 5 (split; [reflexivity|]). exists image. split; reflexivity.
      * cbn in Hi. destruct (Hpages i f Hi) as (H1 & H2 & H3 & H4 & H5 & H6).
        replace (n + N.of_nat (S i))%N with (n + 1 + N.of_nat i)%N by lia.
        repeat split; assumption.
    + repeat split; congruence.
Qed.

End Rasterizing.

Section RasterizingProperties.
Import pdf_processor.



(** X19. Rasterizing a drawing that has no company (no row, no owner, or
    an empty one) always raises, before anything is downloaded, converted,
    uploaded or registered: the tables are untouched and the lookup is the
    only request there can have been. With the store configured and
    answering, the exception is the ValueError that names the drawing. *)
Theorem process_pdf_needs_a_company (e : env) (drawing_id pdf_gcs_path : pystr) (w : world) :
  (∀ drw, drawings w !! drawing_id = Some drw →
     d_company_id drw = None ∨ d_company_id drw = Some []) →
  ∃ err w',
    process_pdf e drawing_id pdf_gcs_path w = (Raise err, w')
    ∧ tables w' = tables w
    ∧ (trace w' = trace w
       ∨ ∃ failed, trace w' = trace w ++ [EvDb (SelectDrawing drawing_id false) failed])
    ∧ (supabase_ready e → db_fault e w (SelectDrawing drawing_id false) = None →
       err = Exn (u "ValueError") (u "company_id not found for drawing_id=" ++ drawing_id)).
Proof.
  intros Hnone.
  destruct (get_company_id_none e drawing_id w Hnone) as (r & w1 & Hc & Hr & Ht & Htr & Hok).
  unfold process_pdf. rewrite run_bind, Hc.
  destruct Hr as [-> | [-> | [err ->]]].
  - eexists _, w1. split; [reflexivity|]. split; [exact Ht|]. split; [exact Htr | reflexivity].
  - eexists _, w1. split; [reflexivity|]. split; [exact Ht|]. split; [exact Htr | reflexivity].
  - exists err, w1. split; [reflexivity|]. split; [exact Ht|]. split; [exact Htr|].
    intros Hready Hf. destruct (Hok Hready Hf); discriminate.
Qed.

Lemma process_pdf_needs_a_company_witness :
  ∃ w', process_pdf (Scenario.service_env Scenario.remark_text ∅ None) (u "d1")
          (u "uploads/d1.pdf") orphan_world
        = (Raise (Exn (u "ValueError") (u "company_id not found for drawing_id=" ++ u "d1")), w')
        ∧ tables w' = tables orphan_world.
Proof.
  pose (e := Scenario.service_env Scenario.remark_text ∅ None).
  assert (Hnone : ∀ drw, drawings orphan_world !! u "d1" = Some drw →
                    d_company_id drw = None ∨ d_company_id drw = Some [])
    by (intros drw H; vm_compute in H; discriminate).
  destruct (process_pdf_needs_a_company e (u "d1") (u "uploads/d1.pdf") orphan_world Hnone)
    as (err & w' & Hrun & Ht & _ & Herr).
  exists w'. rewrite <- (Herr (service_env_ready _ _ _) eq_refl).
  split; [exact Hrun | exact Ht].
Defined.

End RasterizingProperties.
(** ** The preprocessing, the validated date, the vectorizing *)

Section Preprocessing.
Import ai_extractor.

Lemma first_non_label_spec ls v :
  first_non_label ls = Some v → ∃ l, l ∈ ls ∧ is_label l = false ∧ v = strip l.
Proof.
  induction ls as [|l ls IH]; simpl; [discriminate|].
  destruct (is_label l) eqn:El.
  - intros H. destruct (IH H) as (l' & Hin & Hl & Hv).
    exists l'. split; [apply list_elem_of_further, Hin | split; assumption].
  - intros [= <-]. exists l. split; [apply list_elem_of_here | split; [exact El | reflexivity]].
Qed.

Lemma label_pairs_spec lines kv :
  kv ∈ label_pairs lines →
  kv.1 ∈ lines ∧ is_label kv.1 = true ∧ kv.2 ≠ []
  ∧ ∃ l, l ∈ lines ∧ is_label l = false ∧ kv.2 = strip l.
Proof.
  induction lines as [|line lines IH]; simpl; [intros H; apply elem_of_nil in H; destruct H|].
  assert (Hrest : kv ∈ label_pairs lines →
            kv.1 ∈ line :: lines ∧ is_label kv.1 = true ∧ kv.2 ≠ []
            ∧ ∃ l, l ∈ line :: lines ∧ is_label l = false ∧ kv.2 = strip l).
  { intros H. destruct (IH H) as (H1 & H2 & H3 & l & H4 & H5 & H6).
    split; [apply list_elem_of_further, H1|]. split; [exact H2|]. split; [exact H3|].
    exists l. split; [apply list_elem_of_further, H4 | split; assumption]. }
  destruct (is_label line) eqn:El; [|exact Hrest].
  destruct (first_non_label lines) as [[|c v]|] eqn:Ef; try exact Hrest.
  intros H. apply elem_of_cons in H as [-> | H]; [|exact (Hrest H)].
  apply first_non_label_spec in Ef as (l & Hin & Hl & Hv). cbn [fst snd].
  split; [apply list_elem_of_here|]. split; [exact El|]. split; [discriminate|].
  exists l. split; [apply list_elem_of_further, Hin | split; assumption].
Qed.

(** A line of the text, as the two functions see them, is trimmed. *)
Lemma stripped_line_trimmed text l : l ∈ stripped_lines text → strip l = l.
Proof.
  unfold stripped_lines. intros H. apply list_elem_of_fmap in H as (x & -> & _).
  apply strip_idempotent.
Qed.

End Preprocessing.

Section PreprocessingProperties.
Import ai_extractor.

(** X20. The preprocessing returns the text as it is, or lines of the form
    "label: value", at least one. Each label is a line of the text that is
    a known label and an extraction label, so never 出図日, which is no known
    label; each value is a line of the text that is no label and not
    empty. *)
Theorem preprocessing_pairs_labels_with_values (ocr_text : pystr) :
  _preprocess_ocr_for_extraction ocr_text = ocr_text
  ∨ ∃ pairs,
      pairs ≠ []
      ∧ _preprocess_ocr_for_extraction ocr_text
        = join [10%N] (map (fun kv : pystr * pystr => kv.1 ++ u ": " ++ kv.2) pairs)
      ∧ ∀ kv, kv ∈ pairs →
          kv.1 ∈ stripped_lines ocr_text ∧ is_label kv.1 = true
          ∧ kv.1 ∈ _EXTRACTION_LABELS ∧ kv.1 ≠ u "出図日"
          ∧ kv.2 ∈ stripped_lines ocr_text ∧ is_label kv.2 = false ∧ kv.2 ≠ [].
Proof.
  unfold _preprocess_ocr_for_extraction.
  destruct (_ || _); [left; reflexivity|].
  destruct (stripped_lines ocr_text) as [|line lines] eqn:El; [left; reflexivity|].
  destruct (label_pairs (line :: lines)) as [|p ps] eqn:Ep; [left; reflexivity|].
  destruct (List.filter _ (p :: ps)) as [|q qs] eqn:Eq; [left; reflexivity|].
  right. exists (q :: qs). split; [discriminate|]. split; [reflexivity|].
  intros kv Hin. rewrite <- Eq in Hin.
  apply list_elem_of_In, filter_In in Hin as [Hin Hext].
  apply list_elem_of_In in Hin. rewrite <- Ep in Hin.
  apply bool_decide_eq_true in Hext.
  apply label_pairs_spec in Hin as (H1 & H2 & H3 & l & H4 & H5 & H6).
  assert (Hl : strip l = l) by (apply (stripped_line_trimmed ocr_text); rewrite El; exact H4).
  rewrite Hl in H6. rewrite H6.
  repeat split; try assumption.
  - intros Hdate. rewrite Hdate in H2. vm_compute in H2. discriminate.
  - rewrite <- H6. exact H3.
Qed.

End PreprocessingProperties.

Section ValidatedDate.
Import ai_extractor.

(** What the cascade returns is nothing, or a record whose date was checked. *)
Lemma cascade_ret e d t w r w' :
  cascade e d t w = (Ret r, w') → r = ∅ ∨ ∃ x, r = validate_issue_date x.
Proof.
  unfold cascade. destruct (_has_any_extracted_value (_extract_by_rules t)).
  - intros [= <- _]. right. eauto.
  - intros H.
    apply bind_inv in H as [(files & w1 & _ & H) | (err & _ & ?)]; [|discriminate].
    apply bind_inv in H as [(ai1 & w2 & _ & H) | (err & _ & ?)]; [|discriminate].
    apply bind_inv in H as [(ai2 & w3 & _ & H) | (err & _ & ?)]; [|discriminate].
    destruct (_ || _); injection H as <- _; [left; reflexivity | right; eauto].
Qed.

Lemma process_ai_extraction_ret e d w r w' :
  process_ai_extraction_for_drawing e d w = (Ret r, w') →
  r = ∅ ∨ ∃ x, r = validate_issue_date x.
Proof.
  unfold process_ai_extraction_for_drawing. intros H.
  apply bind_inv in H as [(a & w1 & _ & H) | (err & _ & ?)]; [|discriminate].
  apply bind_inv in H as [(drw & w2 & _ & H) | (err & _ & ?)]; [|discriminate].
  destruct drw as [drw|]; [|injection H as <- _; left; reflexivity].
  apply bind_inv in H as [(ocr & w3 & _ & H) | (err & _ & ?)]; [|discriminate].
  apply bind_inv in H as [(text & w4 & _ & H) | (err & _ & ?)]; [|discriminate].
  destruct (negb (truthy text)); [injection H as <- _; left; reflexivity|].
  destruct text; try discriminate. exact (cascade_ret _ _ _ _ _ _ H).
Qed.

End ValidatedDate.

Section ValidatedDateProperties.
Import ai_extractor.

(** X21. Whatever the extraction returns, from the rules or from a model:
    the value under the key issue_date is null, empty, or a date that
    strptime parses as %Y-%m-%d. *)
Theorem returned_date_is_validated (e : env) (drawing_id : pystr) (w w' : world) (r : pydict) :
  process_ai_extraction_for_drawing e drawing_id w = (Ret r, w') →
  truthy (dict_get r (u "issue_date")) = true →
  strptime_ok (dict_get r (u "issue_date")) = true.
Proof.
  intros H. apply process_ai_extraction_ret in H as [-> | [x ->]].
  - discriminate.
  - apply validate_issue_date_spec.
Qed.

(** The text-only model answers a date of the 31st of April and a title:
    the title is returned, the date is not. *)
Lemma returned_date_is_validated_witness :
  let answer : pydict :=
    list_to_map [(u "issue_date", PStr (u "2024-04-31")); (u "title", PStr (u "ブラケット"))] in
  let e := Scenario.service_env Scenario.remark_text answer None in
  let w := (job_processor.ocr_stage e (u "d1") (Scenario.world_with [Scenario.page1])).2 in
  let r := <[u "issue_date" := PNone]> answer in
  (process_ai_extraction_for_drawing e (u "d1") w).1 = Ret r
  ∧ (truthy (dict_get r (u "issue_date")) = true →
     strptime_ok (dict_get r (u "issue_date")) = true).
Proof.
  intros answer e w r.
  assert (H : process_ai_extraction_for_drawing e (u "d1") w
              = (Ret r, (process_ai_extraction_for_drawing e (u "d1") w).2))
    by (vm_compute; reflexivity).
  split; [rewrite H; reflexivity|].
  exact (returned_date_is_validated e (u "d1") w _ r H).
Defined.

End ValidatedDateProperties.

Section Vectorizing.
Import vectorizer.

Lemma get_of_pure v k dflt w r w' : ai_extractor.get_of v k dflt w = (r, w') → w' = w.
Proof. unfold ai_extractor.get_of. destruct v; intros [= _ <-]; reflexivity. Qed.

Lemma ai_parts_pure ai keys : ∀ parts w r w', ai_parts ai keys parts w = (r, w') → w' = w.
Proof.
  induction keys as [|key keys IH]; intros parts w r w' H.
  - injection H as _ <-. reflexivity.
  - cbn [ai_parts] in H.
    apply bind_inv in H as [(val & w1 & H1 & H) | (err & H1 & _)];
      apply get_of_pure in H1; subst; [|reflexivity].
    exact (IH _ _ _ _ H).
Qed.

Lemma strings_of_pure parts : ∀ w r w', strings_of parts w = (r, w') → w' = w.
Proof.
  induction parts as [|p parts IH]; intros w r w' H.
  - injection H as _ <-. reflexivity.
  - destruct p; try (injection H as _ <-; reflexivity).
    cbn [strings_of] in H.
    apply bind_inv in H as [(rest & w1 & H1 & H) | (err & H1 & _)];
      apply IH in H1; subst; [|reflexivity].
    injection H as _ <-. reflexivity.
Qed.

(** The search text is built without talking to anyone, and is cut. *)
Lemma build_search_text_bounded e j w r w' :
  _build_search_text e j w = (r, w') →
  w' = w ∧ ∀ t, r = Ret t → length t ≤ N.to_nat 8000.
Proof.
  unfold _build_search_text. intros H.
  apply bind_inv in H as [(a & w1 & H1 & H) | (err & H1 & ->)];
    apply get_of_pure in H1; subst; [|split; [reflexivity | discriminate]].
  apply bind_inv in H as [(b & w1 & H1 & H) | (err & H1 & ->)];
    apply ai_parts_pure in H1; subst; [|split; [reflexivity | discriminate]].
  apply bind_inv in H as [(c & w1 & H1 & H) | (err & H1 & ->)];
    apply get_of_pure in H1; subst; [|split; [reflexivity | discriminate]].
  apply bind_inv in H as [(p & w1 & H1 & H) | (err & H1 & ->)];
    apply strings_of_pure in H1; subst; [|split; [reflexivity | discriminate]].
  injection H as <- <-. split; [reflexivity|].
  intros t [= <-]. rewrite length_take. lia.
Qed.

(** The embedding never raises; it asks the model at most once. *)
Lemma get_embedding_cases e t w r w' :
  _get_embedding e t w = (r, w') →
  (r = Ret None ∧ w' = w)
  ∨ ∃ emb, w' = record (EvEmbedding t emb) w
           ∧ r = Ret match emb with Ret v => v | Raise _ => None end.
Proof.
  unfold _get_embedding. destruct (strip t); [intros [= <- <-]; left; split; reflexivity|].
  destruct (GEMINI_API_KEY e); [intros [= <- <-]; left; split; reflexivity|].
  unfold try_except, embed_content.
  destruct (gemini_embedding e w t) as [v|err]; intros [= <- <-]; right; eexists;
    split; reflexivity.
Qed.

End Vectorizing.

Section VectorizingProperties.
Import vectorizer.



End VectorizingProperties.

(** ** The bounding box of a word *)

Section BoundingBox.

Lemma foldl_min_spec xs : ∀ x : Z,
  (foldl Z.min x xs ≤ x)%Z
  ∧ (∀ y, y ∈ xs → (foldl Z.min x xs ≤ y)%Z)
  ∧ foldl Z.min x xs ∈ x :: xs.
Proof.
  induction xs as [|a xs IH]; intros x; simpl.
  - split; [lia|]. split; [intros y H; apply elem_of_nil in H; destruct H | apply list_elem_of_here].
  - destruct (IH (Z.min x a)) as (H1 & H2 & H3). split; [lia|]. split.
    + intros y Hy. apply elem_of_cons in Hy as [-> | Hy]; [lia | apply H2, Hy].
    + apply elem_of_cons in H3 as [H3 | H3].
      * rewrite H3. destruct (Z.min_spec x a) as [[_ ->] | [_ ->]];
          [apply list_elem_of_here | apply list_elem_of_further, list_elem_of_here].
      * do 2 apply list_elem_of_further. exact H3.
Qed.

Lemma foldl_max_spec xs : ∀ x : Z,
  (x ≤ foldl Z.max x xs)%Z
  ∧ (∀ y, y ∈ xs → (y ≤ foldl Z.max x xs)%Z)
  ∧ foldl Z.max x xs ∈ x :: xs.
Proof.
  induction xs as [|a xs IH]; intros x; simpl.
  - split; [lia|]. split; [intros y H; apply elem_of_nil in H; destruct H | apply list_elem_of_here].
  - destruct (IH (Z.max x a)) as (H1 & H2 & H3). split; [lia|]. split.
    + intros y Hy. apply elem_of_cons in Hy as [-> | Hy]; [lia | apply H2, Hy].
    + apply elem_of_cons in H3 as [H3 | H3].
      * rewrite H3. destruct (Z.max_spec x a) as [[_ ->] | [_ ->]];
          [apply list_elem_of_further, list_elem_of_here | apply list_elem_of_here].
      * do 2 apply list_elem_of_further. exact H3.
Qed.

End BoundingBox.

Section BoundingBoxProperties.
Import ocr_service.


End BoundingBoxProperties.
(** ** From one stage to the next *)

Section StageToStage.
Import ai_extractor job_processor.

Lemma model_calls_record ev w :
  model_calls (record ev w) = model_calls w ++ (if is_model_call ev then [ev] else []).
Proof.
  unfold model_calls. cbn [trace record]. rewrite List.filter_app. simpl.
  destruct (is_model_call ev); reflexivity.
Qed.

(** A query that writes nothing leaves one event, which is no model call. *)
Lemma select_files_calls e d t mime ordered limit1 w r w' :
  select_files e d t mime ordered limit1 w = (r, w') → model_calls w' = model_calls w.
Proof.
  unfold select_files, execute. destruct (db_fault e w _); intros [= _ <-];
    rewrite model_calls_record; apply app_nil_r.
Qed.

(** Fetching the image never raises and is no model call. *)
Lemma get_image_bytes_ret e path w :
  ∃ image w', ocr_service.get_image_bytes_from_gcs e path w = (Ret image, w')
              ∧ model_calls w' = model_calls w.
Proof.
  unfold ocr_service.get_image_bytes_from_gcs, ocr_service._download_image_from_gcs,
    try_except, download_blob. rewrite run_bind.
  destruct (gcs_download e w path); cbn [of_outcome ret raise];
    eexists _, _; (split; [reflexivity|]); rewrite model_calls_record; apply app_nil_r.
Qed.

(** One call of the model with the image: it never raises. *)
Lemma multimodal_call e image text mime w :
  ∃ a, extract_drawing_fields_multimodal e image text mime w
       = (Ret (default ∅ a), record (EvGeminiMultimodal image text mime a) w).
Proof.
  unfold extract_drawing_fields_multimodal. destruct (GEMINI_API_KEY e).
  - exists None. reflexivity.
  - eexists (Some _). reflexivity.
Qed.

Lemma text_call e text w :
  ∃ b, extract_drawing_fields e text w
       = (Ret (default ∅ b), record (EvGeminiText text b) w).
Proof.
  unfold extract_drawing_fields. destruct (GEMINI_API_KEY e).
  - exists None. reflexivity.
  - eexists (Some _). reflexivity.
Qed.

Lemma final_world (c : bool) (x y : pydict) w r w' :
  (if c then ret x else ret y) w = (r, w') → w' = w.
Proof. destruct c; intros [= _ <-]; reflexivity. Qed.

End StageToStage.

Section StageToStageProperties.
Import ai_extractor job_processor.

(** X24. What the OCR stage stores is what the extraction reads. With the
    store configured and answering: when the OCR of an existing drawing
    returns a text that is not empty, the stage stores it under
    extracted_json.ocr.ocr_text, and the extraction that follows runs its
    cascade on the first page of exactly that text, after one read. *)
Theorem stored_text_is_read_back (e : env) (drawing_id : pystr) (w w1 : world) (drw : drawing)
    (ocr_result : pydict) (ocr_text : pystr) :
  supabase_ready e → no_db_faults e →
  drawings w !! drawing_id = Some drw →
  ocr_service.process_ocr_for_drawing e drawing_id w = (Ret ocr_result, w1) →
  ocr_result !! u "ocr_text" = Some (PStr ocr_text) → ocr_text ≠ [] →
  ∃ w2,
    ocr_stage e drawing_id w = (Ret tt, w2)
    ∧ stored_ocr_text w2 drawing_id ocr_text
    ∧ process_ai_extraction_for_drawing e drawing_id w2
      = cascade e drawing_id (_first_page_ocr_text ocr_text)
          (record (EvDb (SelectDrawing drawing_id true) None) w2).
Proof.
  intros Hr Hf Hd Hocr Htext Hne.
  pose proof (keeps_process_ocr drawings (λ _ _, eq_refl) (λ _ _, eq_refl)
                (λ e0 id wd ht, keeps_update_file_size drawings (λ _ _, eq_refl) e0 id wd ht
                                  (λ _ _, eq_refl)) e _ _ _ _ Hocr) as Hd1.
  assert (Hstage : ocr_stage e drawing_id w
                   = update_drawing e drawing_id
                       {[ u "extracted_json"
                          := PDict (<[u "ocr" := PDict ocr_result]>
                                      (existing_document (Some drw))) ]}
                       (record (EvDb (SelectDrawing drawing_id true) None) w1)).
  { unfold ocr_stage.
    assert (Htruthy : truthy (dict_get ocr_result (u "ocr_text")) = true).
    { unfold dict_get. rewrite Htext. destruct ocr_text; [congruence | reflexivity]. }
    match goal with
    | |- try_except ?m ?h w = ?rhs =>
      assert (Hbody : m w = rhs); [|destruct rhs as [[[]|err] wr] eqn:Erhs;
        [apply run_try_ret; exact Hbody|]]
    end.
    - rewrite (run_bind_ret _ _ _ _ _ Hocr), Htruthy. cbn [orb].
      rewrite (run_bind_ret _ _ _ _ _
                 (run_select_drawing_single e drawing_id w1 drw (Hf _ _)
                    ltac:(rewrite Hd1; exact Hd))).
      reflexivity.
    - exfalso. unfold update_drawing in Erhs. rewrite run_execute in Erhs by apply Hf.
      discriminate. }
  unfold update_drawing in Hstage. rewrite run_execute in Hstage by apply Hf.
  cbn [fst snd drawings record] in Hstage. rewrite Hd1, Hd in Hstage.
  eexists. split; [exact Hstage|].
  assert (Hstored : ∀ w2 : world,
            drawings w2
            = <[drawing_id := Drawing (d_company_id drw)
                                ({[ u "extracted_json"
                                    := PDict (<[u "ocr" := PDict ocr_result]>
                                                (existing_document (Some drw))) ]}
                                 ∪ d_fields drw)]> (drawings w) →
            stored_ocr_text w2 drawing_id ocr_text).
  { intros w2 Hw2. eexists _, _, ocr_result. rewrite Hw2, lookup_insert_eq.
    split; [reflexivity|]. cbn [d_fields]. split; [|split; [apply lookup_insert_eq | exact Htext]].
    unfold dict_get. erewrite lookup_union_Some_l; [reflexivity|]. apply lookup_singleton_eq. }
  split.
  - apply Hstored. cbn [drawings record set_drawings]. reflexivity.
  - apply run_process_ai_extraction; [exact Hr | apply Hf | | exact Hne].
    apply Hstored. cbn [drawings record set_drawings]. reflexivity.
Qed.

(** The page of the base plate. *)
Lemma stored_text_is_read_back_witness :
  let e := Scenario.service_env Scenario.base_plate_text ∅ None in
  let w := Scenario.world_with [Scenario.page1] in
  ∃ w2, ocr_stage e (u "d1") w = (Ret tt, w2)
        ∧ stored_ocr_text w2 (u "d1") (ocr_service.page_block 1 Scenario.base_plate_text).
Proof.
  intros e w.
  assert (Hd : drawings w !! u "d1"
               = Some (Drawing (Some (u "c1")) {[u "title" := PStr (u "Old title")]}))
    by (vm_compute; reflexivity).
  assert (Hocr : ocr_service.process_ocr_for_drawing e (u "d1") w
                 = (Ret (ocr_service.ocr_document
                           (ocr_service.page_block 1 Scenario.base_plate_text)
                           [ocr_service.page_entry 1 Scenario.base_plate_text]),
                    (ocr_service.process_ocr_for_drawing e (u "d1") w).2))
    by (vm_compute; reflexivity).
  assert (Htext : ocr_service.ocr_document
                    (ocr_service.page_block 1 Scenario.base_plate_text)
                    [ocr_service.page_entry 1 Scenario.base_plate_text] !! u "ocr_text"
                  = Some (PStr (ocr_service.page_block 1 Scenario.base_plate_text)))
    by (vm_compute; reflexivity).
  assert (Hne : ocr_service.page_block 1 Scenario.base_plate_text ≠ [])
    by (vm_compute; discriminate).
  destruct (stored_text_is_read_back e (u "d1") w _ _ _ _
              (service_env_ready _ _ _) (service_env_no_db_faults _ _ _) Hd Hocr Htext Hne)
    as (w2 & Hstage & Hstored & _).
  exists w2. split; [exact Hstage | exact Hstored].
Defined.



(** The drawing d1 after its OCR: the extraction is saved beside the
    OCR document. *)
Lemma save_keeps_other_documents_witness :
  let e := Scenario.service_env Scenario.base_plate_text ∅ None in
  let w := (ocr_stage e (u "d1") (Scenario.world_with [Scenario.page1])).2 in
  let d := default (Drawing None ∅) (drawings w !! u "d1") in
  let w' := (save_extracted_fields_to_drawing e (u "d1") Scenario.partial_result w).2 in
  ∃ d' json,
    drawings w' !! u "d1" = Some d'
    ∧ d_fields d' !! u "extracted_json" = Some (PDict json)
    ∧ json !! u "ai" = Some (PDict Scenario.partial_result)
    ∧ json !! u "ocr" = existing_document (Some d) !! u "ocr".
Proof.
  intros e w d w'.
  assert (Hsave : save_extracted_fields_to_drawing e (u "d1") Scenario.partial_result w
                  = (Ret tt, w')) by (vm_compute; reflexivity).
  assert (Hd : drawings w !! u "d1" = Some d) by (vm_compute; reflexivity).
  destruct (save_keeps_other_documents e (u "d1") Scenario.partial_result w w' d Hsave Hd)
    as [(d' & json & Hd' & _ & Hjson & Hai & Hkeep) _].
  exists d', json. split; [exact Hd'|]. split; [exact Hjson|]. split; [exact Hai|].
  apply Hkeep. vm_compute. discriminate.
Defined.

End StageToStageProperties.
(** ** The OCR of one image, and of a drawing without pages *)

Section OcrEdges.
Import ocr_service job_processor.

Lemma filter_nonblank_tokens (words : list ocr_token) :
  Forall (fun t => strip (tok_text t) ≠ [])
    (List.filter (fun t => match strip (tok_text t) with [] => false | _ => true end) words).
Proof.
  apply Forall_forall. intros t Hin. apply list_elem_of_In, filter_In in Hin as [_ Hin].
  destruct (strip (tok_text t)); [discriminate Hin | discriminate].
Qed.

(** The query for the page images of a drawing that has none. *)
Lemma select_no_page_images e d ordered limit1 w r w' :
  (∀ f, f ∈ files w → file_drawing_id f = d → file_type f ≠ u "page_image") →
  select_files e d (u "page_image") None ordered limit1 w = (r, w') →
  tables w' = tables w ∧ (r = Ret [] ∨ ∃ err, r = Raise err).
Proof.
  intros Hnone H.
  split; [exact (keeps_select_files tables (λ _ _, eq_refl) e _ _ _ _ _ _ _ _ H)|].
  unfold select_files, execute in H. destruct (db_fault e w _); [injection H as <- _; eauto|].
  injection H as <- _. left. f_equal.
  assert (Hfilter : List.filter (fun f =>
            bool_decide (file_drawing_id f = d) && bool_decide (file_type f = u "page_image")
            && true) (files w) = []).
  { induction (files w) as [|f fs IH]; [reflexivity|]. simpl.
    assert (Hf : bool_decide (file_drawing_id f = d)
                 && bool_decide (file_type f = u "page_image") && true = false).
    { destruct (decide (file_drawing_id f = d)) as [Hd | Hd];
        [|rewrite (bool_decide_eq_false_2 _ Hd); reflexivity].
      rewrite (bool_decide_eq_false_2 (file_type f = u "page_image"));
        [apply andb_false_iff; left; apply andb_false_r|].
      apply (Hnone f); [apply list_elem_of_here | exact Hd]. }
    rewrite Hf. apply IH. intros g Hg. apply Hnone, list_elem_of_further, Hg. }
  rewrite Hfilter. destruct ordered, limit1; reflexivity.
Qed.

End OcrEdges.

Section OcrEdgesProperties.
Import ocr_service job_processor.


(** X27. A drawing without page images: the OCR stage returns and writes
    nothing, whatever the store and the services do; no empty OCR document
    replaces what the drawing has. *)
Theorem ocr_without_pages_writes_nothing (e : env) (drawing_id : pystr) (w : world) :
  (∀ f, f ∈ files w → file_drawing_id f = drawing_id → file_type f ≠ u "page_image") →
  ∃ w', ocr_stage e drawing_id w = (Ret tt, w') ∧ tables w' = tables w.
Proof.
  intros Hnone. exists (ocr_stage e drawing_id w).2.
  split; [unfold ocr_stage; apply try_logged_total|].
  unfold ocr_stage, try_except, process_ocr_for_drawing.
  rewrite !run_bind.
  destruct (create_client e w) as [[[]|err] w1] eqn:H1;
    pose proof (keeps_create_client tables e _ _ _ H1) as Ht1; [|exact Ht1].
  assert (Hnone1 : ∀ f, f ∈ files w1 → file_drawing_id f = drawing_id →
                     file_type f ≠ u "page_image").
  { injection Ht1 as _ _ -> _. exact Hnone. }
  rewrite run_bind.
  destruct (select_files e drawing_id (u "page_image") None true false w1) as [r w2] eqn:H2.
  assert (Hempty : truthy (dict_get (ocr_document [] []) (u "ocr_text"))
                   || truthy (dict_get (ocr_document [] []) (u "pages")) = false)
    by (vm_compute; reflexivity).
  destruct (select_no_page_images e drawing_id true false w1 r w2 Hnone1 H2)
    as [Ht2 [-> | [err ->]]]; cbv beta iota.
  - unfold ret at 1. cbv beta iota. rewrite Hempty. cbn [ret snd]. congruence.
  - cbn [ret snd]. congruence.
Qed.

(** The drawing d1 with its PDF only. *)
Lemma ocr_without_pages_writes_nothing_witness :
  let e := Scenario.service_env Scenario.remark_text ∅ None in
  ∃ w', ocr_stage e (u "d1") (Scenario.world_with [pdf1]) = (Ret tt, w')
        ∧ tables w' = tables (Scenario.world_with [pdf1]).
Proof.
  intros e. apply (ocr_without_pages_writes_nothing e (u "d1") (Scenario.world_with [pdf1])).
  intros f Hin _. apply list_elem_of_singleton in Hin. subst f. vm_compute. discriminate.
Defined.

End OcrEdgesProperties.
